(** * Tami knowledge graph: entity resolution and relationship inference

    A shallow embedding of the graph operations of
    [scripts/neo4j/operations/entities.py] and
    [scripts/neo4j/operations/relationships.py], of the client of
    [scripts/neo4j/client.py] they talk to, and of the confidence filter of
    [services/langextract/extractor.py].

    Every operation of the Python classes sends Cypher text to the store.  The
    store is modelled as an explicit property graph, each Cypher query as a
    function on that graph that follows the query clause by clause (a table of
    rows flows from one clause to the next; a statement that the store cannot
    parse is the exception it raises), and each Python method as a small
    program in a state-and-exception monad over the client. *)

From Stdlib Require Import List String Ascii ZArith Bool Arith Lia.
From Stdlib Require Import Floats.SpecFloat.
From Stdlib Require Import Permutation Sorted.
Import ListNotations.

Open Scope string_scope.
Open Scope list_scope.
Open Scope Z_scope.

Set Implicit Arguments.

(* ================================================================== *)
(** * Python and Cypher values *)

(** Python [float] and Neo4j [Float] are IEEE binary64 numbers; they are
    modelled by the specification floats of the standard library, whose
    comparison follows IEEE 754 (a NaN compares false with everything). *)
Definition float := spec_float.

Definition float_of_mantissa (m : positive) (e : Z) : float := S754_finite false m e.

(** The literals of the source, as binary64 values. *)
Definition f_0_7 : float := float_of_mantissa 6305039478318694 (-53).
Definition f_0_8 : float := float_of_mantissa 7205759403792794 (-53).
Definition f_0_85 : float := float_of_mantissa 7656119366529843 (-53).
Definition f_1_0 : float := float_of_mantissa 4503599627370496 (-52).

(** Python's [a >= b] and [a < b] on floats. *)
Definition float_ge (a b : float) : bool := SFleb b a.
Definition float_lt (a b : float) : bool := SFltb a b.

(** A point in time.  [datetime.isoformat()] followed by Cypher's
    [datetime(...)] is taken to denote the same instant. *)
Definition datetime := Z.

(** What a Python call produces: a value, or one of the exceptions that the
    modelled code can meet. *)
Inductive exn :=
| AttributeError       (* [.value] asked of a text *)
| CypherSyntaxError    (* the store cannot parse the statement *)
| ConstraintError      (* a uniqueness constraint of setup_schema.py is violated *)
| ProcedureNotFound    (* apoc.create.relationship is not registered *)
| ValueError.          (* float() on a string that is not a number *)

Inductive result (A : Type) :=
| Returned (a : A)
| Raised (e : exn).
Arguments Returned {A} a.
Arguments Raised {A} e.

(** [str.capitalize()] on the ASCII values of the type enumeration: first
    character in upper case, the others in lower case. *)
Definition ascii_upper (c : ascii) : ascii :=
  let n := nat_of_ascii c in
  if (Nat.leb 97 n && Nat.leb n 122)%bool then ascii_of_nat (n - 32) else c.

Definition ascii_lower (c : ascii) : ascii :=
  let n := nat_of_ascii c in
  if (Nat.leb 65 n && Nat.leb n 90)%bool then ascii_of_nat (n + 32) else c.

Fixpoint map_string (f : ascii -> ascii) (s : string) : string :=
  match s with
  | EmptyString => EmptyString
  | String c r => String (f c) (map_string f r)
  end.

Definition capitalize (s : string) : string :=
  match s with
  | EmptyString => EmptyString
  | String c r => String (ascii_upper c) (map_string ascii_lower r)
  end.

(** Lower-casing restricted to ASCII; used to instantiate [str.lower] on the
    sample data. *)
Definition lower_ascii (s : string) : string := map_string ascii_lower s.

(** Cypher's [x + y] on integers that may be null. *)
Definition cy_add (x y : option Z) : option Z :=
  match x, y with
  | Some a, Some b => Some (a + b)
  | _, _ => None
  end.

(** Property values of a relationship with free-form properties, and the
    property map itself (a Python [dict] on the way in). *)
Inductive Value :=
| VInt (z : Z)
| VFloat (f : float)
| VStr (s : string)
| VBool (b : bool)
| VDateTime (t : datetime).

Definition Dict := list (string * Value).

Fixpoint dict_get (k : string) (d : Dict) : option Value :=
  match d with
  | [] => None
  | (k', v) :: r => if String.eqb k' k then Some v else dict_get k r
  end.

(** [d[k] = v]: overwrite in place, or add at the end. *)
Fixpoint dict_set (k : string) (v : Value) (d : Dict) : Dict :=
  match d with
  | [] => [(k, v)]
  | (k', v') :: r => if String.eqb k' k then (k', v) :: r else (k', v') :: dict_set k v r
  end.

(** [{**d, **extra}]: the keys of [extra] win. *)
Definition dict_update (d extra : Dict) : Dict :=
  fold_left (fun acc kv => dict_set (fst kv) (snd kv) acc) extra d.

(* ================================================================== *)
(** * models.py *)

Inductive EntityType :=
| PERSON | ORGANIZATION | PROJECT | TOPIC | TECHNOLOGY
| PRODUCT | LOCATION | DATE | OTHER.

Definition EntityType_value (t : EntityType) : string :=
  match t with
  | PERSON => "person"
  | ORGANIZATION => "organization"
  | PROJECT => "project"
  | TOPIC => "topic"
  | TECHNOLOGY => "technology"
  | PRODUCT => "product"
  | LOCATION => "location"
  | DATE => "date"
  | OTHER => "other"
  end.

Inductive RelationshipType :=
| MENTIONED_IN | WORKS_AT | MANAGES | COLLABORATES_WITH | ASSIGNED_TO
| REPORTS_TO | USES | RELATED_TO | DEPENDS_ON | LOCATED_IN
| SCHEDULED_FOR | CREATED_IN.

Definition RelationshipType_value (t : RelationshipType) : string :=
  match t with
  | MENTIONED_IN => "MENTIONED_IN"
  | WORKS_AT => "WORKS_AT"
  | MANAGES => "MANAGES"
  | COLLABORATES_WITH => "COLLABORATES_WITH"
  | ASSIGNED_TO => "ASSIGNED_TO"
  | REPORTS_TO => "REPORTS_TO"
  | USES => "USES"
  | RELATED_TO => "RELATED_TO"
  | DEPENDS_ON => "DEPENDS_ON"
  | LOCATED_IN => "LOCATED_IN"
  | SCHEDULED_FOR => "SCHEDULED_FOR"
  | CREATED_IN => "CREATED_IN"
  end.

(** What the field [type] of an [Entity] holds.  The model sets
    [use_enum_values = True]: validation stores the value of the member, a
    plain text, so an [Entity] built by its constructor holds [type_value].
    Only an object that was built without validation ([Entity.construct]),
    or whose field was assigned afterwards, holds the member itself. *)
Inductive TypeField :=
| type_value (t : EntityType)     (* the text [t.value] *)
| type_member (t : EntityType).   (* the member [t] *)

(** The member that the field stands for, in either form. *)
Definition type_of (f : TypeField) : EntityType :=
  match f with
  | type_value t => t
  | type_member t => t
  end.

(** [class Entity(BaseModel)] *)
Record Entity := mkEntity {
  ent_id : string;
  ent_user_id : string;
  ent_type : TypeField;
  ent_normalized_value : string;
  ent_display_value : string;
  ent_aliases : list string;
  ent_description : option string;
  ent_mention_count : Z;
  ent_confidence : float;
  ent_first_seen : datetime;
  ent_last_seen : datetime;
  ent_sentiment_avg : option float;
  ent_is_user_created : bool
}.

(** [class EntityMention(BaseModel)] *)
Record EntityMention := mkEntityMention {
  em_entity_id : string;
  em_meeting_id : string;
  em_context : string;
  em_timestamp_start : option float;
  em_timestamp_end : option float;
  em_speaker : option string;
  em_mention_count : Z;
  em_sentiment : option float
}.

(** [class EntityRelationship(BaseModel)] *)
Record EntityRelationship := mkEntityRelationship {
  er_from_entity_id : string;
  er_to_entity_id : string;
  er_relationship_type : RelationshipType;
  er_confidence : float;
  er_source : string;
  er_properties : Dict
}.

(* ================================================================== *)
(** * The property graph held by the store

    Nodes are identified by their [id] property: setup_schema.py declares
    [entity_id] and [meeting_id] uniqueness constraints, and no operation
    rewrites an [id].  Relationships name their end points by these ids.
    An [:Entity] node carries exactly one more label, its type. *)

Record EntityNode := mkEntityNode {
  n_label : string;
  n_id : string;
  n_user_id : string;
  n_normalized_value : string;
  n_display_value : string;
  n_aliases : list string;
  n_description : option string;
  n_mention_count : Z;
  n_confidence : float;
  n_first_seen : datetime;
  n_last_seen : datetime;
  n_sentiment_avg : option float;
  n_is_user_created : bool;
  n_created_at : datetime;
  n_updated_at : option datetime
}.

Record MeetingNode := mkMeetingNode {
  m_id : string;
  m_user_id : string;
  m_title : string
}.

(** A [MENTIONED_IN] relationship from an entity to a meeting. *)
Record MentionEdge := mkMentionEdge {
  r_entity : string;
  r_meeting : string;
  r_context : option string;
  r_timestamp_start : option float;
  r_timestamp_end : option float;
  r_speaker : option string;
  r_mention_count : option Z;
  r_sentiment : option float;
  r_created_at : option datetime;
  r_updated_at : option datetime
}.

(** Any other relationship.  It names its end points by id; the operations
    of relationships.py make them between entities, and an end point whose
    id no entity has is a node of another kind. *)
Record RelEdge := mkRelEdge {
  rel_from : string;
  rel_to : string;
  rel_type : string;
  rel_props : Dict
}.

Record Graph := mkGraph {
  entities : list EntityNode;
  meetings : list MeetingNode;
  mentions : list MentionEdge;
  rels : list RelEdge
}.

Definition empty_graph : Graph := mkGraph [] [] [] [].

Definition set_entities (g : Graph) (es : list EntityNode) : Graph :=
  mkGraph es (meetings g) (mentions g) (rels g).
Definition set_mentions (g : Graph) (ms : list MentionEdge) : Graph :=
  mkGraph (entities g) (meetings g) ms (rels g).
Definition set_rels (g : Graph) (rs : list RelEdge) : Graph :=
  mkGraph (entities g) (meetings g) (mentions g) rs.

(** A record of a query result. *)
Inductive Row :=
| REntity (e : EntityNode)
| RMention (r : MentionEdge)
| RRel (r : RelEdge)
| RCount (n : Z).

(* ================================================================== *)
(** * The Cypher queries of entities.py

    [mentions g] holds the [MENTIONED_IN] relationships, all of which end at
    a [:Meeting] node; a store has no dangling relationship. *)

Definition has_id (i : string) (n : EntityNode) : bool := String.eqb (n_id n) i.

Definition has_id_owner (i uid : string) (n : EntityNode) : bool :=
  String.eqb (n_id n) i && String.eqb (n_user_id n) uid.

Definition meeting_has_id (i : string) (m : MeetingNode) : bool := String.eqb (m_id m) i.

(** ** upsert_entity: [MERGE (e:Entity:{label} {user_id, normalized_value})] *)

Definition merge_key (label uid nv : string) (n : EntityNode) : bool :=
  String.eqb (n_label n) label && String.eqb (n_user_id n) uid
  && String.eqb (n_normalized_value n) nv.

(** [ON CREATE SET ...] *)
Definition upsert_on_create (now : datetime) (label : string) (p : Entity) : EntityNode :=
  {| n_label := label;
     n_id := ent_id p;
     n_user_id := ent_user_id p;
     n_normalized_value := ent_normalized_value p;
     n_display_value := ent_display_value p;
     n_aliases := ent_aliases p;
     n_description := ent_description p;
     n_mention_count := ent_mention_count p;
     n_confidence := ent_confidence p;
     n_first_seen := ent_first_seen p;
     n_last_seen := ent_last_seen p;
     n_sentiment_avg := ent_sentiment_avg p;
     n_is_user_created := ent_is_user_created p;
     n_created_at := now;
     n_updated_at := None |}.

(** [[a IN $aliases WHERE NOT a IN e.aliases]] *)
Definition new_aliases (given existing : list string) : list string :=
  filter (fun a => negb (existsb (String.eqb a) existing)) given.

(** [ON MATCH SET ...] *)
Definition upsert_on_match (now : datetime) (p : Entity) (e : EntityNode) : EntityNode :=
  {| n_label := n_label e;
     n_id := n_id e;
     n_user_id := n_user_id e;
     n_normalized_value := n_normalized_value e;
     n_display_value := n_display_value e;
     n_aliases :=
       if (0 <? Z.of_nat (List.length (new_aliases (ent_aliases p) (n_aliases e))))
       then n_aliases e ++ new_aliases (ent_aliases p) (n_aliases e)
       else n_aliases e;
     n_description := n_description e;
     n_mention_count := n_mention_count e + ent_mention_count p;
     n_confidence := n_confidence e;
     n_first_seen := n_first_seen e;
     n_last_seen := ent_last_seen p;
     n_sentiment_avg := n_sentiment_avg e;
     n_is_user_created := n_is_user_created e;
     n_created_at := n_created_at e;
     n_updated_at := Some now |}.

(** The whole query.  When nothing matches, the node is created, unless its
    [id] is taken: the [entity_id] constraint then aborts the transaction. *)
Definition exec_upsert_entity (now : datetime) (label : string) (p : Entity) (g : Graph)
  : result (list Row * Graph) :=
  let hit := merge_key label (ent_user_id p) (ent_normalized_value p) in
  match filter hit (entities g) with
  | [] =>
      if existsb (has_id (ent_id p)) (entities g) then Raised ConstraintError
      else
        let n := upsert_on_create now label p in
        Returned ([REntity n], set_entities g (entities g ++ [n]))
  | _ :: _ =>
      let es := map (fun n => if hit n then upsert_on_match now p n else n) (entities g) in
      Returned (map REntity (filter hit es), set_entities g es)
  end.

(** ** add_mention: [MATCH (e) MATCH (m) MERGE (e)-[r:MENTIONED_IN]->(m)] *)

Definition mention_between (eid mid : string) (r : MentionEdge) : bool :=
  String.eqb (r_entity r) eid && String.eqb (r_meeting r) mid.

Definition mention_on_create (now : datetime) (p : EntityMention) (eid mid : string)
  : MentionEdge :=
  {| r_entity := eid;
     r_meeting := mid;
     r_context := Some (em_context p);
     r_timestamp_start := em_timestamp_start p;
     r_timestamp_end := em_timestamp_end p;
     r_speaker := em_speaker p;
     r_mention_count := Some (em_mention_count p);
     r_sentiment := em_sentiment p;
     r_created_at := Some now;
     r_updated_at := None |}.

Definition set_mention_count (r : MentionEdge) (c : option Z) (upd : option datetime)
  : MentionEdge :=
  {| r_entity := r_entity r;
     r_meeting := r_meeting r;
     r_context := r_context r;
     r_timestamp_start := r_timestamp_start r;
     r_timestamp_end := r_timestamp_end r;
     r_speaker := r_speaker r;
     r_mention_count := c;
     r_sentiment := r_sentiment r;
     r_created_at := r_created_at r;
     r_updated_at := upd |}.

Definition mention_on_match (now : datetime) (p : EntityMention) (r : MentionEdge)
  : MentionEdge :=
  set_mention_count r (cy_add (r_mention_count r) (Some (em_mention_count p))) (Some now).

(** The [MERGE] clause on one row [(e, m)]. *)
Definition add_mention_step (now : datetime) (p : EntityMention)
  (acc : list Row * Graph) (row : EntityNode * MeetingNode) : list Row * Graph :=
  let (out, g) := acc in
  let hit := mention_between (n_id (fst row)) (m_id (snd row)) in
  match filter hit (mentions g) with
  | [] =>
      let r := mention_on_create now p (n_id (fst row)) (m_id (snd row)) in
      (out ++ [RMention r], set_mentions g (mentions g ++ [r]))
  | _ :: _ =>
      let ms := map (fun r => if hit r then mention_on_match now p r else r) (mentions g) in
      (out ++ map RMention (filter hit ms), set_mentions g ms)
  end.

Definition exec_add_mention (now : datetime) (p : EntityMention) (g : Graph)
  : list Row * Graph :=
  let es := filter (has_id (em_entity_id p)) (entities g) in
  let ms := filter (meeting_has_id (em_meeting_id p)) (meetings g) in
  fold_left (add_mention_step now p) (list_prod es ms) ([], g).

(** ** Relationships of one entity, and [DETACH DELETE] *)

Definition mention_from (eid : string) (r : MentionEdge) : bool :=
  String.eqb (r_entity r) eid.

(** [DETACH DELETE]: the node goes, and every relationship that touches it. *)
Definition detach_delete (i : string) (g : Graph) : Graph :=
  {| entities := filter (fun n => negb (has_id i n)) (entities g);
     meetings := meetings g;
     mentions := filter (fun r => negb (mention_from i r)) (mentions g);
     rels := filter (fun r => negb (String.eqb (rel_from r) i || String.eqb (rel_to r) i))
               (rels g) |}.

(* ================================================================== *)
(** * The Cypher queries of relationships.py *)

(** [RelationshipOperations.VALID_RELATIONSHIPS] *)
Definition VALID_RELATIONSHIPS : list ((string * string) * list string) :=
  [ (("Person", "Organization"), ["WORKS_AT"; "FOUNDED"; "LEADS"]);
    (("Person", "Project"), ["MANAGES"; "WORKS_ON"; "OWNS"]);
    (("Person", "Person"), ["COLLABORATES_WITH"; "REPORTS_TO"; "MENTORS"]);
    (("Person", "ActionItem"), ["ASSIGNED_TO"]);
    (("Project", "Technology"), ["USES"; "BUILT_WITH"]);
    (("Project", "Topic"), ["RELATED_TO"; "ADDRESSES"]);
    (("Organization", "Location"), ["LOCATED_IN"; "OPERATES_IN"]);
    (("ActionItem", "Date"), ["SCHEDULED_FOR"; "DUE_ON"]) ].

(** Membership in the table, as the specification reads it: the relationship
    type is listed for the ordered pair of end-point labels.  No function of
    the source consults the table. *)
Definition in_compatibility_table (from_label to_label ty : string) : bool :=
  existsb (fun entry =>
             String.eqb (fst (fst entry)) from_label
             && String.eqb (snd (fst entry)) to_label
             && existsb (String.eqb ty) (snd entry))
    VALID_RELATIONSHIPS.

Definition rel_between (a b ty : string) (r : RelEdge) : bool :=
  String.eqb (rel_from r) a && String.eqb (rel_to r) b && String.eqb (rel_type r) ty.

(** ** create_relationship, first query:
    [MATCH (from) MATCH (to) CALL apoc.create.relationship(from, $rel_type, $properties, to)] *)
Definition exec_create_relationship_apoc (from_id to_id ty : string) (properties : Dict)
  (apoc : bool) (g : Graph) : result (list Row * Graph) :=
  if apoc then
    let rows := list_prod (filter (has_id from_id) (entities g))
                          (filter (has_id to_id) (entities g)) in
    let created := map (fun ft => mkRelEdge (n_id (fst ft)) (n_id (snd ft)) ty properties)
                     rows in
    Returned (map RRel created, set_rels g (rels g ++ created))
  else Raised ProcedureNotFound.

(** ** create_relationship, fallback query:
    [MATCH (from) MATCH (to) CREATE (from)-[r:{rel_type} {...}]->(to)] *)
Definition exec_create_relationship_fallback (now : datetime) (ty from_id to_id : string)
  (confidence : float) (source : string) (g : Graph) : list Row * Graph :=
  let rows := list_prod (filter (has_id from_id) (entities g))
                        (filter (has_id to_id) (entities g)) in
  let created :=
    map (fun ft => mkRelEdge (n_id (fst ft)) (n_id (snd ft)) ty
                     [("confidence", VFloat confidence);
                      ("source", VStr source);
                      ("created_at", VDateTime now)]) rows in
  (map RRel created, set_rels g (rels g ++ created)).

(** ** infer_collaborations *)

Definition is_person (n : EntityNode) : bool := String.eqb (n_label n) "Person".

Definition mentioned_meetings (g : Graph) (eid : string) : list string :=
  map r_meeting (filter (mention_from eid) (mentions g)).

(** The distinct [m] of
    [(p1)-[:MENTIONED_IN]->(m:Meeting)<-[:MENTIONED_IN]-(p2)]. *)
Definition shared_meetings (g : Graph) (p1 p2 : string) : list string :=
  nodup string_dec
    (filter (fun mid => existsb (String.eqb mid) (mentioned_meetings g p2))
       (mentioned_meetings g p1)).

Definition shared_count (g : Graph) (p1 p2 : string) : Z :=
  Z.of_nat (List.length (shared_meetings g p1 p2)).

(** [MATCH ... WHERE p1.id < p2.id AND p1.user_id = p2.user_id
     WITH p1, p2, count(DISTINCT m) as meeting_count
     WHERE meeting_count >= $min_co_occurrences]:
    one row per pair of nodes that the pattern matches at least once. *)
Definition collab_rows (uid : string) (min_co : Z) (g : Graph) : list (string * string * Z) :=
  flat_map (fun p1 =>
    flat_map (fun p2 =>
      if String.ltb (n_id p1) (n_id p2) && String.eqb (n_user_id p1) (n_user_id p2)
      then
        let c := shared_count g (n_id p1) (n_id p2) in
        if (0 <? c) && (min_co <=? c) then [(n_id p1, n_id p2, c)] else []
      else [])
      (filter is_person (entities g)))
    (filter (fun n => is_person n && String.eqb (n_user_id n) uid) (entities g)).

Definition collab_between (a b : string) : RelEdge -> bool :=
  rel_between a b "COLLABORATES_WITH".

Definition collab_on_create (now : datetime) (a b : string) (c : Z) : RelEdge :=
  mkRelEdge a b "COLLABORATES_WITH"
    [("strength", VInt c); ("source", VStr "inferred"); ("created_at", VDateTime now)].

Definition collab_on_match (now : datetime) (c : Z) (r : RelEdge) : RelEdge :=
  mkRelEdge (rel_from r) (rel_to r) (rel_type r)
    (dict_set "updated_at" (VDateTime now) (dict_set "strength" (VInt c) (rel_props r))).

(** [MERGE (p1)-[r:COLLABORATES_WITH]->(p2) ON CREATE SET ... ON MATCH SET ...]
    on one row; the counter is the number of rows that leave the clause. *)
Definition collab_step (now : datetime) (acc : Z * Graph) (row : string * string * Z)
  : Z * Graph :=
  let (n, g) := acc in
  let '(a, b, c) := row in
  match filter (collab_between a b) (rels g) with
  | [] => (n + 1, set_rels g (rels g ++ [collab_on_create now a b c]))
  | hits =>
      (n + Z.of_nat (List.length hits),
       set_rels g (map (fun r => if collab_between a b r then collab_on_match now c r else r)
                     (rels g)))
  end.

(** [RETURN count(r) as created]: always one row. *)
Definition exec_infer_collaborations (now : datetime) (uid : string) (min_co : Z) (g : Graph)
  : list Row * Graph :=
  let (n, g') := fold_left (collab_step now) (collab_rows uid min_co g) (0, g) in
  ([RCount n], g').

(* ================================================================== *)
(** * client.py: Neo4jClient

    The database behind the driver: its graph, whether the APOC procedures
    are installed, and the journal of the queries it has received.  Each
    query runs in a transaction of its own, which an exception rolls back. *)

Inductive Query :=
| Q_upsert_entity (label : string) (params : Entity)
| Q_add_mention (params : EntityMention)
| Q_merge_entities (user_id keep_id merge_id : string)
| Q_create_relationship_apoc (from_id to_id rel_type : string) (properties : Dict)
| Q_create_relationship_fallback (rel_type from_id to_id : string)
    (confidence : float) (source : string)
| Q_infer_collaborations (user_id : string) (min_co_occurrences : Z).

Record Neo4j := mkNeo4j {
  graph : Graph;
  apoc : bool;
  journal : list Query
}.

(** What the store does with a query.  The statement of [merge_entities] is
    rejected when it is parsed, whatever its parameters and the graph: after
    [MERGE (keep)-[nr:MENTIONED_IN]->] it writes [(mention.meeting)], a
    property of a map, where the grammar of Cypher takes a node pattern (a
    variable, labels, a property map).  None of its clauses runs. *)
Definition exec (now : datetime) (q : Query) (apoc_installed : bool) (g : Graph)
  : result (list Row * Graph) :=
  match q with
  | Q_upsert_entity label p => exec_upsert_entity now label p g
  | Q_add_mention p => Returned (exec_add_mention now p g)
  | Q_merge_entities _ _ _ => Raised CypherSyntaxError
  | Q_create_relationship_apoc f t ty props =>
      exec_create_relationship_apoc f t ty props apoc_installed g
  | Q_create_relationship_fallback ty f t c s =>
      Returned (exec_create_relationship_fallback now ty f t c s g)
  | Q_infer_collaborations uid k => Returned (exec_infer_collaborations now uid k g)
  end.

(** A Python method that uses the client. *)
Definition M (A : Type) : Type := Neo4j -> result A * Neo4j.

Definition ret {A} (a : A) : M A := fun db => (Returned a, db).

(** An exception raised by the Python code itself. *)
Definition raise {A} (e : exn) : M A := fun db => (Raised e, db).

Definition bind {A B} (m : M A) (f : A -> M B) : M B :=
  fun db =>
    match m db with
    | (Returned a, db') => f a db'
    | (Raised e, db') => (Raised e, db')
    end.

Notation "x <- m ;; k" := (bind m (fun x => k))
  (at level 61, m at next level, right associativity).

(** [try: m except Exception: h] *)
Definition try_except {A} (m : M A) (h : M A) : M A :=
  fun db =>
    match m db with
    | (Returned a, db') => (Returned a, db')
    | (Raised _, db') => h db'
    end.

(** [Neo4jClient.run_query] *)
Definition run_query (now : datetime) (q : Query) : M (list Row) :=
  fun db =>
    match exec now q (apoc db) (graph db) with
    | Returned (rows, g') => (Returned rows, mkNeo4j g' (apoc db) (journal db ++ [q]))
    | Raised e => (Raised e, mkNeo4j (graph db) (apoc db) (journal db ++ [q]))
    end.

(** [Neo4jClient.run_single_query]: [results[0] if results else None] *)
Definition run_single_query (now : datetime) (q : Query) : M (option Row) :=
  results <- run_query now q ;;
  ret (hd_error results).

Definition is_not_None {A} (o : option A) : bool :=
  match o with Some _ => true | None => false end.

(* ================================================================== *)
(** * entities.py: EntityOperations *)

Section EntityOperations.

(** Python's [str.lower], on which nothing is assumed. *)
Variable str_lower : string -> string.

(** The parameters of the query: [entity.id or str(uuid.uuid4())] and the
    lower-cased key; [uuid4] is the value that [uuid.uuid4()] draws. *)
Definition upsert_params (uuid4 : string) (entity : Entity) : Entity :=
  {| ent_id := if String.eqb (ent_id entity) "" then uuid4 else ent_id entity;
     ent_user_id := ent_user_id entity;
     ent_type := ent_type entity;
     ent_normalized_value := str_lower (ent_normalized_value entity);
     ent_display_value := ent_display_value entity;
     ent_aliases := ent_aliases entity;
     ent_description := ent_description entity;
     ent_mention_count := ent_mention_count entity;
     ent_confidence := ent_confidence entity;
     ent_first_seen := ent_first_seen entity;
     ent_last_seen := ent_last_seen entity;
     ent_sentiment_avg := ent_sentiment_avg entity;
     ent_is_user_created := ent_is_user_created entity |}.

(** The query text and its parameters, for the label that
    [entity.type.value.capitalize()] gives when [entity.type] is the member
    [t]. *)
Definition upsert_query (uuid4 : string) (t : EntityType) (entity : Entity) : Query :=
  Q_upsert_entity (capitalize (EntityType_value t)) (upsert_params uuid4 entity).

(** [label = entity.type.value.capitalize()] comes first: on an entity that
    holds its type as a text, [.value] raises [AttributeError] and no query
    is sent. *)
Definition upsert_entity (uuid4 : string) (now : datetime) (entity : Entity)
  : M (option EntityNode) :=
  match ent_type entity with
  | type_value _ => raise AttributeError
  | type_member t =>
      result <- run_single_query now (upsert_query uuid4 t entity) ;;
      ret (match result with
           | Some (REntity e) => Some e
           | _ => None
           end)
  end.

End EntityOperations.

Definition add_mention (now : datetime) (mention : EntityMention) : M bool :=
  result <- run_single_query now (Q_add_mention mention) ;;
  ret (is_not_None result).

Definition merge_entities (now : datetime) (user_id keep_id merge_id : string) : M bool :=
  result <- run_single_query now (Q_merge_entities user_id keep_id merge_id) ;;
  ret (is_not_None result).

(** [get_entity], as far as finding the node goes:
    [MATCH (e:Entity {id: $entity_id, user_id: $user_id})], [None] when no
    row comes back. *)
Definition get_entity_node (entity_id user_id : string) (g : Graph) : option EntityNode :=
  hd_error (filter (has_id_owner entity_id user_id) (entities g)).

(* ================================================================== *)
(** * relationships.py: RelationshipOperations *)

Definition create_relationship (now : datetime) (rel : EntityRelationship) : M bool :=
  let rel_type := RelationshipType_value (er_relationship_type rel) in
  try_except
    (result <- run_single_query now
                 (Q_create_relationship_apoc
                    (er_from_entity_id rel) (er_to_entity_id rel) rel_type
                    (dict_update
                       [("confidence", VFloat (er_confidence rel));
                        ("source", VStr (er_source rel));
                        ("created_at", VStr "datetime()")]
                       (er_properties rel))) ;;
     ret (is_not_None result))
    (result <- run_single_query now
                 (Q_create_relationship_fallback rel_type
                    (er_from_entity_id rel) (er_to_entity_id rel)
                    (er_confidence rel) (er_source rel)) ;;
     ret (is_not_None result)).

Definition infer_collaborations (now : datetime) (user_id : string) (min_co_occurrences : Z)
  : M Z :=
  result <- run_single_query now (Q_infer_collaborations user_id min_co_occurrences) ;;
  ret (match result with
       | Some (RCount created) => created
       | _ => 0
       end).

(* ================================================================== *)
(** * services/langextract: extractor.py *)

Module Extractor.

(** [schemas.GroundedEntity]; an offset is [None] when the interval of the
    extraction has no position. *)
Record GroundedEntity := mkGroundedEntity {
  type : string;
  value : string;
  normalized_value : string;
  confidence : float;
  start_offset : option Z;
  end_offset : option Z;
  source_text : string
}.

(** What [lx.extract] hands back, as far as the loop reads it.  An
    attribute value is a string or a list of strings; [alignment_status]
    is [None] when the object has no such attribute, and otherwise the
    text that [str(...)] gives for it. *)
Inductive AttrValue :=
| AttrStr (s : string)
| AttrList (l : list string).

Record CharInterval := mkCharInterval {
  start_pos : option Z;
  end_pos : option Z
}.

Record Extraction := mkExtraction {
  extraction_class : option string;
  extraction_text : option string;
  attributes : option (list (string * AttrValue));
  char_interval : option CharInterval;
  alignment_status : option string
}.

(** [x or default] on an optional string *)
Definition str_or (x : option string) (default : string) : string :=
  match x with
  | Some s => if String.eqb s "" then default else s
  | None => default
  end.

Fixpoint attr_get (k : string) (d : list (string * AttrValue)) : option AttrValue :=
  match d with
  | [] => None
  | (k', v) :: r => if String.eqb k' k then Some v else attr_get k r
  end.

Section extract.

(** Python's [str.lower] and [float(str)]; the latter is [None] where
    Python raises [ValueError]. *)
Variable str_lower : string -> string.
Variable py_float : string -> option float.

(** The body of the [try] in the loop; [None] when it raises, in which
    case the loop goes on with the next extraction. *)
Definition grounded (extraction : Extraction) : option GroundedEntity :=
  let entity_type := str_or (extraction_class extraction) "topic" in
  let entity_value := str_or (extraction_text extraction) "" in
  let attrs := match attributes extraction with Some a => a | None => [] end in
  match (match attr_get "normalized_value" attrs with
         | Some v => v
         | None => AttrStr entity_value
         end) with
  | AttrList _ => None
  | AttrStr s =>
      let normalized := str_lower s in
      let (start_offset, end_offset) :=
        match char_interval extraction with
        | Some ci => (start_pos ci, end_pos ci)
        | None => (Some 0, Some 0)
        end in
      let confidence :=
        match alignment_status extraction with
        | Some status =>
            if String.eqb status "EXACT" then f_1_0
            else if String.eqb status "APPROXIMATE" then f_0_85
            else f_0_8
        | None => f_0_8
        end in
      Some (mkGroundedEntity entity_type entity_value normalized confidence
              start_offset end_offset entity_value)
  end.

(** The list [entities] that the loop builds. *)
Definition candidates (extractions : list Extraction) : list GroundedEntity :=
  flat_map (fun x => match grounded x with Some e => [e] | None => [] end) extractions.

(** [float(os.getenv("MIN_CONFIDENCE", "0.7"))] *)
Definition min_confidence (env_MIN_CONFIDENCE : option string) : option float :=
  match env_MIN_CONFIDENCE with
  | None => Some f_0_7
  | Some s => py_float s
  end.

(** [extract_entities]: [env_OPENAI_API_KEY] and [env_MIN_CONFIDENCE] are
    the two environment variables, [lx_result] what [lx.extract] gives on
    the transcript ([None] when it raises). *)
Definition extract_entities (env_OPENAI_API_KEY : option string)
  (lx_result : option (list Extraction)) (env_MIN_CONFIDENCE : option string)
  : result (list GroundedEntity) :=
  if String.eqb (str_or env_OPENAI_API_KEY "") "" then Returned []
  else
    match lx_result with
    | None => Returned []
    | Some extractions =>
        let entities := candidates extractions in
        match min_confidence env_MIN_CONFIDENCE with
        | None => Raised ValueError
        | Some min_conf =>
            Returned (filter (fun e => float_ge (confidence e) min_conf) entities)
        end
    end.

End extract.

End Extractor.

(* ================================================================== *)
(** * Invariants of the store, and runs of several calls *)

(** The [entity_id] and [meeting_id] constraints of setup_schema.py. *)
Definition ids_unique (g : Graph) : Prop :=
  NoDup (map n_id (entities g)) /\ NoDup (map m_id (meetings g)).

(** The logical key of an entity: type label, owner, normalized value. *)
Definition Key := (string * string * string)%type.

Definition node_key (n : EntityNode) : Key :=
  (n_label n, n_user_id n, n_normalized_value n).

Definition with_key (k : Key) : EntityNode -> bool :=
  merge_key (fst (fst k)) (snd (fst k)) (snd k).

Definition key_count (k : Key) (g : Graph) : nat :=
  List.length (filter (with_key k) (entities g)).

(** At most one live entity per key. *)
Definition key_unique (g : Graph) : Prop :=
  forall k, (key_count k g <= 1)%nat.

(** At most one [MENTIONED_IN] relationship per entity and meeting. *)
Definition mention_unique (g : Graph) : Prop :=
  forall eid mid,
    (List.length (filter (mention_between eid mid) (mentions g)) <= 1)%nat.

Definition returned {A} (r : result A) : bool :=
  match r with Returned _ => true | Raised _ => false end.

Section Runs.

Variable str_lower : string -> string.

(** One call of [upsert_entity]: the value drawn by [uuid.uuid4()], the
    time of the transaction, the argument. *)
Record UpsertCall := mkUpsertCall {
  call_uuid4 : string;
  call_now : datetime;
  call_entity : Entity
}.

(** The key that the call is for: the capitalized type, the owner and the
    lower-cased normalized value. *)
Definition call_key (c : UpsertCall) : Key :=
  (capitalize (EntityType_value (type_of (ent_type (call_entity c)))),
   ent_user_id (call_entity c),
   str_lower (ent_normalized_value (call_entity c))).

(** The queries that the call sends: one, or none when it raises before. *)
Definition call_queries (c : UpsertCall) : list Query :=
  match ent_type (call_entity c) with
  | type_value _ => []
  | type_member t => [upsert_query str_lower (call_uuid4 c) t (call_entity c)]
  end.

(** The calls one after the other, with what each produced. *)
Fixpoint upsert_seq (calls : list UpsertCall) (db : Neo4j)
  : list (result (option EntityNode)) * Neo4j :=
  match calls with
  | [] => ([], db)
  | c :: rest =>
      let (r, db1) := upsert_entity str_lower (call_uuid4 c) (call_now c) (call_entity c) db in
      let (rs, db2) := upsert_seq rest db1 in
      (r :: rs, db2)
  end.

Definition key_eqb (k1 k2 : Key) : bool :=
  String.eqb (fst (fst k1)) (fst (fst k2))
  && String.eqb (snd (fst k1)) (snd (fst k2))
  && String.eqb (snd k1) (snd k2).

(** The id that the node gets when the call creates one. *)
Definition call_id (c : UpsertCall) : string :=
  if String.eqb (ent_id (call_entity c)) "" then call_uuid4 c else ent_id (call_entity c).

Definition holds_member (e : Entity) : bool :=
  match ent_type e with
  | type_member _ => true
  | type_value _ => false
  end.

(** The deltas of all the calls for key [k]. *)
Definition deltas_for (k : Key) (calls : list UpsertCall) : list Z :=
  map (fun c => ent_mention_count (call_entity c))
    (filter (fun c => key_eqb (call_key c) k) calls).

(** The deltas of the calls for key [k] that the store applied. *)
Fixpoint applied_deltas (k : Key) (calls : list UpsertCall)
  (results : list (result (option EntityNode))) : list Z :=
  match calls, results with
  | c :: cs, r :: rs =>
      (if key_eqb (call_key c) k && returned r
       then [ent_mention_count (call_entity c)] else [])
      ++ applied_deltas k cs rs
  | _, _ => []
  end.

End Runs.

Definition sum_Z (l : list Z) : Z := fold_right Z.add 0 l.

(** The sum of the mention counts stored under a key. *)
Definition key_total (k : Key) (g : Graph) : Z :=
  sum_Z (map n_mention_count (filter (with_key k) (entities g))).

(** The update of [ON MATCH SET] in [upsert_entity], as a function on every
    node of the store. *)
Definition on_match_all (now : datetime) (k : Key) (p : Entity) (n : EntityNode)
  : EntityNode :=
  if with_key k n then upsert_on_match now p n else n.

(** The three ways in which the query of [upsert_entity] can end. *)
Inductive upsert_outcome (now : datetime) (label : string) (p : Entity) (g : Graph)
  : result (list Row * Graph) -> Prop :=
| upsert_clash :
    filter (with_key (label, ent_user_id p, ent_normalized_value p)) (entities g) = [] ->
    existsb (has_id (ent_id p)) (entities g) = true ->
    upsert_outcome now label p g (Raised ConstraintError)
| upsert_created :
    filter (with_key (label, ent_user_id p, ent_normalized_value p)) (entities g) = [] ->
    existsb (has_id (ent_id p)) (entities g) = false ->
    upsert_outcome now label p g
      (Returned ([REntity (upsert_on_create now label p)],
                 set_entities g (entities g ++ [upsert_on_create now label p])))
| upsert_matched :
    filter (with_key (label, ent_user_id p, ent_normalized_value p)) (entities g) <> [] ->
    upsert_outcome now label p g
      (Returned
         (map REntity
            (map (on_match_all now (label, ent_user_id p, ent_normalized_value p) p)
               (filter (with_key (label, ent_user_id p, ent_normalized_value p))
                  (entities g))),
          set_entities g
            (map (on_match_all now (label, ent_user_id p, ent_normalized_value p) p)
               (entities g)))).

(** The properties that the relationship gets: the dictionary sent to APOC,
    or the three of the fallback query. *)
Definition created_properties (now : datetime) (apoc_installed : bool)
  (rel : EntityRelationship) : Dict :=
  if apoc_installed
  then dict_update [("confidence", VFloat (er_confidence rel));
                    ("source", VStr (er_source rel));
                    ("created_at", VStr "datetime()")] (er_properties rel)
  else [("confidence", VFloat (er_confidence rel));
        ("source", VStr (er_source rel));
        ("created_at", VDateTime now)].

Definition strength_of (r : RelEdge) : option Value := dict_get "strength" (rel_props r).
Definition source_of (r : RelEdge) : option Value := dict_get "source" (rel_props r).

(** What is observed of a relationship: its end points, type, strength
    and source, but not the time stamps. *)
Definition rel_view (r : RelEdge) : string * string * string * option Value * option Value :=
  (rel_from r, rel_to r, rel_type r, strength_of r, source_of r).

(** A [COLLABORATES_WITH] relationship between two entities, in either
    direction. *)
Definition collab_either (a b : string) (r : RelEdge) : bool :=
  collab_between a b r || collab_between b a r.

(** The update of [ON MATCH SET] in [infer_collaborations], as a function on
    every relationship of the store. *)
Definition collab_update (now : datetime) (a b : string) (c : Z) (r : RelEdge) : RelEdge :=
  if collab_between a b r then collab_on_match now c r else r.

(** The store holds exactly one [COLLABORATES_WITH] relationship from [a] to
    [b]; it has strength [c] and was inferred. *)
Definition settled (c : Z) (l : list RelEdge) : Prop :=
  exists r, l = [r]
            /\ strength_of r = Some (VInt c)
            /\ source_of r = Some (VStr "inferred").

(** The row [(a, b, c)] finds its relationship in the store, with strength
    [c] already. *)
Definition satisfied (rs : list RelEdge) (row : string * string * Z) : Prop :=
  filter (collab_between (fst (fst row)) (snd (fst row))) rs <> []
  /\ forall r, In r (filter (collab_between (fst (fst row)) (snd (fst row))) rs) ->
               strength_of r = Some (VInt (snd row)).

(** At most one relationship from [a] to [b], and an inferred one. *)
Definition collab_inv (a b : string) (rs : list RelEdge) : Prop :=
  (List.length (filter (collab_between a b) rs) <= 1)%nat
  /\ forall r, In r (filter (collab_between a b) rs) -> source_of r = Some (VStr "inferred").

(** The count of every row is the one that [cf] gives for its pair. *)
Definition rows_consistent (cf : string -> string -> Z) (rows : list (string * string * Z))
  : Prop :=
  forall x y c, In (x, y, c) rows -> c = cf x y.

(* ================================================================== *)
(** * The other operations of entities.py

    The methods below are given by their effect on the graph of the store:
    a reading method is a function of the graph, a writing method returns the
    graph it leaves. *)

(** ** delete_entity:
    [MATCH (e:Entity {id, user_id}) DETACH DELETE e RETURN count(e) as deleted] *)
Definition exec_delete_entity (entity_id user_id : string) (g : Graph) : list Row * Graph :=
  let hits := filter (has_id_owner entity_id user_id) (entities g) in
  ([RCount (Z.of_nat (List.length hits))],
   fold_left (fun g' e => detach_delete (n_id e) g') hits g).

(** [return result and result["deleted"] > 0] *)
Definition delete_entity (entity_id user_id : string) (g : Graph) : bool * Graph :=
  let (rows, g') := exec_delete_entity entity_id user_id g in
  (match hd_error rows with
   | Some (RCount deleted) => 0 <? deleted
   | _ => false
   end, g').

(** ** update_entity

    The dictionary [updates], read at the five keys the method looks for,
    with values typed as the fields of [models.Entity]; [upd_other_keys] are
    the other keys it holds.  [None] at a field: the key is not in the
    dictionary. *)
Record EntityUpdates := mkEntityUpdates {
  upd_display_value : option string;
  upd_description : option (option string);
  upd_aliases : option (list string);
  upd_confidence : option float;
  upd_sentiment_avg : option (option float);
  upd_other_keys : list string
}.

Definition clause_if {A} (field : option A) (clause : string) : list string :=
  match field with Some _ => [clause] | None => [] end.

(** The list [set_clauses] after the loop over [allowed_fields]. *)
Definition set_clauses (updates : EntityUpdates) : list string :=
  clause_if (upd_display_value updates) "e.display_value = $display_value"
  ++ clause_if (upd_description updates) "e.description = $description"
  ++ clause_if (upd_aliases updates) "e.aliases = $aliases"
  ++ clause_if (upd_confidence updates) "e.confidence = $confidence"
  ++ clause_if (upd_sentiment_avg updates) "e.sentiment_avg = $sentiment_avg".

Definition or_keep {A} (new : option A) (old : A) : A :=
  match new with Some v => v | None => old end.

(** [SET {set_clause}], with [e.updated_at = datetime()] at its end. *)
Definition apply_updates (now : datetime) (updates : EntityUpdates) (e : EntityNode)
  : EntityNode :=
  {| n_label := n_label e;
     n_id := n_id e;
     n_user_id := n_user_id e;
     n_normalized_value := n_normalized_value e;
     n_display_value := or_keep (upd_display_value updates) (n_display_value e);
     n_aliases := or_keep (upd_aliases updates) (n_aliases e);
     n_description := or_keep (upd_description updates) (n_description e);
     n_mention_count := n_mention_count e;
     n_confidence := or_keep (upd_confidence updates) (n_confidence e);
     n_first_seen := n_first_seen e;
     n_last_seen := n_last_seen e;
     n_sentiment_avg := or_keep (upd_sentiment_avg updates) (n_sentiment_avg e);
     n_is_user_created := n_is_user_created e;
     n_created_at := n_created_at e;
     n_updated_at := Some now |}.

Definition update_entity (now : datetime) (entity_id user_id : string)
  (updates : EntityUpdates) (g : Graph) : option EntityNode * Graph :=
  match set_clauses updates with
  | [] => (None, g)
  | _ :: _ =>
      let hit := has_id_owner entity_id user_id in
      let es := map (fun e => if hit e then apply_updates now updates e else e) (entities g) in
      (hd_error (filter hit es), set_entities g es)
  end.

(** ** list_entities_by_type and list_all_entities *)

(** [OPTIONAL MATCH (e)-[:MENTIONED_IN]->(m:Meeting) ... count(DISTINCT m)] *)
Definition meeting_count (g : Graph) (eid : string) : Z :=
  Z.of_nat (List.length (nodup string_dec (mentioned_meetings g eid))).

(** [ORDER BY ... DESC] on an integer key.  Cypher leaves the order of rows
    with equal keys open; here they stay in the order in which they came. *)
Fixpoint insert_desc {A} (key : A -> Z) (x : A) (l : list A) : list A :=
  match l with
  | [] => [x]
  | y :: r => if key y <=? key x then x :: y :: r else y :: insert_desc key x r
  end.

Definition order_by_desc {A} (key : A -> Z) (l : list A) : list A :=
  fold_right (insert_desc key) [] l.

(** [SKIP $offset LIMIT $limit]; the store rejects a negative number. *)
Definition skip_limit {A} (offset limit : Z) (l : list A) : option (list A) :=
  if (offset <? 0) || (limit <? 0) then None
  else Some (firstn (Z.to_nat limit) (skipn (Z.to_nat offset) l)).

Definition with_meeting_count (g : Graph) (e : EntityNode) : EntityNode * Z :=
  (e, meeting_count g (n_id e)).

(** The rows are pairs of the entity and its [meeting_count]; [None] when
    the store rejects the query. *)
Definition list_entities_by_type (user_id : string) (entity_type : EntityType)
  (limit offset : Z) (g : Graph) : option (list (EntityNode * Z)) :=
  let label := capitalize (EntityType_value entity_type) in
  skip_limit offset limit
    (order_by_desc (fun r => n_mention_count (fst r))
       (map (with_meeting_count g)
          (filter (fun e => String.eqb (n_label e) label && String.eqb (n_user_id e) user_id)
             (entities g)))).

(** [grouped[entity_type].append(...)], the dictionary in insertion order. *)
Fixpoint group_append {V} (k : string) (v : V) (grouped : list (string * list V))
  : list (string * list V) :=
  match grouped with
  | [] => [(k, [v])]
  | (k', vs) :: r =>
      if String.eqb k' k then (k', vs ++ [v]) :: r else (k', vs) :: group_append k v r
  end.

Section list_all.

Variable str_lower : string -> string.

(** [r["type"].lower() if r["type"] else "other"] *)
Definition type_key (e : EntityNode) : string :=
  if String.eqb (n_label e) "" then "other" else str_lower (n_label e).

Definition group_rows (rows : list (EntityNode * Z)) : list (string * list (EntityNode * Z)) :=
  fold_left (fun grouped r => group_append (type_key (fst r)) r grouped) rows [].

Definition list_all_entities (user_id : string) (limit offset : Z) (g : Graph)
  : option (list (string * list (EntityNode * Z))) :=
  match skip_limit offset limit
          (order_by_desc (fun r => n_mention_count (fst r))
             (map (with_meeting_count g)
                (filter (fun e => String.eqb (n_user_id e) user_id) (entities g)))) with
  | None => None
  | Some results => Some (group_rows results)
  end.

End list_all.

(** ** get_entity *)

Definition float_eq_dec (a b : float) : {a = b} + {a <> b}.
Proof.
  unfold float. decide equality;
    try apply Bool.bool_dec; try apply Z.eq_dec; apply Pos.eq_dec.
Defined.

Definition option_eq_dec {A} (dec : forall a b : A, {a = b} + {a <> b}) (x y : option A)
  : {x = y} + {x <> y}.
Proof. decide equality. Defined.

Definition Value_eq_dec (a b : Value) : {a = b} + {a <> b}.
Proof.
  decide equality;
    try apply Z.eq_dec; try apply float_eq_dec; try apply string_dec;
    try apply Bool.bool_dec.
Defined.

Definition Dict_eq_dec (a b : Dict) : {a = b} + {a <> b}.
Proof.
  apply list_eq_dec. intros [k v] [k' v'].
  destruct (string_dec k k') as [->|N]; [|right; congruence].
  destruct (Value_eq_dec v v') as [->|N]; [left; reflexivity|right; congruence].
Defined.

Definition MeetingNode_eq_dec (a b : MeetingNode) : {a = b} + {a <> b}.
Proof. decide equality; apply string_dec. Defined.

Definition MentionEdge_eq_dec (a b : MentionEdge) : {a = b} + {a <> b}.
Proof.
  decide equality;
    try apply string_dec;
    try (apply option_eq_dec; first [apply string_dec | apply float_eq_dec | apply Z.eq_dec]).
Defined.

Definition EntityNode_eq_dec (a b : EntityNode) : {a = b} + {a <> b}.
Proof.
  decide equality;
    try apply string_dec; try apply Z.eq_dec; try apply float_eq_dec;
    try apply Bool.bool_dec;
    try (apply option_eq_dec; first [apply string_dec | apply float_eq_dec | apply Z.eq_dec]);
    apply list_eq_dec; apply string_dec.
Defined.

(** The maps [{meeting: meeting, mention: properties(m)}] and
    [{entity: related, rel: type(r), props: properties(r)}]; [None] is the
    map whose entries are all null. *)
Definition MentionMap := option (MeetingNode * MentionEdge).
Definition RelationshipMap := option (EntityNode * string * Dict).

Definition MentionMap_eq_dec (a b : MentionMap) : {a = b} + {a <> b}.
Proof.
  apply option_eq_dec. intros [m r] [m' r'].
  destruct (MeetingNode_eq_dec m m') as [->|N]; [|right; congruence].
  destruct (MentionEdge_eq_dec r r') as [->|N]; [left; reflexivity|right; congruence].
Defined.

Definition RelationshipMap_eq_dec (a b : RelationshipMap) : {a = b} + {a <> b}.
Proof.
  apply option_eq_dec. intros [[e t] d] [[e' t'] d'].
  destruct (EntityNode_eq_dec e e') as [->|N]; [|right; congruence].
  destruct (string_dec t t') as [->|N]; [|right; congruence].
  destruct (Dict_eq_dec d d') as [->|N]; [left; reflexivity|right; congruence].
Defined.

(** The rows of an [OPTIONAL MATCH]: the matches, or one row of nulls. *)
Definition optional {A} (matches : list A) : list (option A) :=
  match matches with
  | [] => [None]
  | _ :: _ => map Some matches
  end.

(** [(e)-[m:MENTIONED_IN]->(meeting:Meeting)] *)
Definition mentions_of (g : Graph) (e : EntityNode) : list (MeetingNode * MentionEdge) :=
  flat_map (fun r => map (fun m => (m, r)) (filter (meeting_has_id (r_meeting r)) (meetings g)))
    (filter (mention_from (n_id e)) (mentions g)).

(** [(e)-[r]->(related:Entity) WHERE type(r) <> 'MENTIONED_IN'] *)
Definition related_of (g : Graph) (e : EntityNode) : list (EntityNode * string * Dict) :=
  flat_map (fun r => map (fun t => (t, rel_type r, rel_props r))
                       (filter (has_id (rel_to r)) (entities g)))
    (filter (fun r => String.eqb (rel_from r) (n_id e)
                      && negb (String.eqb (rel_type r) "MENTIONED_IN")) (rels g)).

Record EntityDetails := mkEntityDetails {
  d_entity : EntityNode;
  d_mentions : list MentionMap;
  d_relationships : list RelationshipMap
}.

(** One row per matched entity: the two [OPTIONAL MATCH] multiply the rows
    of an entity, and each [collect(DISTINCT ...)] keeps one copy of every
    map it meets. *)
Definition get_entity (entity_id user_id : string) (g : Graph) : option EntityDetails :=
  hd_error
    (map (fun e => mkEntityDetails e
                     (nodup MentionMap_eq_dec (optional (mentions_of g e)))
                     (nodup RelationshipMap_eq_dec (optional (related_of g e))))
       (filter (has_id_owner entity_id user_id) (entities g))).

(* ================================================================== *)
(** * The other operations of relationships.py *)

(** ** delete_relationship:
    [MATCH (from:Entity {id, user_id})-[r:{relationship_type}]->(to:Entity {id})
     DELETE r RETURN count(r) as deleted].
    The type is written into the query text; it is read as the name of one
    relationship type. *)
Definition exec_delete_relationship (from_id to_id ty user_id : string) (g : Graph)
  : list Row * Graph :=
  let rows :=
    flat_map (fun ft => filter (rel_between (n_id (fst ft)) (n_id (snd ft)) ty) (rels g))
      (list_prod (filter (has_id_owner from_id user_id) (entities g))
                 (filter (has_id to_id) (entities g))) in
  ([RCount (Z.of_nat (List.length rows))],
   fold_left (fun g' r =>
                set_rels g' (filter (fun x => negb (rel_between (rel_from r) (rel_to r)
                                                      (rel_type r) x)) (rels g')))
     rows g).

Definition delete_relationship (from_entity_id to_entity_id relationship_type user_id : string)
  (g : Graph) : bool * Graph :=
  let (rows, g') :=
    exec_delete_relationship from_entity_id to_entity_id relationship_type user_id g in
  (match hd_error rows with
   | Some (RCount deleted) => 0 <? deleted
   | _ => false
   end, g').

(** ** get_entity_relationships *)

(** The node at the other end of a relationship.  The patterns [(target)],
    [(source)] and [(connected)] of the three queries carry no label, so the
    node need not be an entity: migrate_data.py, for one, links a person to
    an action item with [ASSIGNED_TO].  A relationship of [rels g] names its
    end points by id; an end point whose id no entity has is such a node, of
    which the model keeps the id and no other property. *)
Inductive Node :=
| NEntity (e : EntityNode)
| NOther (id : string).

Definition node_at (g : Graph) (i : string) : list Node :=
  match filter (has_id i) (entities g) with
  | [] => [NOther i]
  | es => map NEntity es
  end.

(** One dictionary of the answer.  [dict(r["target"]) if r["target"] else
    None]: a node with an id has a property and is never taken for empty. *)
Record RelatedEntity := mkRelatedEntity {
  re_entity : Node;
  re_relationship_type : string;
  re_properties : Dict;
  re_direction : string
}.

Definition not_mention (r : RelEdge) : bool :=
  negb (String.eqb (rel_type r) "MENTIONED_IN").

(** The rows of the three queries, for the matched entity [e]: the other end
    of the relationship, the relationship, and the column [direction] where
    the query has one.  In the third query a relationship from [e] to itself
    is listed once, as outgoing. *)
Definition outgoing_rows (g : Graph) (e : EntityNode)
  : list (Node * RelEdge * option string) :=
  flat_map (fun r => map (fun t => (t, r, None)) (node_at g (rel_to r)))
    (filter (fun r => String.eqb (rel_from r) (n_id e) && not_mention r) (rels g)).

Definition incoming_rows (g : Graph) (e : EntityNode)
  : list (Node * RelEdge * option string) :=
  flat_map (fun r => map (fun s => (s, r, None)) (node_at g (rel_from r)))
    (filter (fun r => String.eqb (rel_to r) (n_id e) && not_mention r) (rels g)).

Definition both_rows (g : Graph) (e : EntityNode)
  : list (Node * RelEdge * option string) :=
  flat_map (fun r =>
              if String.eqb (rel_from r) (n_id e)
              then map (fun t => (t, r, Some "outgoing")) (node_at g (rel_to r))
              else if String.eqb (rel_to r) (n_id e)
              then map (fun s => (s, r, Some "incoming")) (node_at g (rel_from r))
              else [])
    (filter not_mention (rels g)).

Definition get_entity_relationships (entity_id user_id direction : string) (g : Graph)
  : list RelatedEntity :=
  let results :=
    flat_map (if String.eqb direction "outgoing" then outgoing_rows g
              else if String.eqb direction "incoming" then incoming_rows g
              else both_rows g)
      (filter (has_id_owner entity_id user_id) (entities g)) in
  map (fun row : Node * RelEdge * option string =>
         let '(target, r, dir) := row in
         mkRelatedEntity target (rel_type r) (rel_props r)
           (match dir with Some d => d | None => direction end))
    results.

(** ** get_co_occurrences *)

Record CoOccurrence := mkCoOccurrence {
  co_entity1 : EntityNode;
  co_entity2 : EntityNode;
  co_shared_meetings : Z;
  co_meeting_titles : list string
}.

(** [collect(DISTINCT m.title)] over the shared meetings *)
Definition shared_titles (g : Graph) (p1 p2 : string) : list string :=
  nodup string_dec
    (flat_map (fun mid => map m_title (filter (meeting_has_id mid) (meetings g)))
       (shared_meetings g p1 p2)).

(** The rows before [ORDER BY] and [LIMIT]: one per pair of nodes that the
    pattern matches at least once. *)
Definition co_rows (user_id : string) (min_meetings : Z) (g : Graph) : list CoOccurrence :=
  flat_map (fun e1 =>
    flat_map (fun e2 =>
      if String.ltb (n_id e1) (n_id e2) && String.eqb (n_user_id e1) (n_user_id e2)
      then
        let c := shared_count g (n_id e1) (n_id e2) in
        if (0 <? c) && (min_meetings <=? c)
        then [mkCoOccurrence e1 e2 c (shared_titles g (n_id e1) (n_id e2))]
        else []
      else [])
      (entities g))
    (filter (fun n => String.eqb (n_user_id n) user_id) (entities g)).

Definition get_co_occurrences (user_id : string) (min_meetings limit : Z) (g : Graph)
  : option (list CoOccurrence) :=
  skip_limit 0 limit (order_by_desc co_shared_meetings (co_rows user_id min_meetings g)).

(* ================================================================== *)
(** * migrate_data.py: migrate_entity_mentions *)

(** A record of the table [entity_mentions], as far as the function reads
    it. *)
Record MentionRecord := mkMentionRecord {
  mr_entity_id : string;
  mr_session_id : string;
  mr_context : option string;
  mr_created_at : datetime
}.

(** [ON CREATE SET r.context = $context, r.mention_count = 1,
                   r.created_at = datetime($created_at)] *)
Definition migrated_mention (m : MentionRecord) (eid mid : string) : MentionEdge :=
  {| r_entity := eid;
     r_meeting := mid;
     r_context := mr_context m;
     r_timestamp_start := None;
     r_timestamp_end := None;
     r_speaker := None;
     r_mention_count := Some 1;
     r_sentiment := None;
     r_created_at := Some (mr_created_at m);
     r_updated_at := None |}.

(** The [MERGE] clause of the migration on one row [(e, meeting)];
    [ON MATCH SET r.mention_count = r.mention_count + 1]. *)
Definition migrate_mention_step (m : MentionRecord) (g : Graph)
  (row : EntityNode * MeetingNode) : Graph :=
  let hit := mention_between (n_id (fst row)) (m_id (snd row)) in
  match filter hit (mentions g) with
  | [] => set_mentions g (mentions g ++ [migrated_mention m (n_id (fst row)) (m_id (snd row))])
  | _ :: _ =>
      set_mentions g
        (map (fun r => if hit r
                       then set_mention_count r (cy_add (r_mention_count r) (Some 1))
                              (r_updated_at r)
                       else r) (mentions g))
  end.

(** [neo4j_session.run(...)] for one record *)
Definition run_migrate_mention (g : Graph) (m : MentionRecord) : Graph :=
  fold_left (migrate_mention_step m)
    (list_prod (filter (has_id (mr_entity_id m)) (entities g))
               (filter (meeting_has_id (mr_session_id m)) (meetings g)))
    g.

(** The function returns [count].  In a dry run that is the number of
    records.  In a real run the source adds 1 for a record only when
    [session.run] came back without raising; the count given here is that of
    a run in which the store raises on no statement, and the graph is the
    one that such a run leaves. *)
Definition migrate_entity_mentions (records : list MentionRecord) (dry_run : bool) (g : Graph)
  : Z * Graph :=
  fold_left (fun (acc : Z * Graph) (m : MentionRecord) =>
               let (count, g') := acc in
               if dry_run then (count + 1, g')
               else (count + 1, run_migrate_mention g' m))
    records (0, g).

(* ================================================================== *)
(** * services/langextract: main.py *)

Module Service.

Definition MAX_TRANSCRIPT_LENGTH : Z := 100000.

(** [class ExtractionRequest(BaseModel)] *)
Record ExtractionRequest := mkExtractionRequest {
  transcript : string;
  language : string
}.

(** What the endpoint answers: the body of [ExtractionResponse], or the
    status code of the [HTTPException] it raises (its detail text is left
    out). *)
Inductive Response :=
| ExtractionResponse (entities : list Extractor.GroundedEntity) (total_extracted : Z)
    (language : string)
| HTTPException (status_code : Z).

Section endpoint.

(** Python's [str.lower], [float(str)], [str.strip] and [len] on strings. *)
Variable str_lower : string -> string.
Variable py_float : string -> option float.
Variable str_strip : string -> string.
Variable str_len : string -> Z.

(** [verify_api_key]: [true] when it raises nothing. *)
Definition verify_api_key (env_LANGEXTRACT_API_KEY : option string) (x_api_key : option string)
  : bool :=
  match env_LANGEXTRACT_API_KEY with
  | None => true
  | Some expected_key =>
      if String.eqb expected_key "" then true
      else match x_api_key with
           | Some k => String.eqb k expected_key
           | None => false
           end
  end.

(** [GroundedEntityResponse(...)] declares both offsets as [int]: building
    it from an entity without a position raises a validation error. *)
Definition response_entity_ok (e : Extractor.GroundedEntity) : bool :=
  match Extractor.start_offset e, Extractor.end_offset e with
  | Some _, Some _ => true
  | _, _ => false
  end.

(** [POST /extract] on a request whose body fits [ExtractionRequest], the
    dependency [verify_api_key] first.  (To a body that does not fit, the
    framework answers 422 without calling the function.)  Whatever the
    [try] block raises, the call of [extract_entities] or the construction
    of the response, becomes the status 500. *)
Definition extract (env_LANGEXTRACT_API_KEY x_api_key : option string)
  (env_OPENAI_API_KEY : option string) (lx_result : option (list Extractor.Extraction))
  (env_MIN_CONFIDENCE : option string) (request : ExtractionRequest) : Response :=
  if negb (verify_api_key env_LANGEXTRACT_API_KEY x_api_key) then HTTPException 401
  else if String.eqb (transcript request) "" || String.eqb (str_strip (transcript request)) ""
  then HTTPException 400
  else if MAX_TRANSCRIPT_LENGTH <? str_len (transcript request) then HTTPException 413
  else
    match Extractor.extract_entities str_lower py_float env_OPENAI_API_KEY lx_result
            env_MIN_CONFIDENCE with
    | Returned entities =>
        if forallb response_entity_ok entities
        then ExtractionResponse entities (Z.of_nat (List.length entities)) (language request)
        else HTTPException 500
    | Raised _ => HTTPException 500
    end.

End endpoint.

End Service.

(** Rows in descending order of an integer key: every row is at least as
    large as all the rows after it. *)
Definition descending {A} (key : A -> Z) (l : list A) : Prop :=
  StronglySorted (fun a b => key b <= key a) l.

(** [grouped.get(k, [])] *)
Fixpoint group_get {V} (k : string) (grouped : list (string * list V)) : list V :=
  match grouped with
  | [] => []
  | (k', vs) :: r => if String.eqb k' k then vs else group_get k r
  end.

(** The dictionary that the method builds from a row. *)
Definition related_entity (direction : string) (row : Node * RelEdge * option string)
  : RelatedEntity :=
  let '(target, r, dir) := row in
  mkRelatedEntity target (rel_type r) (rel_props r)
    (match dir with Some d => d | None => direction end).

(** The records of the table for one entity and one meeting. *)
Definition records_for (eid mid : string) (records : list MentionRecord)
  : list MentionRecord :=
  filter (fun m => String.eqb (mr_entity_id m) eid && String.eqb (mr_session_id m) mid)
    records.

(** A relationship whose [mention_count] has gone up by [n]. *)
Definition counted_more (n : Z) (r : MentionEdge) : MentionEdge :=
  set_mention_count r (cy_add (r_mention_count r) (Some n)) (r_updated_at r).

(* ================================================================== *)
(** * Sample data *)

Module Sample.

Definition meeting (i : string) : MeetingNode := mkMeetingNode i "u1" "Weekly sync".

Definition node (label i nv : string) (aliases : list string) (count : Z) (seen : datetime)
  : EntityNode :=
  mkEntityNode label i "u1" nv nv aliases None count f_0_8 seen seen None false seen None.

Definition mention_edge (eid mid : string) (count : Z) : MentionEdge :=
  mkMentionEdge eid mid (Some "said in passing") None None None (Some count) None
    (Some 10) None.

Definition mention (eid mid ctx : string) (count : Z) : EntityMention :=
  mkEntityMention eid mid ctx None None (Some "Speaker 1") count None.

(** An [Entity] as its constructor validates it: the type is held as text. *)
Definition validated (i nv : string) (t : EntityType) (aliases : list string) (count : Z)
  (seen : datetime) : Entity :=
  mkEntity i "u1" (type_value t) nv nv aliases None count f_0_8 seen seen None false.

(** The same built by [Entity.construct], which does not validate: the type
    is the member that was passed. *)
Definition entity (i nv : string) (t : EntityType) (aliases : list string) (count : Z)
  (seen : datetime) : Entity :=
  mkEntity i "u1" (type_member t) nv nv aliases None count f_0_8 seen seen None false.

Definition db_of (g : Graph) (apoc_installed : bool) : Neo4j := mkNeo4j g apoc_installed [].

(** Two entities, one meeting, no relationship. *)
Definition g_two : Graph :=
  mkGraph [node "Organization" "k1" "acme" ["acme corp"] 5 100;
           node "Organization" "m1" "acme inc" [] 3 120]
          [meeting "mt1"; meeting "mt2"] [] [].

(** The same, where the second entity is mentioned in both meetings and the
    first in one. *)
Definition g_mentioned : Graph :=
  set_mentions g_two
    [mention_edge "k1" "mt1" 2; mention_edge "m1" "mt1" 1; mention_edge "m1" "mt2" 4].

(** One person known as "dana", last seen at 200. *)
Definition g_dana : Graph :=
  mkGraph [node "Person" "p1" "dana" ["dana k"] 5 200] [meeting "mt1"] [] [].

(** Three sightings of the same person under different casings, and one
    of somebody else in between. *)
Definition calls_dana : list UpsertCall :=
  [ mkUpsertCall "uuid-1" 10 (entity "" "Dana" PERSON ["D."] 1 10);
    mkUpsertCall "uuid-2" 11 (entity "" "Noa" PERSON [] 1 11);
    mkUpsertCall "uuid-3" 12 (entity "" "dana" PERSON ["D."; "Dana K"] 2 12);
    mkUpsertCall "uuid-4" 13 (entity "x9" "DANA" PERSON [] 4 13) ].

(** The same three sightings of "dana" as validated entities. *)
Definition calls_dana_validated : list UpsertCall :=
  [ mkUpsertCall "uuid-1" 10 (validated "" "Dana" PERSON ["D."] 1 10);
    mkUpsertCall "uuid-3" 12 (validated "" "dana" PERSON ["D."; "Dana K"] 2 12);
    mkUpsertCall "uuid-4" 13 (validated "x9" "DANA" PERSON [] 4 13) ].

(** A sighting of "dana" dated before the stored [last_seen]. *)
Definition dana_seen_earlier : Entity :=
  entity "" "Dana" PERSON ["D."; "dana k"] 2 100.

(** An organization and two people who met three times. *)
Definition g_people : Graph :=
  mkGraph [node "Organization" "o1" "acme" [] 2 100;
           node "Person" "p1" "dana" [] 4 100;
           node "Person" "p2" "noa" [] 3 100]
          [meeting "mt1"; meeting "mt2"; meeting "mt3"]
          [mention_edge "p1" "mt1" 1; mention_edge "p2" "mt1" 1;
           mention_edge "p1" "mt2" 1; mention_edge "p2" "mt2" 1;
           mention_edge "p1" "mt3" 1; mention_edge "p2" "mt3" 1]
          [].

Definition works_at : EntityRelationship :=
  mkEntityRelationship "p1" "o1" WORKS_AT f_0_8 "ai" [("since", VInt 2021)].

Definition works_at_again : EntityRelationship :=
  mkEntityRelationship "p1" "o1" WORKS_AT f_1_0 "user" [].

(** The example of the specification: Organization to Person, type USES. *)
Definition uses_org_person : EntityRelationship :=
  mkEntityRelationship "o1" "p1" USES f_1_0 "ai" [].

(** A collaboration stated by the user, from the larger id to the smaller. *)
Definition collaborates_user : EntityRelationship :=
  mkEntityRelationship "p2" "p1" COLLABORATES_WITH f_1_0 "user" [].

(** [g_people] after one of the two has left the third meeting. *)
Definition g_people_less : Graph :=
  set_mentions g_people
    [mention_edge "p1" "mt1" 1; mention_edge "p2" "mt1" 1;
     mention_edge "p1" "mt2" 1; mention_edge "p2" "mt2" 1;
     mention_edge "p1" "mt3" 1].

Definition extraction (cls txt status : string) : Extractor.Extraction :=
  Extractor.mkExtraction (Some cls) (Some txt) None None (Some status).

Definition extractions : list Extractor.Extraction :=
  [extraction "person" "Dana" "EXACT"; extraction "topic" "Budget" "MATCH_FUZZY"].

(** 0.9, and a [float()] that reads it. *)
Definition f_0_9 : float := float_of_mantissa 8106479329266893 (-53).

Definition float_0_9 (s : string) : option float :=
  if String.eqb s "0.9" then Some f_0_9 else None.

(** [g_mentioned] with a third entity, of another owner, also mentioned in
    the first meeting. *)
Definition g_shared : Graph :=
  mkGraph (entities g_mentioned
           ++ [mkEntityNode "Organization" "x1" "u2" "acme" "ACME" [] None 7 f_1_0 90 90
                 None true 90 None])
          (meetings g_mentioned)
          (mentions g_mentioned ++ [mention_edge "x1" "mt1" 6])
          [mkRelEdge "m1" "k1" "RELATED_TO" []; mkRelEdge "x1" "k1" "RELATED_TO" []].

(** A new display value and a new alias list; the key [mention_count] is
    not one that [update_entity] accepts. *)
Definition updates_display : EntityUpdates :=
  mkEntityUpdates (Some "ACME Inc.") None (Some ["acme"; "acme incorporated"]) None None
    ["mention_count"].

Definition updates_ignored : EntityUpdates :=
  mkEntityUpdates None None None None None ["mention_count"; "normalized_value"].

(** [g_people] where the first person works at the organization, reports to
    the second person, and is said to collaborate with it by the second. *)
Definition g_linked : Graph :=
  set_rels g_people
    [mkRelEdge "p1" "o1" "WORKS_AT" [("confidence", VFloat f_0_8)];
     mkRelEdge "p2" "p1" "COLLABORATES_WITH" [("source", VStr "user")];
     mkRelEdge "p1" "p2" "REPORTS_TO" [];
     mkRelEdge "p1" "o1" "WORKS_AT" [("confidence", VFloat f_1_0)]].

(** [g_linked] where the first person is also assigned to an action item,
    a node that is not an entity. *)
Definition g_assigned : Graph :=
  set_rels g_linked (rels g_linked ++ [mkRelEdge "p1" "a1" "ASSIGNED_TO" []]).

(** Rows of the table [entity_mentions]: two for an entity and a meeting
    that are linked already, one for a pair that is not, and one for an
    entity that was not migrated. *)
Definition mention_records : list MentionRecord :=
  [mkMentionRecord "k1" "mt1" (Some "first") 50;
   mkMentionRecord "k1" "mt2" (Some "second") 51;
   mkMentionRecord "zz" "mt1" None 52;
   mkMentionRecord "k1" "mt1" (Some "third") 53;
   mkMentionRecord "k1" "mt2" None 54].

(** [str.strip] and [len] on texts of ASCII characters. *)
Definition is_space (c : ascii) : bool :=
  Ascii.eqb c " " || Ascii.eqb c "009" || Ascii.eqb c "010" || Ascii.eqb c "013".

Fixpoint lstrip (l : list ascii) : list ascii :=
  match l with
  | [] => []
  | c :: r => if is_space c then lstrip r else l
  end.

Definition strip_ascii (s : string) : string :=
  string_of_list_ascii (rev (lstrip (rev (lstrip (list_ascii_of_string s))))).

Definition len_ascii (s : string) : Z := Z.of_nat (String.length s).

Definition request_budget : Service.ExtractionRequest :=
  Service.mkExtractionRequest " Dana opened with the budget. " "en".

Definition request_blank : Service.ExtractionRequest :=
  Service.mkExtractionRequest "   " "he".

(** An extraction whose interval has no start position. *)
Definition extraction_unplaced : Extractor.Extraction :=
  Extractor.mkExtraction (Some "person") (Some "Noa") None
    (Some (Extractor.mkCharInterval None (Some 12))) (Some "EXACT").

End Sample.

(* ================================================================== *)
(** * Properties *)

Unset Implicit Arguments.

(** ** Floats *)

Lemma SFcompare_antisym (a b : spec_float) :
  SFcompare b a = option_map CompOpp (SFcompare a b).
Proof.
  destruct a as [sa|sa| |sa ma ea], b as [sb|sb| |sb mb eb]; simpl;
    try reflexivity;
    try (destruct sa; reflexivity);
    try (destruct sb; reflexivity);
    try (destruct sa, sb; reflexivity).
  fold (Pos.compare ma mb); fold (Pos.compare mb ma).
  rewrite (Z.compare_antisym ea eb), (Pos.compare_antisym ma mb).
  destruct sa, sb; simpl; try reflexivity;
    destruct (ea ?= eb); simpl; try reflexivity;
    destruct (ma ?= mb)%positive; reflexivity.
Qed.

Lemma float_lt_not_ge (a b : float) : float_lt a b = true -> float_ge a b = false.
Proof.
  unfold float_lt, float_ge, SFltb, SFleb.
  rewrite (SFcompare_antisym a b).
  destruct (SFcompare a b) as [[]|]; simpl; congruence.
Qed.

(** ** The monad of the client *)

Lemma run_single_query_eq now q db :
  run_single_query now q db =
  match exec now q (apoc db) (graph db) with
  | Returned (rows, g') =>
      (Returned (hd_error rows), mkNeo4j g' (apoc db) (journal db ++ [q]))
  | Raised e => (Raised e, mkNeo4j (graph db) (apoc db) (journal db ++ [q]))
  end.
Proof.
  unfold run_single_query, bind, run_query, ret.
  destruct (exec now q (apoc db) (graph db)) as [[rows g']|e]; reflexivity.
Qed.

(** ** Lists *)

Lemma flat_map_nil {A B} (f : A -> list B) (l : list A) :
  (forall x, In x l -> f x = []) -> flat_map f l = [].
Proof.
  induction l as [|x l IH]; intros H; simpl; [reflexivity|].
  rewrite (H x (or_introl eq_refl)), IH; [reflexivity|].
  intros y Hy; apply H; right; exact Hy.
Qed.

Lemma list_prod_nil_r {A B} (l : list A) : list_prod l (@nil B) = [].
Proof. induction l; simpl; auto. Qed.

Lemma filter_nil_iff {A} (f : A -> bool) (l : list A) :
  filter f l = [] <-> forall x, In x l -> f x = false.
Proof.
  induction l as [|a l IH]; simpl.
  - split; [intros _ x []|reflexivity].
  - destruct (f a) eqn:Fa; split.
    + discriminate.
    + intros H. rewrite (H a (or_introl eq_refl)) in Fa. discriminate.
    + intros H x [<-|Hx]; [exact Fa|]. apply IH; assumption.
    + intros H. apply IH. intros x Hx. apply H. right; exact Hx.
Qed.

Lemma filter_has_id_absent (i : string) (es : list EntityNode) :
  ~ In i (map n_id es) -> filter (has_id i) es = [].
Proof.
  intros H. apply filter_nil_iff. intros x Hx. unfold has_id.
  apply String.eqb_neq. intros E. apply H. rewrite <- E. apply in_map. exact Hx.
Qed.

Lemma filter_meeting_absent (i : string) (ms : list MeetingNode) :
  ~ In i (map m_id ms) -> filter (meeting_has_id i) ms = [].
Proof.
  intros H. apply filter_nil_iff. intros x Hx. unfold meeting_has_id.
  apply String.eqb_neq. intros E. apply H. rewrite <- E. apply in_map. exact Hx.
Qed.

(** ** extract_entities *)

(** C9.  When the extraction step has produced its candidates, what
    [extract_entities] returns is the candidates filtered by the configured
    minimum confidence: a candidate strictly below the threshold is not in
    the returned list, a candidate at or above it is, and nothing else is
    returned.  Without [MIN_CONFIDENCE] in the environment the threshold is
    0.7. *)
Theorem extract_entities_confidence_filter
  (str_lower : string -> string) (py_float : string -> option float)
  (api_key : option string) (extractions : list Extractor.Extraction)
  (env_min : option string) (threshold : float) :
  String.eqb (Extractor.str_or api_key "") "" = false ->
  Extractor.min_confidence py_float env_min = Some threshold ->
  exists out,
    Extractor.extract_entities str_lower py_float api_key (Some extractions) env_min
      = Returned out
    /\ (env_min = None -> threshold = f_0_7)
    /\ (forall e, In e (Extractor.candidates str_lower extractions) ->
                  float_lt (Extractor.confidence e) threshold = true -> ~ In e out)
    /\ (forall e, In e (Extractor.candidates str_lower extractions) ->
                  float_ge (Extractor.confidence e) threshold = true -> In e out)
    /\ (forall e, In e out ->
                  In e (Extractor.candidates str_lower extractions)
                  /\ float_ge (Extractor.confidence e) threshold = true).
Proof.
  intros Hkey Hthr.
  exists (filter (fun e => float_ge (Extractor.confidence e) threshold)
            (Extractor.candidates str_lower extractions)).
  unfold Extractor.extract_entities. rewrite Hkey, Hthr.
  split; [reflexivity|].
  split.
  { intros ->. simpl in Hthr. congruence. }
  split; [|split].
  - intros e _ Hlt Hin. apply filter_In in Hin. destruct Hin as [_ Hge].
    rewrite (float_lt_not_ge _ _ Hlt) in Hge. discriminate.
  - intros e Hin Hge. apply filter_In. split; assumption.
  - intros e Hin. apply filter_In in Hin. exact Hin.
Qed.

Lemma extract_entities_confidence_filter_witness :
  exists out,
    Extractor.extract_entities lower_ascii Sample.float_0_9 (Some "sk-test")
      (Some Sample.extractions) (Some "0.9") = Returned out
    /\ (Some "0.9" = None -> Sample.f_0_9 = f_0_7)
    /\ (forall e, In e (Extractor.candidates lower_ascii Sample.extractions) ->
                  float_lt (Extractor.confidence e) Sample.f_0_9 = true -> ~ In e out)
    /\ (forall e, In e (Extractor.candidates lower_ascii Sample.extractions) ->
                  float_ge (Extractor.confidence e) Sample.f_0_9 = true -> In e out)
    /\ (forall e, In e out ->
                  In e (Extractor.candidates lower_ascii Sample.extractions)
                  /\ float_ge (Extractor.confidence e) Sample.f_0_9 = true).
Proof.
  apply (extract_entities_confidence_filter lower_ascii Sample.float_0_9 (Some "sk-test")
           Sample.extractions (Some "0.9") Sample.f_0_9); reflexivity.
Defined.

(** With the threshold at 0.9 the candidate at 0.8 is dropped; with the
    default threshold both candidates pass. *)
Example extract_entities_threshold_0_9 :
  Extractor.extract_entities lower_ascii Sample.float_0_9 (Some "sk-test")
    (Some Sample.extractions) (Some "0.9")
  = Returned [Extractor.mkGroundedEntity "person" "Dana" "dana" f_1_0 (Some 0) (Some 0) "Dana"].
Proof. vm_compute. reflexivity. Qed.

Example extract_entities_default_threshold :
  Extractor.extract_entities lower_ascii Sample.float_0_9 (Some "sk-test")
    (Some Sample.extractions) None
  = Returned (Extractor.candidates lower_ascii Sample.extractions).
Proof. vm_compute. reflexivity. Qed.

(** ** add_mention on a missing end point *)

(** C7.  When no entity has the given entity id, or no meeting has the given
    meeting id, [add_mention] reports failure ([False]) and the graph is left
    as it was: no entity, no meeting and no relationship is created. *)
Theorem add_mention_missing_endpoint (now : datetime) (p : EntityMention) (db : Neo4j) :
  ~ In (em_entity_id p) (map n_id (entities (graph db)))
  \/ ~ In (em_meeting_id p) (map m_id (meetings (graph db))) ->
  fst (add_mention now p db) = Returned false
  /\ graph (snd (add_mention now p db)) = graph db.
Proof.
  intros H.
  assert (Hrows : list_prod (filter (has_id (em_entity_id p)) (entities (graph db)))
                    (filter (meeting_has_id (em_meeting_id p)) (meetings (graph db))) = []).
  { destruct H as [H|H].
    - rewrite (filter_has_id_absent _ _ H). reflexivity.
    - rewrite (filter_meeting_absent _ _ H). apply list_prod_nil_r. }
  unfold add_mention, bind. rewrite run_single_query_eq. simpl.
  unfold exec_add_mention. rewrite Hrows. simpl. split; reflexivity.
Qed.

Lemma add_mention_missing_endpoint_witness :
  fst (add_mention 50 (Sample.mention "zz" "mt1" "joined late" 1)
         (Sample.db_of Sample.g_two false)) = Returned false
  /\ graph (snd (add_mention 50 (Sample.mention "zz" "mt1" "joined late" 1)
                   (Sample.db_of Sample.g_two false)))
     = graph (Sample.db_of Sample.g_two false).
Proof.
  apply (add_mention_missing_endpoint 50 (Sample.mention "zz" "mt1" "joined late" 1)
           (Sample.db_of Sample.g_two false)).
  left. simpl. intros [H|[H|[]]]; discriminate H.
Defined.

(** ** merge_entities *)

(** The store rejects the statement of [merge_entities]; the exception
    passes through [run_single_query] and the method, which catch nothing. *)
Lemma merge_entities_eq (now : datetime) (uid keep_id merge_id : string) (db : Neo4j) :
  merge_entities now uid keep_id merge_id db
  = (Raised CypherSyntaxError,
     mkNeo4j (graph db) (apoc db) (journal db ++ [Q_merge_entities uid keep_id merge_id])).
Proof.
  unfold merge_entities, bind. rewrite run_single_query_eq. reflexivity.
Qed.

(** C2.  [merge_entities] on two entities of one owner, the merged one
    mentioned in two meetings and the kept one in one of them: the call
    raises the syntax error of the store and nothing is merged.  The kept
    entity still counts 5 (not 5 + 3) and has its one alias, the merged
    entity is still found, and its two mentions still start at it. *)
Theorem merge_entities_merges_nothing :
  let db := Sample.db_of Sample.g_mentioned false in
  let out := merge_entities 60 "u1" "k1" "m1" db in
  fst out = Raised CypherSyntaxError
  /\ graph (snd out) = Sample.g_mentioned
  /\ option_map n_mention_count (get_entity_node "k1" "u1" (graph (snd out))) = Some 5
  /\ option_map n_aliases (get_entity_node "k1" "u1" (graph (snd out))) = Some ["acme corp"]
  /\ option_map n_mention_count (get_entity_node "m1" "u1" (graph (snd out))) = Some 3
  /\ filter (mention_from "m1") (mentions (graph (snd out)))
     = [Sample.mention_edge "m1" "mt1" 1; Sample.mention_edge "m1" "mt2" 4]
  /\ filter (mention_from "k1") (mentions (graph (snd out)))
     = [Sample.mention_edge "k1" "mt1" 2].
Proof.
  cbv zeta. rewrite merge_entities_eq. cbn [fst snd graph].
  repeat split; reflexivity.
Qed.

(** C10.  [merge_entities] on two entities of one owner of which the one to
    merge has no mention: the call does not return [False], it raises the
    syntax error of the store, as it does on every input; the graph is
    unchanged. *)
Theorem merge_entities_without_mentions_raises :
  let db := Sample.db_of Sample.g_two false in
  let out := merge_entities 60 "u1" "k1" "m1" db in
  filter (mention_from "m1") (mentions (graph db)) = []
  /\ fst out = Raised CypherSyntaxError
  /\ fst out <> Returned false
  /\ graph (snd out) = Sample.g_two
  /\ option_map n_mention_count (get_entity_node "k1" "u1" (graph (snd out))) = Some 5
  /\ option_map n_aliases (get_entity_node "k1" "u1" (graph (snd out))) = Some ["acme corp"]
  /\ option_map n_id (get_entity_node "m1" "u1" (graph (snd out))) = Some "m1".
Proof.
  cbv zeta. rewrite merge_entities_eq. cbn [fst snd graph].
  repeat split; try reflexivity. discriminate.
Qed.



(** ** upsert_entity *)

Lemma with_key_true (k : Key) (n : EntityNode) :
  with_key k n = true <-> node_key n = k.
Proof.
  destruct k as [[l u] v]. unfold with_key, merge_key, node_key. simpl.
  rewrite !andb_true_iff, !String.eqb_eq. split.
  - intros [[-> ->] ->]. reflexivity.
  - intros E. inversion E. auto.
Qed.

Lemma key_eqb_true (k1 k2 : Key) : key_eqb k1 k2 = true <-> k1 = k2.
Proof.
  destruct k1 as [[l1 u1] v1], k2 as [[l2 u2] v2]. unfold key_eqb. simpl.
  rewrite !andb_true_iff, !String.eqb_eq. split.
  - intros [[-> ->] ->]. reflexivity.
  - intros E. inversion E. auto.
Qed.

Lemma with_key_other (k k' : Key) (n : EntityNode) :
  with_key k n = true -> k' <> k -> with_key k' n = false.
Proof.
  intros H Hne. destruct (with_key k' n) eqn:E; [|reflexivity].
  apply with_key_true in H. apply with_key_true in E. congruence.
Qed.

Lemma filter_map_commute {A} (P : A -> bool) (f : A -> A) (l : list A) :
  (forall x, P (f x) = P x) -> filter P (map f l) = map f (filter P l).
Proof.
  intros H. induction l as [|a l IH]; simpl; [reflexivity|].
  rewrite H. destruct (P a); simpl; rewrite IH; reflexivity.
Qed.

Lemma map_id_on {A} (f : A -> A) (l : list A) :
  (forall x, In x l -> f x = x) -> map f l = l.
Proof.
  intros H. induction l as [|a l IH]; simpl; [reflexivity|].
  rewrite H by (left; reflexivity). rewrite IH; [reflexivity|].
  intros x Hx. apply H. right. exact Hx.
Qed.

Section UpsertFacts.
Variable str_lower : string -> string.

Lemma upsert_entity_text uuid4 now entity db t :
  ent_type entity = type_value t ->
  upsert_entity str_lower uuid4 now entity db = (Raised AttributeError, db).
Proof. intros H. unfold upsert_entity. rewrite H. reflexivity. Qed.

Lemma upsert_entity_eq uuid4 now entity db t :
  ent_type entity = type_member t ->
  upsert_entity str_lower uuid4 now entity db =
  match exec_upsert_entity now (capitalize (EntityType_value t))
          (upsert_params str_lower uuid4 entity) (graph db) with
  | Returned (rows, g') =>
      (Returned (match hd_error rows with Some (REntity e) => Some e | _ => None end),
       mkNeo4j g' (apoc db) (journal db ++ [upsert_query str_lower uuid4 t entity]))
  | Raised e =>
      (Raised e,
       mkNeo4j (graph db) (apoc db) (journal db ++ [upsert_query str_lower uuid4 t entity]))
  end.
Proof.
  intros H. unfold upsert_entity. rewrite H. unfold bind.
  rewrite run_single_query_eq. unfold upsert_query. simpl.
  destruct (exec_upsert_entity _ _ _ _) as [[rows g']|e]; reflexivity.
Qed.

Lemma with_key_on_match_all k' now k p n :
  with_key k' (on_match_all now k p n) = with_key k' n.
Proof. unfold on_match_all. destruct (with_key k n); reflexivity. Qed.

Lemma exec_upsert_entity_outcome now label p g :
  upsert_outcome now label p g (exec_upsert_entity now label p g).
Proof.
  unfold exec_upsert_entity.
  change (merge_key label (ent_user_id p) (ent_normalized_value p))
    with (with_key (label, ent_user_id p, ent_normalized_value p)).
  set (k := (label, ent_user_id p, ent_normalized_value p)).
  destruct (filter (with_key k) (entities g)) as [|e0 l] eqn:F.
  - destruct (existsb (has_id (ent_id p)) (entities g)) eqn:X.
    + apply upsert_clash; assumption.
    + apply upsert_created; assumption.
  - change (fun n => if with_key k n then upsert_on_match now p n else n)
      with (on_match_all now k p).
    rewrite (filter_map_commute (with_key k) (on_match_all now k p)).
    2:{ intros x. apply with_key_on_match_all. }
    rewrite F. rewrite <- F at 1.
    apply upsert_matched. subst k. rewrite F. discriminate.
Qed.

Lemma with_key_created k now label p :
  with_key k (upsert_on_create now label p)
  = key_eqb (label, ent_user_id p, ent_normalized_value p) k.
Proof. destruct k as [[l u] v]. reflexivity. Qed.

Lemma call_key_params (c : UpsertCall) t :
  ent_type (call_entity c) = type_member t ->
  call_key str_lower c =
  (capitalize (EntityType_value t),
   ent_user_id (upsert_params str_lower (call_uuid4 c) (call_entity c)),
   ent_normalized_value (upsert_params str_lower (call_uuid4 c) (call_entity c))).
Proof. intros H. unfold call_key. rewrite H. reflexivity. Qed.

Lemma filter_singleton {A} (P : A -> bool) (l : list A) :
  filter P l <> [] -> (List.length (filter P l) <= 1)%nat -> exists x, filter P l = [x].
Proof.
  destruct (filter P l) as [|x [|y r]]; simpl; intros H1 H2.
  - congruence.
  - exists x; reflexivity.
  - lia.
Qed.

Lemma upsert_step (c : UpsertCall) (db : Neo4j) (k : Key) :
  key_unique (graph db) ->
  let out := upsert_entity str_lower (call_uuid4 c) (call_now c) (call_entity c) db in
  let hit := key_eqb (call_key str_lower c) k && returned (fst out) in
  key_unique (graph (snd out))
  /\ journal (snd out) = journal db ++ call_queries str_lower c
  /\ key_total k (graph (snd out))
     = key_total k (graph db)
       + sum_Z (if hit then [ent_mention_count (call_entity c)] else [])
  /\ (key_count k (graph db) <= key_count k (graph (snd out)))%nat
  /\ (hit = true -> (1 <= key_count k (graph (snd out)))%nat)
  /\ (hit = false -> key_count k (graph (snd out)) = key_count k (graph db)).
Proof.
  intros Hu out hit. subst out hit. unfold call_queries.
  destruct (ent_type (call_entity c)) as [t|t] eqn:Et.
  { (* the type is held as text: nothing is sent *)
    rewrite (upsert_entity_text _ _ _ _ t Et). cbn [fst snd returned].
    rewrite andb_false_r, app_nil_r. cbn [sum_Z fold_right].
    repeat split; auto; try lia; discriminate. }
  rewrite (upsert_entity_eq _ _ _ _ t Et), (call_key_params c t Et).
  set (label := capitalize (EntityType_value t)).
  set (p := upsert_params str_lower (call_uuid4 c) (call_entity c)).
  set (kc := (label, ent_user_id p, ent_normalized_value p)).
  assert (Hd : ent_mention_count (call_entity c) = ent_mention_count p) by reflexivity.
  rewrite Hd. clear Hd.
  destruct (exec_upsert_entity_outcome (call_now c) label p (graph db))
    as [Hnone Hclash | Hnone Hfresh | Hsome];
    try fold kc in Hnone; try fold kc in Hsome; fold kc; simpl.
  - (* the id is taken *)
    rewrite andb_false_r. simpl. repeat split; auto; lia.
  - (* created *)
    rewrite andb_true_r.
    assert (Hf : forall k', filter (with_key k')
                    (entities (graph db) ++ [upsert_on_create (call_now c) label p])
                  = filter (with_key k') (entities (graph db))
                    ++ (if key_eqb kc k' then [upsert_on_create (call_now c) label p] else [])).
    { intros k'. rewrite filter_app. simpl. rewrite with_key_created. fold kc.
      destruct (key_eqb kc k'); reflexivity. }
    split; [|split; [reflexivity|]].
    { intros k'. unfold key_count. simpl. rewrite Hf.
      destruct (key_eqb kc k') eqn:E.
      - apply key_eqb_true in E. subst k'. rewrite Hnone. simpl. lia.
      - rewrite app_nil_r. apply Hu. }
    unfold key_total, key_count. simpl. rewrite Hf.
    destruct (key_eqb kc k) eqn:E.
    + apply key_eqb_true in E. subst k. rewrite Hnone. simpl.
      repeat split; auto; lia.
    + rewrite app_nil_r. simpl. repeat split; auto; try lia; try discriminate.
  - (* matched *)
    rewrite andb_true_r.
    assert (Hf : forall k', filter (with_key k')
                    (map (on_match_all (call_now c) kc p) (entities (graph db)))
                  = map (on_match_all (call_now c) kc p)
                      (filter (with_key k') (entities (graph db)))).
    { intros k'. apply filter_map_commute. intros x. apply with_key_on_match_all. }
    split; [|split; [reflexivity|]].
    { intros k'. unfold key_count. simpl. rewrite Hf, length_map. apply Hu. }
    unfold key_total, key_count. simpl. rewrite Hf, length_map.
    destruct (key_eqb kc k) eqn:E.
    + apply key_eqb_true in E. subst k.
      destruct (filter_singleton _ _ Hsome (Hu kc)) as [e0 He0].
      assert (Hk0 : with_key kc e0 = true).
      { assert (Hin : In e0 (filter (with_key kc) (entities (graph db))))
          by (rewrite He0; left; reflexivity).
        apply filter_In in Hin. apply Hin. }
      rewrite He0. simpl. unfold on_match_all. rewrite Hk0. simpl.
      repeat split; auto; lia.
    + assert (Hne : k <> kc).
      { intros ->. rewrite (proj2 (key_eqb_true kc kc) eq_refl) in E. discriminate. }
      rewrite map_id_on.
      * simpl. repeat split; auto; try lia; try discriminate.
      * intros x Hx. apply filter_In in Hx. destruct Hx as [_ Hx].
        unfold on_match_all. rewrite (with_key_other k kc x Hx); [reflexivity|].
        intros Ek. apply Hne. symmetry; exact Ek.
Qed.

Lemma applied_deltas_cons k c cs r rs :
  applied_deltas str_lower k (c :: cs) (r :: rs)
  = (if key_eqb (call_key str_lower c) k && returned r
     then [ent_mention_count (call_entity c)] else [])
    ++ applied_deltas str_lower k cs rs.
Proof. reflexivity. Qed.

Lemma sum_Z_app l1 l2 : sum_Z (l1 ++ l2) = sum_Z l1 + sum_Z l2.
Proof. induction l1; simpl; lia. Qed.

Lemma upsert_seq_spec (calls : list UpsertCall) (k : Key) :
  forall db, key_unique (graph db) ->
  let out := upsert_seq str_lower calls db in
  key_unique (graph (snd out))
  /\ journal (snd out) = journal db ++ flat_map (call_queries str_lower) calls
  /\ key_total k (graph (snd out))
     = key_total k (graph db) + sum_Z (applied_deltas str_lower k calls (fst out))
  /\ (key_count k (graph db) <= key_count k (graph (snd out)))%nat
  /\ (applied_deltas str_lower k calls (fst out) <> [] ->
      (1 <= key_count k (graph (snd out)))%nat)
  /\ (applied_deltas str_lower k calls (fst out) = [] ->
      key_count k (graph (snd out)) = key_count k (graph db)).
Proof.
  induction calls as [|c calls IH]; intros db Hu; simpl.
  - rewrite app_nil_r. repeat split; auto; try lia. congruence.
  - pose proof (upsert_step c db k Hu) as Hs. simpl in Hs.
    destruct (upsert_entity str_lower (call_uuid4 c) (call_now c) (call_entity c) db)
      as [r db1] eqn:E1. simpl in Hs.
    destruct Hs as (Hu1 & Hj1 & Ht1 & Hm1 & Hh1 & Hn1).
    specialize (IH db1 Hu1). simpl in IH.
    destruct (upsert_seq str_lower calls db1) as [rs db2] eqn:E2. simpl in *.
    destruct IH as (Hu2 & Hj2 & Ht2 & Hm2 & Hh2 & Hn2).
    split; [exact Hu2|].
    split; [rewrite Hj2, Hj1, <- app_assoc; reflexivity|].
    split; [rewrite Ht2, Ht1, sum_Z_app; lia|].
    split; [lia|].
    split.
    + intros Hne.
      destruct (key_eqb (call_key str_lower c) k && returned r) eqn:Eh.
      * specialize (Hh1 eq_refl). lia.
      * simpl in Hne. specialize (Hh2 Hne). exact Hh2.
    + intros Hnil. apply app_eq_nil in Hnil. destruct Hnil as [Hn Hnil].
      destruct (key_eqb (call_key str_lower c) k && returned r) eqn:Eh; [discriminate|].
      rewrite (Hn2 Hnil). apply Hn1. reflexivity.
Qed.

Lemma aliases_on_match (now : datetime) (p : Entity) (e : EntityNode) :
  n_aliases (upsert_on_match now p e)
  = n_aliases e ++ new_aliases (ent_aliases p) (n_aliases e).
Proof.
  simpl. destruct (new_aliases (ent_aliases p) (n_aliases e)) as [|a l]; simpl.
  - rewrite app_nil_r. reflexivity.
  - reflexivity.
Qed.

Lemma in_new_aliases (given existing : list string) (a : string) :
  In a (new_aliases given existing) <-> In a given /\ ~ In a existing.
Proof.
  unfold new_aliases. rewrite filter_In, negb_true_iff. split.
  - intros [Hg Hn]. split; [exact Hg|]. intros Hin.
    assert (existsb (String.eqb a) existing = true).
    { apply existsb_exists. exists a. split; [exact Hin|apply String.eqb_refl]. }
    congruence.
  - intros [Hg Hn]. split; [exact Hg|].
    destruct (existsb (String.eqb a) existing) eqn:E; [|reflexivity].
    apply existsb_exists in E. destruct E as [b [Hb Eb]].
    apply String.eqb_eq in Eb. subst b. contradiction.
Qed.

(** What one call does to the ids of the store: it adds at most the id of
    the call. *)
Lemma upsert_entity_ids (c : UpsertCall) (db : Neo4j) (i : string) :
  In i (map n_id (entities (graph (snd (upsert_entity str_lower (call_uuid4 c) (call_now c)
                                          (call_entity c) db))))) ->
  In i (map n_id (entities (graph db))) \/ i = call_id c.
Proof.
  destruct (ent_type (call_entity c)) as [t|t] eqn:Et.
  { rewrite (upsert_entity_text _ _ _ _ t Et). cbn [snd]. auto. }
  rewrite (upsert_entity_eq _ _ _ _ t Et).
  destruct (exec_upsert_entity_outcome (call_now c) (capitalize (EntityType_value t))
              (upsert_params str_lower (call_uuid4 c) (call_entity c)) (graph db))
    as [_ _ | _ _ | _]; cbn [snd graph set_entities entities].
  - auto.
  - rewrite map_app, in_app_iff. cbn [map In]. intros [H|[H|[]]]; [left; exact H|].
    right. symmetry. exact H.
  - rewrite map_map. intros H. left. erewrite map_ext; [exact H|].
    intros n. unfold on_match_all. destruct (with_key _ n); reflexivity.
Qed.

(** A call that holds a member and brings an id that is free returns. *)
Lemma upsert_entity_free_id_returns (c : UpsertCall) (db : Neo4j) :
  holds_member (call_entity c) = true ->
  ~ In (call_id c) (map n_id (entities (graph db))) ->
  returned (fst (upsert_entity str_lower (call_uuid4 c) (call_now c) (call_entity c) db))
  = true.
Proof.
  unfold holds_member. intros Hm Hfree.
  destruct (ent_type (call_entity c)) as [t|t] eqn:Et; [discriminate|].
  rewrite (upsert_entity_eq _ _ _ _ t Et).
  destruct (exec_upsert_entity_outcome (call_now c) (capitalize (EntityType_value t))
              (upsert_params str_lower (call_uuid4 c) (call_entity c)) (graph db))
    as [_ Hclash | _ _ | _]; try reflexivity.
  exfalso. apply Hfree. apply existsb_exists in Hclash. destruct Hclash as [n [Hn Hid]].
  apply String.eqb_eq in Hid. apply in_map_iff. exists n. split; [|exact Hn].
  rewrite Hid. reflexivity.
Qed.

Lemma upsert_seq_all_applied (calls : list UpsertCall) (k : Key) :
  forall db,
    Forall (fun c => holds_member (call_entity c) = true) calls ->
    NoDup (map call_id calls) ->
    (forall c, In c calls -> ~ In (call_id c) (map n_id (entities (graph db)))) ->
    Forall (fun r => returned r = true) (fst (upsert_seq str_lower calls db))
    /\ applied_deltas str_lower k calls (fst (upsert_seq str_lower calls db))
       = deltas_for str_lower k calls.
Proof.
  induction calls as [|c calls IH]; intros db Hm Hnd Hfree.
  - split; [constructor|reflexivity].
  - inversion Hm as [|? ? Hmc Hmr]; subst. cbn [map] in Hnd.
    inversion Hnd as [|? ? Hnc Hndr]; subst.
    pose proof (upsert_entity_free_id_returns c db Hmc (Hfree c (or_introl eq_refl))) as Hr.
    pose proof (upsert_entity_ids c db) as Hids.
    cbn [upsert_seq].
    destruct (upsert_entity str_lower (call_uuid4 c) (call_now c) (call_entity c) db)
      as [r db1] eqn:E1. cbn [fst snd] in Hr, Hids.
    assert (Hfree1 : forall c', In c' calls ->
                                ~ In (call_id c') (map n_id (entities (graph db1)))).
    { intros c' Hc' Hin. destruct (Hids _ Hin) as [H|H].
      - exact (Hfree c' (or_intror Hc') H).
      - apply Hnc. rewrite <- H. apply in_map. exact Hc'. }
    destruct (IH db1 Hmr Hndr Hfree1) as [Hall Happ].
    destruct (upsert_seq str_lower calls db1) as [rs db2] eqn:E2. cbn [fst snd] in *.
    split; [constructor; assumption|].
    rewrite applied_deltas_cons, Happ, Hr, andb_true_r.
    unfold deltas_for. cbn [filter].
    destruct (key_eqb (call_key str_lower c) k); reflexivity.
Qed.

(** X1.  The three ways in which a call of [upsert_entity] ends.  It raises
    [AttributeError], before any query, exactly when the entity holds its
    type as a text, which is what validation leaves.  It raises the
    constraint error of the store exactly when the entity holds a member, no
    entity has the key of the call, and the id that the new node would get is
    taken.  In every other case it returns. *)
Lemma upsert_entity_raises_iff (c : UpsertCall) (db : Neo4j) :
  let out := upsert_entity str_lower (call_uuid4 c) (call_now c) (call_entity c) db in
  (fst out = Raised AttributeError <-> holds_member (call_entity c) = false)
  /\ (fst out = Raised ConstraintError
      <-> holds_member (call_entity c) = true
          /\ key_count (call_key str_lower c) (graph db) = 0%nat
          /\ In (call_id c) (map n_id (entities (graph db))))
  /\ (returned (fst out) = true
      <-> holds_member (call_entity c) = true
          /\ ~ (key_count (call_key str_lower c) (graph db) = 0%nat
                /\ In (call_id c) (map n_id (entities (graph db))))).
Proof.
  cbv zeta. unfold holds_member.
  destruct (ent_type (call_entity c)) as [t|t] eqn:Et.
  { rewrite (upsert_entity_text _ _ _ _ t Et). cbn [fst returned].
    split; [tauto|]. split; split; try discriminate; intros [H _]; discriminate. }
  rewrite (upsert_entity_eq _ _ _ _ t Et), (call_key_params c t Et). unfold key_count.
  set (label := capitalize (EntityType_value t)).
  set (p := upsert_params str_lower (call_uuid4 c) (call_entity c)).
  change (call_id c) with (ent_id p).
  destruct (exec_upsert_entity_outcome (call_now c) label p (graph db))
    as [Hnone Hclash | Hnone Hfresh | Hsome]; cbn [fst returned].
  - assert (Hin : In (ent_id p) (map n_id (entities (graph db)))).
    { apply existsb_exists in Hclash. destruct Hclash as [n [Hn Hid]].
      apply String.eqb_eq in Hid. rewrite <- Hid. apply in_map. exact Hn. }
    rewrite Hnone. cbn [List.length].
    split; [split; discriminate|]. split; [tauto|].
    split; [discriminate|]. intros [_ H]. exfalso. apply H. auto.
  - assert (Hout : ~ In (ent_id p) (map n_id (entities (graph db)))).
    { intros Hin. apply in_map_iff in Hin. destruct Hin as [n [Hid Hn]].
      assert (existsb (has_id (ent_id p)) (entities (graph db)) = true).
      { apply existsb_exists. exists n. split; [exact Hn|].
        apply String.eqb_eq. exact Hid. }
      congruence. }
    split; [split; discriminate|]. split.
    + split; [discriminate|]. intros (_ & _ & H). contradiction.
    + split; [|reflexivity]. intros _. split; [reflexivity|]. intros [_ H]. contradiction.
  - assert (Hz : List.length (filter
                   (with_key (label, ent_user_id p, ent_normalized_value p))
                   (entities (graph db))) <> 0%nat).
    { intros Hz. apply length_zero_iff_nil in Hz. exact (Hsome Hz). }
    split; [split; discriminate|]. split.
    + split; [discriminate|]. intros (_ & H & _). contradiction.
    + split; [|reflexivity]. intros _. split; [reflexivity|]. intros [H _]. contradiction.
Qed.

(** C1.  [upsert_entity] on validated entities: the constructor of
    [Entity] leaves the type as a text, [entity.type.value] raises
    [AttributeError], and the call ends before it sends its query.  Whatever
    the sequence of such calls and whatever the store holds, every call
    raises, the store receives nothing and keeps its graph: a key that had
    no entity still has none. *)
Theorem upsert_entity_validated_raises (calls : list UpsertCall) (db : Neo4j) (k : Key) :
  Forall (fun c => holds_member (call_entity c) = false) calls ->
  let out := upsert_seq str_lower calls db in
  fst out = map (fun _ => Raised AttributeError) calls
  /\ snd out = db
  /\ key_count k (graph (snd out)) = key_count k (graph db)
  /\ applied_deltas str_lower k calls (fst out) = [].
Proof.
  intros Hv. cbv zeta.
  assert (G : upsert_seq str_lower calls db
              = (map (fun _ => Raised AttributeError) calls, db)).
  { induction calls as [|c calls IH]; [reflexivity|].
    inversion Hv as [|? ? Hc Hr]; subst. cbn [upsert_seq map].
    unfold holds_member in Hc.
    destruct (ent_type (call_entity c)) as [t|t] eqn:Et; [|discriminate].
    rewrite (upsert_entity_text _ _ _ _ t Et), (IH Hr). reflexivity. }
  rewrite G. cbn [fst snd]. repeat split.
  clear G Hv. induction calls as [|c calls IH]; [reflexivity|].
  cbn [map]. rewrite applied_deltas_cons. cbn [returned].
  rewrite andb_false_r. exact IH.
Qed.

(** X31.  Calls of [upsert_entity] that reach the store.  Each call that
    holds a member sends exactly one query, the match-or-create [MERGE] (a
    call that holds a text sends none), and the store keeps at most one
    entity per key (type label, owner, normalized value).  For a key with no
    entity yet, after any sequence of calls, for this key or others: if no
    call for the key was applied there is still no entity for it, and
    otherwise there is exactly one, whose [mention_count] is the sum of the
    deltas of the calls for the key that were applied.  When all calls hold
    a member and the ids they bring are distinct and free, every call is
    applied, so that the count is the sum of the deltas of all calls for the
    key. *)
Theorem upsert_seq_one_entity_per_key
  (calls : list UpsertCall) (db : Neo4j) (k : Key) :
  key_unique (graph db) ->
  key_count k (graph db) = 0%nat ->
  let out := upsert_seq str_lower calls db in
  key_unique (graph (snd out))
  /\ journal (snd out) = journal db ++ flat_map (call_queries str_lower) calls
  /\ match applied_deltas str_lower k calls (fst out) with
     | [] => key_count k (graph (snd out)) = 0%nat
     | deltas =>
         exists e,
           filter (with_key k) (entities (graph (snd out))) = [e]
           /\ n_mention_count e = sum_Z deltas
     end
  /\ (Forall (fun c => holds_member (call_entity c) = true) calls ->
      NoDup (map call_id calls) ->
      (forall c, In c calls -> ~ In (call_id c) (map n_id (entities (graph db)))) ->
      Forall (fun r => returned r = true) (fst out)
      /\ applied_deltas str_lower k calls (fst out) = deltas_for str_lower k calls).
Proof.
  intros Hu H0 out.
  destruct (upsert_seq_spec calls k db Hu) as (Hu' & Hj & Ht & _ & Hne & Hnil).
  fold out in Hu', Hj, Ht, Hne, Hnil.
  split; [exact Hu'|]. split; [exact Hj|].
  split; [|intros Hm Hnd Hfree; exact (upsert_seq_all_applied calls k db Hm Hnd Hfree)].
  destruct (applied_deltas str_lower k calls (fst out)) as [|d ds] eqn:Ea.
  - rewrite (Hnil eq_refl). exact H0.
  - assert (Hone : (1 <= key_count k (graph (snd out)))%nat) by (apply Hne; discriminate).
    destruct (filter_singleton (with_key k) (entities (graph (snd out)))) as [e He].
    + unfold key_count in Hone. destruct (filter _ _); simpl in Hone; [lia|discriminate].
    + apply Hu'.
    + exists e. split; [exact He|].
      unfold key_total in Ht. rewrite He in Ht. simpl in Ht.
      unfold key_count in H0.
      destruct (filter (with_key k) (entities (graph db))); [|discriminate].
      unfold sum_Z in *. simpl in *. lia.
Qed.

(** C5, as the code has it.  When a call of [upsert_entity] reaches the
    store (its entity holds the type as a member) and matches the entity
    [e0] stored under the key, it returns that entity updated in place:
    [mention_count] grows by the delta, [last_seen] is the given time stamp
    (whether it is later than the stored one or not), the aliases are those
    of [e0] followed by the given ones that [e0] did not have, in the order
    given (so nothing changes when all are known), and the other fields are
    those of [e0]. *)
Theorem upsert_entity_on_match
  (uuid4 : string) (now : datetime) (entity : Entity) (db : Neo4j) (t : EntityType)
  (e0 : EntityNode) :
  ent_type entity = type_member t ->
  filter (with_key (capitalize (EntityType_value t),
                    ent_user_id entity,
                    str_lower (ent_normalized_value entity)))
    (entities (graph db)) = [e0] ->
  exists e',
    fst (upsert_entity str_lower uuid4 now entity db) = Returned (Some e')
    /\ filter (with_key (capitalize (EntityType_value t),
                         ent_user_id entity,
                         str_lower (ent_normalized_value entity)))
         (entities (graph (snd (upsert_entity str_lower uuid4 now entity db)))) = [e']
    /\ n_mention_count e' = n_mention_count e0 + ent_mention_count entity
    /\ n_last_seen e' = ent_last_seen entity
    /\ n_aliases e'
       = n_aliases e0
         ++ filter (fun a => negb (existsb (String.eqb a) (n_aliases e0))) (ent_aliases entity)
    /\ (forall a, In a (n_aliases e') <-> In a (n_aliases e0) \/ In a (ent_aliases entity))
    /\ (incl (ent_aliases entity) (n_aliases e0) -> n_aliases e' = n_aliases e0)
    /\ n_id e' = n_id e0
    /\ n_display_value e' = n_display_value e0
    /\ n_description e' = n_description e0
    /\ n_confidence e' = n_confidence e0
    /\ n_first_seen e' = n_first_seen e0
    /\ n_sentiment_avg e' = n_sentiment_avg e0
    /\ n_is_user_created e' = n_is_user_created e0
    /\ n_created_at e' = n_created_at e0.
Proof.
  intros Et H0.
  set (label := capitalize (EntityType_value t)) in *.
  set (p := upsert_params str_lower uuid4 entity).
  change (ent_user_id entity) with (ent_user_id p) in *.
  change (str_lower (ent_normalized_value entity)) with (ent_normalized_value p) in *.
  set (k := (label, ent_user_id p, ent_normalized_value p)) in *.
  assert (Hk0 : with_key k e0 = true).
  { assert (Hin : In e0 (filter (with_key k) (entities (graph db))))
      by (rewrite H0; left; reflexivity).
    apply filter_In in Hin. apply Hin. }
  exists (upsert_on_match now p e0).
  rewrite (upsert_entity_eq _ _ _ _ t Et). fold label p.
  destruct (exec_upsert_entity_outcome now label p (graph db))
    as [Hnone _ | Hnone _ | _]; try (fold k in Hnone; congruence).
  cbn [fst snd graph]. unfold set_entities. cbn [entities]. fold k.
  rewrite (filter_map_commute (with_key k) (on_match_all now k p))
    by (intros x; apply with_key_on_match_all).
  rewrite H0. cbn [map hd_error]. unfold on_match_all. rewrite Hk0.
  split; [reflexivity|]. split; [reflexivity|].
  split; [reflexivity|]. split; [reflexivity|].
  split; [apply aliases_on_match|].
  split.
  { intros a. rewrite aliases_on_match, in_app_iff, in_new_aliases.
    change (ent_aliases p) with (ent_aliases entity).
    split.
    - intros [H|[H _]]; [left|right]; exact H.
    - intros [H|H]; [left; exact H|].
      destruct (in_dec string_dec a (n_aliases e0)) as [Hin|Hout];
        [left; exact Hin|right; split; assumption]. }
  split.
  { intros Hincl. rewrite aliases_on_match.
    change (ent_aliases p) with (ent_aliases entity).
    assert (Hn : new_aliases (ent_aliases entity) (n_aliases e0) = []).
    { apply filter_nil_iff. intros a Ha. apply negb_false_iff.
      apply existsb_exists. exists a. split; [apply Hincl; exact Ha|].
      apply String.eqb_refl. }
    rewrite Hn. apply app_nil_r. }
  repeat split; reflexivity.
Qed.

End UpsertFacts.

Lemma upsert_entity_validated_raises_witness :
  let out := upsert_seq lower_ascii Sample.calls_dana_validated
               (Sample.db_of empty_graph false) in
  fst out = map (fun _ => Raised AttributeError) Sample.calls_dana_validated
  /\ snd out = Sample.db_of empty_graph false
  /\ key_count ("Person", "u1", "dana") (graph (snd out))
     = key_count ("Person", "u1", "dana") empty_graph
  /\ applied_deltas lower_ascii ("Person", "u1", "dana") Sample.calls_dana_validated (fst out)
     = [].
Proof.
  apply (upsert_entity_validated_raises lower_ascii Sample.calls_dana_validated
           (Sample.db_of empty_graph false) ("Person", "u1", "dana")).
  repeat constructor.
Defined.

(** Three validated sightings of "dana": three exceptions, no query, no
    entity. *)
Example upsert_seq_dana_validated :
  upsert_seq lower_ascii Sample.calls_dana_validated (Sample.db_of empty_graph false)
  = ([Raised AttributeError; Raised AttributeError; Raised AttributeError],
     Sample.db_of empty_graph false)
  /\ key_count ("Person", "u1", "dana") empty_graph = 0%nat.
Proof. vm_compute. split; reflexivity. Qed.

Lemma upsert_seq_one_entity_per_key_witness :
  let out := upsert_seq lower_ascii Sample.calls_dana (Sample.db_of empty_graph false) in
  key_unique (graph (snd out))
  /\ journal (snd out)
     = journal (Sample.db_of empty_graph false)
       ++ flat_map (call_queries lower_ascii) Sample.calls_dana
  /\ match applied_deltas lower_ascii ("Person", "u1", "dana") Sample.calls_dana (fst out) with
     | [] => key_count ("Person", "u1", "dana") (graph (snd out)) = 0%nat
     | deltas =>
         exists e,
           filter (with_key ("Person", "u1", "dana")) (entities (graph (snd out))) = [e]
           /\ n_mention_count e = sum_Z deltas
     end
  /\ (Forall (fun c => holds_member (call_entity c) = true) Sample.calls_dana ->
      NoDup (map call_id Sample.calls_dana) ->
      (forall c, In c Sample.calls_dana ->
                 ~ In (call_id c) (map n_id (entities (graph (Sample.db_of empty_graph false))))) ->
      Forall (fun r => returned r = true) (fst out)
      /\ applied_deltas lower_ascii ("Person", "u1", "dana") Sample.calls_dana (fst out)
         = deltas_for lower_ascii ("Person", "u1", "dana") Sample.calls_dana).
Proof.
  apply (upsert_seq_one_entity_per_key lower_ascii Sample.calls_dana
           (Sample.db_of empty_graph false) ("Person", "u1", "dana")).
  - intros k. unfold key_count. simpl. lia.
  - reflexivity.
Defined.

(** The three sightings of "dana" end in one node that counts 1 + 2 + 4,
    and all four calls of the sample are applied. *)
Example upsert_seq_dana :
  map (fun e => (n_id e, n_mention_count e, n_aliases e))
    (filter (with_key ("Person", "u1", "dana"))
       (entities (graph (snd (upsert_seq lower_ascii Sample.calls_dana
                                (Sample.db_of empty_graph false))))))
  = [("uuid-1", 7, ["D."; "Dana K"])]
  /\ map returned (fst (upsert_seq lower_ascii Sample.calls_dana
                          (Sample.db_of empty_graph false)))
     = [true; true; true; true].
Proof. vm_compute. split; reflexivity. Qed.

Lemma upsert_entity_on_match_witness :
  exists e',
    fst (upsert_entity lower_ascii "uuid-5" 300 Sample.dana_seen_earlier
           (Sample.db_of Sample.g_dana false)) = Returned (Some e')
    /\ filter (with_key ("Person", "u1", "dana"))
         (entities (graph (snd (upsert_entity lower_ascii "uuid-5" 300
                                  Sample.dana_seen_earlier
                                  (Sample.db_of Sample.g_dana false))))) = [e']
    /\ n_mention_count e' = 5 + 2
    /\ n_last_seen e' = 100
    /\ n_aliases e' = ["dana k"; "D."]
    /\ (forall a, In a (n_aliases e') <-> In a ["dana k"] \/ In a ["D."; "dana k"])
    /\ (incl ["D."; "dana k"] ["dana k"] -> n_aliases e' = ["dana k"])
    /\ n_id e' = "p1"
    /\ n_display_value e' = "dana"
    /\ n_description e' = None
    /\ n_confidence e' = f_0_8
    /\ n_first_seen e' = 200
    /\ n_sentiment_avg e' = None
    /\ n_is_user_created e' = false
    /\ n_created_at e' = 200.
Proof.
  apply (upsert_entity_on_match lower_ascii "uuid-5" 300 Sample.dana_seen_earlier
           (Sample.db_of Sample.g_dana false) PERSON
           (Sample.node "Person" "p1" "dana" ["dana k"] 5 200)).
  - reflexivity.
  - reflexivity.
Defined.

(** The entity of the call holds the member [PERSON], so the call reaches
    the store.  The stored [last_seen] is 200, the call brings 100: the
    entity ends with 100, which is not the later of the two. *)
Lemma upsert_entity_last_seen_not_max :
  exists e0 e',
    ent_type Sample.dana_seen_earlier = type_member PERSON
    /\ filter (with_key ("Person", "u1", "dana")) (entities Sample.g_dana) = [e0]
    /\ fst (upsert_entity lower_ascii "uuid-5" 300 Sample.dana_seen_earlier
              (Sample.db_of Sample.g_dana false)) = Returned (Some e')
    /\ n_last_seen e0 = 200
    /\ ent_last_seen Sample.dana_seen_earlier = 100
    /\ n_last_seen e' = 100
    /\ n_last_seen e' <> Z.max (n_last_seen e0) (ent_last_seen Sample.dana_seen_earlier).
Proof.
  eexists. eexists.
  split; [reflexivity|].
  split; [vm_compute; reflexivity|].
  split; [vm_compute; reflexivity|].
  repeat split; try reflexivity.
  vm_compute. discriminate.
Qed.

(** ** add_mention *)

Lemma filter_unique_by {A} (f : A -> string) (l : list A) (x : A) :
  NoDup (map f l) -> In x l ->
  filter (fun y => String.eqb (f y) (f x)) l = [x].
Proof.
  induction l as [|a l IH]; simpl; intros Hnd Hin; [contradiction|].
  inversion Hnd as [|? ? Hnotin Hnd']; subst.
  destruct Hin as [->|Hin].
  - rewrite String.eqb_refl. f_equal.
    apply filter_nil_iff. intros y Hy. apply String.eqb_neq. intros E.
    apply Hnotin. rewrite <- E. apply in_map. exact Hy.
  - destruct (String.eqb (f a) (f x)) eqn:E.
    + apply String.eqb_eq in E. exfalso. apply Hnotin. rewrite E. apply in_map. exact Hin.
    + apply IH; assumption.
Qed.

Lemma filter_has_id_unique (es : list EntityNode) (e : EntityNode) :
  NoDup (map n_id es) -> In e es -> filter (has_id (n_id e)) es = [e].
Proof. intros Hnd Hin. exact (filter_unique_by n_id es e Hnd Hin). Qed.

Lemma filter_meeting_unique (ms : list MeetingNode) (m : MeetingNode) :
  NoDup (map m_id ms) -> In m ms -> filter (meeting_has_id (m_id m)) ms = [m].
Proof. intros Hnd Hin. exact (filter_unique_by m_id ms m Hnd Hin). Qed.

Lemma add_mention_eq (now : datetime) (p : EntityMention) (db : Neo4j) :
  add_mention now p db =
  (Returned (is_not_None (hd_error (fst (exec_add_mention now p (graph db))))),
   mkNeo4j (snd (exec_add_mention now p (graph db))) (apoc db)
     (journal db ++ [Q_add_mention p])).
Proof.
  unfold add_mention, bind. rewrite run_single_query_eq. simpl.
  destruct (exec_add_mention now p (graph db)) as [rows g']. reflexivity.
Qed.

Lemma mention_between_true (a b : string) (r : MentionEdge) :
  mention_between a b r = true <-> r_entity r = a /\ r_meeting r = b.
Proof. unfold mention_between. rewrite andb_true_iff, !String.eqb_eq. tauto. Qed.

(** What the [MERGE] clause of [add_mention] does to the relationships. *)
Lemma add_mention_step_mentions now p out g row :
  mentions (snd (add_mention_step now p (out, g) row)) =
  match filter (mention_between (n_id (fst row)) (m_id (snd row))) (mentions g) with
  | [] => mentions g ++ [mention_on_create now p (n_id (fst row)) (m_id (snd row))]
  | _ :: _ =>
      map (fun r => if mention_between (n_id (fst row)) (m_id (snd row)) r
                    then mention_on_match now p r else r) (mentions g)
  end.
Proof.
  unfold add_mention_step.
  destruct (filter _ (mentions g)); reflexivity.
Qed.

Lemma add_mention_step_keeps_unique now p acc row :
  mention_unique (snd acc) -> mention_unique (snd (add_mention_step now p acc row)).
Proof.
  destruct acc as [out g]. intros Hu a b. cbn [snd] in Hu.
  rewrite add_mention_step_mentions.
  set (eid := n_id (fst row)). set (mid := m_id (snd row)).
  destruct (filter (mention_between eid mid) (mentions g)) as [|r0 l] eqn:F.
  - rewrite filter_app, length_app. simpl.
    destruct (mention_between a b (mention_on_create now p eid mid)) eqn:E.
    + apply mention_between_true in E. simpl in E. destruct E as [<- <-].
      rewrite F. simpl. lia.
    + simpl. specialize (Hu a b). lia.
  - rewrite filter_map_commute.
    + rewrite length_map. apply Hu.
    + intros x. destruct (mention_between eid mid x); reflexivity.
Qed.

Lemma add_mention_step_nodes now p acc row :
  entities (snd (add_mention_step now p acc row)) = entities (snd acc)
  /\ meetings (snd (add_mention_step now p acc row)) = meetings (snd acc)
  /\ rels (snd (add_mention_step now p acc row)) = rels (snd acc).
Proof.
  destruct acc as [out g]. unfold add_mention_step.
  destruct (filter _ (mentions g)); simpl; auto.
Qed.

Lemma fold_add_mention_keeps_unique now p rows :
  forall acc, mention_unique (snd acc) ->
              mention_unique (snd (fold_left (add_mention_step now p) rows acc)).
Proof.
  induction rows as [|row rows IH]; intros acc Hu; simpl; [exact Hu|].
  apply IH. apply add_mention_step_keeps_unique. exact Hu.
Qed.

(** Every call of [add_mention] keeps at most one relationship per entity
    and meeting. *)
Lemma add_mention_keeps_mention_unique now p db :
  mention_unique (graph db) -> mention_unique (graph (snd (add_mention now p db))).
Proof.
  intros Hu. rewrite add_mention_eq. simpl. unfold exec_add_mention.
  apply (fold_add_mention_keeps_unique now p _ ([], graph db)). exact Hu.
Qed.

(** With unique ids and both end points present, one row reaches [MERGE]. *)
Lemma exec_add_mention_one_row now p g e m :
  ids_unique g ->
  In e (entities g) -> n_id e = em_entity_id p ->
  In m (meetings g) -> m_id m = em_meeting_id p ->
  exec_add_mention now p g = add_mention_step now p ([], g) (e, m).
Proof.
  intros [He Hm] Hine Eid Hinm Emid. unfold exec_add_mention.
  rewrite <- Eid, <- Emid.
  rewrite (filter_has_id_unique _ _ He Hine), (filter_meeting_unique _ _ Hm Hinm).
  reflexivity.
Qed.

Lemma add_mention_step_ids_unique now p acc row :
  ids_unique (snd acc) -> ids_unique (snd (add_mention_step now p acc row)).
Proof.
  unfold ids_unique. destruct (add_mention_step_nodes now p acc row) as (-> & -> & _).
  auto.
Qed.

(** C6.  [add_mention] keeps the store with at most one [MENTIONED_IN]
    relationship per entity and meeting.  When the entity and the meeting
    exist and are not linked yet, two calls for the pair both succeed and
    leave exactly one relationship, whose [mention_count] is the sum of the
    two deltas (2 for deltas of 1) and whose context, time stamps, speaker
    and sentiment are those of the first call. *)
Theorem add_mention_accumulates
  (now1 now2 : datetime) (p1 p2 : EntityMention) (db : Neo4j)
  (e : EntityNode) (m : MeetingNode) :
  ids_unique (graph db) ->
  mention_unique (graph db) ->
  In e (entities (graph db)) -> n_id e = em_entity_id p1 ->
  In m (meetings (graph db)) -> m_id m = em_meeting_id p1 ->
  em_entity_id p2 = em_entity_id p1 ->
  em_meeting_id p2 = em_meeting_id p1 ->
  filter (mention_between (em_entity_id p1) (em_meeting_id p1)) (mentions (graph db)) = [] ->
  let out1 := add_mention now1 p1 db in
  let out2 := add_mention now2 p2 (snd out1) in
  fst out1 = Returned true
  /\ fst out2 = Returned true
  /\ mention_unique (graph (snd out1))
  /\ mention_unique (graph (snd out2))
  /\ entities (graph (snd out2)) = entities (graph db)
  /\ meetings (graph (snd out2)) = meetings (graph db)
  /\ exists r,
       filter (mention_between (em_entity_id p1) (em_meeting_id p1))
         (mentions (graph (snd out2))) = [r]
       /\ r_mention_count r = Some (em_mention_count p1 + em_mention_count p2)
       /\ r_context r = Some (em_context p1)
       /\ r_timestamp_start r = em_timestamp_start p1
       /\ r_timestamp_end r = em_timestamp_end p1
       /\ r_speaker r = em_speaker p1
       /\ r_sentiment r = em_sentiment p1
       /\ r_created_at r = Some now1.
Proof.
  intros Hids Hu Hine Eid Hinm Emid E2 M2 Hnone out1 out2.
  assert (Hu1 : mention_unique (graph (snd out1)))
    by (apply add_mention_keeps_mention_unique; exact Hu).
  assert (Hu2 : mention_unique (graph (snd out2)))
    by (apply add_mention_keeps_mention_unique; exact Hu1).
  subst out1 out2. rewrite !add_mention_eq in *. cbn [fst snd graph] in *.
  rewrite (exec_add_mention_one_row now1 p1 (graph db) e m Hids Hine Eid Hinm Emid) in *.
  set (eid := em_entity_id p1) in *. set (mid := em_meeting_id p1) in *.
  set (new := mention_on_create now1 p1 eid mid).
  assert (S1 : add_mention_step now1 p1 ([], graph db) (e, m)
               = ([RMention new], set_mentions (graph db) (mentions (graph db) ++ [new]))).
  { unfold add_mention_step. cbn [fst snd]. rewrite Eid, Emid. fold eid mid.
    rewrite Hnone. reflexivity. }
  rewrite S1 in *. cbn [fst snd] in *.
  set (g1 := set_mentions (graph db) (mentions (graph db) ++ [new])) in *.
  assert (Hids1 : ids_unique g1) by exact Hids.
  rewrite (exec_add_mention_one_row now2 p2 g1 e m Hids1 Hine (eq_trans Eid (eq_sym E2))
             Hinm (eq_trans Emid (eq_sym M2))) in *.
  assert (Hnew : mention_between eid mid new = true).
  { apply mention_between_true. split; reflexivity. }
  assert (F1 : filter (mention_between eid mid) (mentions g1) = [new]).
  { unfold g1. cbn [mentions set_mentions]. rewrite filter_app, Hnone.
    cbn [filter app]. rewrite Hnew. reflexivity. }
  set (upd := fun r => if mention_between eid mid r then mention_on_match now2 p2 r else r).
  assert (S2 : add_mention_step now2 p2 ([], g1) (e, m)
               = ([RMention (mention_on_match now2 p2 new)],
                  set_mentions g1 (map upd (mentions g1)))).
  { unfold add_mention_step. cbn [fst snd]. rewrite Eid, Emid. fold eid mid.
    rewrite F1. fold upd.
    rewrite (filter_map_commute (mention_between eid mid) upd).
    - rewrite F1. cbn [map app]. unfold upd at 1. rewrite Hnew. reflexivity.
    - intros x. unfold upd. destruct (mention_between eid mid x) eqn:Ex; [|exact Ex].
      exact Ex. }
  rewrite S2 in *. cbn [fst snd hd_error is_not_None] in *.
  split; [reflexivity|]. split; [reflexivity|].
  split; [exact Hu1|]. split; [exact Hu2|].
  split; [reflexivity|]. split; [reflexivity|].
  exists (mention_on_match now2 p2 new).
  split.
  - cbn [mentions set_mentions].
    rewrite (filter_map_commute (mention_between eid mid) upd).
    + rewrite F1. cbn [map]. unfold upd. rewrite Hnew. reflexivity.
    + intros x. unfold upd. destruct (mention_between eid mid x) eqn:Ex; exact Ex.
  - repeat split; reflexivity.
Qed.

Lemma add_mention_accumulates_witness :
  let p1 := Sample.mention "k1" "mt1" "first remark" 1 in
  let p2 := Sample.mention "k1" "mt1" "second remark" 1 in
  let db := Sample.db_of Sample.g_two false in
  let out1 := add_mention 50 p1 db in
  let out2 := add_mention 51 p2 (snd out1) in
  fst out1 = Returned true
  /\ fst out2 = Returned true
  /\ mention_unique (graph (snd out1))
  /\ mention_unique (graph (snd out2))
  /\ entities (graph (snd out2)) = entities (graph db)
  /\ meetings (graph (snd out2)) = meetings (graph db)
  /\ exists r,
       filter (mention_between "k1" "mt1") (mentions (graph (snd out2))) = [r]
       /\ r_mention_count r = Some (1 + 1)
       /\ r_context r = Some "first remark"
       /\ r_timestamp_start r = None
       /\ r_timestamp_end r = None
       /\ r_speaker r = Some "Speaker 1"
       /\ r_sentiment r = None
       /\ r_created_at r = Some 50.
Proof.
  apply (add_mention_accumulates 50 51
           (Sample.mention "k1" "mt1" "first remark" 1)
           (Sample.mention "k1" "mt1" "second remark" 1)
           (Sample.db_of Sample.g_two false)
           (Sample.node "Organization" "k1" "acme" ["acme corp"] 5 100)
           (Sample.meeting "mt1")).
  - split; simpl; repeat constructor; simpl; intuition discriminate.
  - intros a b. simpl. lia.
  - simpl. left. reflexivity.
  - reflexivity.
  - simpl. left. reflexivity.
  - reflexivity.
  - reflexivity.
  - reflexivity.
  - reflexivity.
Defined.

(** Two mentions of the same entity in the same meeting, one relationship. *)
Example add_mention_twice :
  map (fun r => (r_entity r, r_meeting r, r_mention_count r, r_context r))
    (mentions (graph (snd (add_mention 51 (Sample.mention "k1" "mt1" "second remark" 1)
                             (snd (add_mention 50 (Sample.mention "k1" "mt1" "first remark" 1)
                                     (Sample.db_of Sample.g_two false)))))))
  = [("k1", "mt1", Some 2, Some "first remark")].
Proof. vm_compute. reflexivity. Qed.

(** ** create_relationship *)

Lemma create_relationship_rows (g : Graph) (f t : EntityNode) :
  ids_unique g -> In f (entities g) -> In t (entities g) ->
  list_prod (filter (has_id (n_id f)) (entities g)) (filter (has_id (n_id t)) (entities g))
  = [(f, t)].
Proof.
  intros [He _] Hf Ht.
  rewrite (filter_has_id_unique _ _ He Hf), (filter_has_id_unique _ _ He Ht). reflexivity.
Qed.

(** With both end points present, a call appends one relationship and
    reports success, whatever the type and whatever is already there. *)
Lemma create_relationship_appends
  (now : datetime) (rel : EntityRelationship) (db : Neo4j) (f t : EntityNode) :
  ids_unique (graph db) ->
  In f (entities (graph db)) -> n_id f = er_from_entity_id rel ->
  In t (entities (graph db)) -> n_id t = er_to_entity_id rel ->
  fst (create_relationship now rel db) = Returned true
  /\ graph (snd (create_relationship now rel db))
     = set_rels (graph db)
         (rels (graph db)
          ++ [mkRelEdge (er_from_entity_id rel) (er_to_entity_id rel)
                (RelationshipType_value (er_relationship_type rel))
                (created_properties now (apoc db) rel)])
  /\ apoc (snd (create_relationship now rel db)) = apoc db.
Proof.
  intros Hids Hf Ef Ht Et.
  pose proof (create_relationship_rows (graph db) f t Hids Hf Ht) as Hrows.
  rewrite Ef, Et in Hrows.
  unfold create_relationship, try_except, bind.
  rewrite run_single_query_eq. cbn [exec].
  unfold exec_create_relationship_apoc, created_properties.
  destruct (apoc db) eqn:Ea.
  - rewrite Hrows. cbn. rewrite Ef, Et. repeat split; reflexivity.
  - rewrite run_single_query_eq. cbn [exec graph apoc].
    unfold exec_create_relationship_fallback. rewrite Hrows. cbn.
    rewrite Ef, Et. repeat split; reflexivity.
Qed.

(** C4, as the code has it.  [create_relationship] always creates: when both
    end points exist, every call succeeds and appends one relationship with
    the properties of that call, and leaves the relationships already there
    as they are.  Two calls for the same (from, to, type) therefore leave two
    more relationships of that type between the two entities than before. *)
Theorem create_relationship_adds_an_edge
  (now1 now2 : datetime) (rel1 rel2 : EntityRelationship) (db : Neo4j) (f t : EntityNode) :
  ids_unique (graph db) ->
  In f (entities (graph db)) -> n_id f = er_from_entity_id rel1 ->
  In t (entities (graph db)) -> n_id t = er_to_entity_id rel1 ->
  er_from_entity_id rel2 = er_from_entity_id rel1 ->
  er_to_entity_id rel2 = er_to_entity_id rel1 ->
  er_relationship_type rel2 = er_relationship_type rel1 ->
  let same := rel_between (er_from_entity_id rel1) (er_to_entity_id rel1)
                (RelationshipType_value (er_relationship_type rel1)) in
  let out1 := create_relationship now1 rel1 db in
  let out2 := create_relationship now2 rel2 (snd out1) in
  fst out1 = Returned true
  /\ fst out2 = Returned true
  /\ (exists r1 r2,
        rels (graph (snd out2)) = rels (graph db) ++ [r1; r2]
        /\ same r1 = true /\ same r2 = true
        /\ rel_props r1 = created_properties now1 (apoc db) rel1
        /\ rel_props r2 = created_properties now2 (apoc db) rel2)
  /\ List.length (filter same (rels (graph (snd out1))))
     = S (List.length (filter same (rels (graph db))))
  /\ List.length (filter same (rels (graph (snd out2))))
     = S (S (List.length (filter same (rels (graph db))))).
Proof.
  intros Hids Hf Ef Ht Et E2f E2t E2ty same out1 out2.
  destruct (create_relationship_appends now1 rel1 db f t Hids Hf Ef Ht Et)
    as (R1 & G1 & A1).
  fold out1 in R1, G1, A1.
  assert (Hids1 : ids_unique (graph (snd out1))) by (rewrite G1; exact Hids).
  assert (Hf1 : In f (entities (graph (snd out1)))) by (rewrite G1; exact Hf).
  assert (Ht1 : In t (entities (graph (snd out1)))) by (rewrite G1; exact Ht).
  destruct (create_relationship_appends now2 rel2 (snd out1) f t Hids1 Hf1
              (eq_trans Ef (eq_sym E2f)) Ht1 (eq_trans Et (eq_sym E2t)))
    as (R2 & G2 & A2).
  fold out2 in R2, G2, A2.
  rewrite E2f, E2t, E2ty, A1 in G2.
  set (r1 := mkRelEdge (er_from_entity_id rel1) (er_to_entity_id rel1)
               (RelationshipType_value (er_relationship_type rel1))
               (created_properties now1 (apoc db) rel1)) in *.
  set (r2 := mkRelEdge (er_from_entity_id rel1) (er_to_entity_id rel1)
               (RelationshipType_value (er_relationship_type rel1))
               (created_properties now2 (apoc db) rel2)) in *.
  assert (S1 : same r1 = true).
  { unfold same, rel_between, r1. cbn. rewrite !String.eqb_refl. reflexivity. }
  assert (S2 : same r2 = true).
  { unfold same, rel_between, r2. cbn. rewrite !String.eqb_refl. reflexivity. }
  split; [exact R1|]. split; [exact R2|].
  split.
  { exists r1, r2. rewrite G2, G1. cbn [rels set_rels].
    rewrite <- app_assoc. repeat split; auto. }
  split.
  - rewrite G1. cbn [rels set_rels]. rewrite filter_app, length_app.
    cbn [filter]. rewrite S1. cbn [List.length]. lia.
  - rewrite G2, G1. cbn [rels set_rels]. rewrite !filter_app, !length_app.
    cbn [filter]. rewrite S1, S2. cbn [List.length]. lia.
Qed.

Lemma create_relationship_adds_an_edge_witness :
  let same := rel_between "p1" "o1" "WORKS_AT" in
  let out1 := create_relationship 70 Sample.works_at (Sample.db_of Sample.g_people true) in
  let out2 := create_relationship 71 Sample.works_at_again (snd out1) in
  fst out1 = Returned true
  /\ fst out2 = Returned true
  /\ (exists r1 r2,
        rels (graph (snd out2)) = rels Sample.g_people ++ [r1; r2]
        /\ same r1 = true /\ same r2 = true
        /\ rel_props r1 = created_properties 70 true Sample.works_at
        /\ rel_props r2 = created_properties 71 true Sample.works_at_again)
  /\ List.length (filter same (rels (graph (snd out1))))
     = S (List.length (filter same (rels Sample.g_people)))
  /\ List.length (filter same (rels (graph (snd out2))))
     = S (S (List.length (filter same (rels Sample.g_people)))).
Proof.
  apply (create_relationship_adds_an_edge 70 71 Sample.works_at Sample.works_at_again
           (Sample.db_of Sample.g_people true)
           (Sample.node "Person" "p1" "dana" [] 4 100)
           (Sample.node "Organization" "o1" "acme" [] 2 100)).
  - split; simpl; repeat constructor; simpl; intuition discriminate.
  - simpl. right. left. reflexivity.
  - reflexivity.
  - simpl. left. reflexivity.
  - reflexivity.
  - reflexivity.
  - reflexivity.
  - reflexivity.
Defined.

(** Creating the same (from, to, type) twice leaves two parallel
    relationships, and the first keeps the properties it was created with. *)
Lemma create_relationship_twice_two_edges :
  let out1 := create_relationship 70 Sample.works_at (Sample.db_of Sample.g_people true) in
  let out2 := create_relationship 71 Sample.works_at_again (snd out1) in
  fst out1 = Returned true
  /\ fst out2 = Returned true
  /\ List.length (filter (rel_between "p1" "o1" "WORKS_AT") (rels (graph (snd out2))))
     = 2%nat
  /\ map (fun r => dict_get "source" (rel_props r))
       (filter (rel_between "p1" "o1" "WORKS_AT") (rels (graph (snd out2))))
     = [Some (VStr "ai"); Some (VStr "user")].
Proof. vm_compute. repeat split; reflexivity. Qed.

(** The same without APOC, through the fallback query. *)
Example create_relationship_twice_fallback :
  let out1 := create_relationship 70 Sample.works_at (Sample.db_of Sample.g_people false) in
  let out2 := create_relationship 71 Sample.works_at_again (snd out1) in
  List.length (filter (rel_between "p1" "o1" "WORKS_AT") (rels (graph (snd out2)))) = 2%nat
  /\ List.length (journal (snd out2)) = 4%nat.
Proof. vm_compute. split; reflexivity. Qed.

(** C3.  The class declares [VALID_RELATIONSHIPS], and [create_relationship]
    does not look at it.  At the example of the specification, a USES
    relationship from an Organization to a Person, which the table does not
    list: the call returns [True] and the relationship is in the store, with
    APOC and without. *)
Theorem create_relationship_ignores_compatibility_table :
  map n_label (filter (has_id "o1") (entities Sample.g_people)) = ["Organization"]
  /\ map n_label (filter (has_id "p1") (entities Sample.g_people)) = ["Person"]
  /\ in_compatibility_table "Organization" "Person" "USES" = false
  /\ forall apoc_installed : bool,
       fst (create_relationship 70 Sample.uses_org_person
              (Sample.db_of Sample.g_people apoc_installed)) = Returned true
       /\ List.length
            (filter (rel_between "o1" "p1" "USES")
               (rels (graph (snd (create_relationship 70 Sample.uses_org_person
                                    (Sample.db_of Sample.g_people apoc_installed))))))
          = 1%nat.
Proof.
  split; [reflexivity|]. split; [reflexivity|]. split; [reflexivity|].
  intros []; vm_compute; split; reflexivity.
Qed.

(** ** infer_collaborations *)

Lemma dict_get_set_same (k : string) (v : Value) (d : Dict) :
  dict_get k (dict_set k v d) = Some v.
Proof.
  induction d as [|[k' v'] d IH]; simpl.
  - rewrite String.eqb_refl. reflexivity.
  - destruct (String.eqb k' k) eqn:E; simpl; rewrite E; [reflexivity|exact IH].
Qed.

Lemma dict_get_set_other (k k' : string) (v : Value) (d : Dict) :
  k' <> k -> dict_get k (dict_set k' v d) = dict_get k d.
Proof.
  intros Hne. induction d as [|[k0 v0] d IH]; simpl.
  - apply String.eqb_neq in Hne. rewrite Hne. reflexivity.
  - destruct (String.eqb k0 k') eqn:E; simpl.
    + apply String.eqb_eq in E. subst k0.
      apply String.eqb_neq in Hne. rewrite Hne. reflexivity.
    + rewrite IH. reflexivity.
Qed.

Lemma strength_on_match now c r : strength_of (collab_on_match now c r) = Some (VInt c).
Proof.
  unfold strength_of, collab_on_match. cbn [rel_props].
  rewrite dict_get_set_other by discriminate. apply dict_get_set_same.
Qed.

Lemma source_on_match now c r : source_of (collab_on_match now c r) = source_of r.
Proof.
  unfold source_of, collab_on_match. cbn [rel_props].
  rewrite !dict_get_set_other by discriminate. reflexivity.
Qed.

Lemma collab_between_true a b r :
  collab_between a b r = true
  <-> rel_from r = a /\ rel_to r = b /\ rel_type r = "COLLABORATES_WITH".
Proof.
  unfold collab_between, rel_between. rewrite !andb_true_iff, !String.eqb_eq. tauto.
Qed.

Lemma collab_between_update x y now a b c r :
  collab_between x y (collab_update now a b c r) = collab_between x y r.
Proof. unfold collab_update. destruct (collab_between a b r); reflexivity. Qed.

Lemma collab_between_other a b x y r :
  collab_between a b r = true -> (x, y) <> (a, b) -> collab_between x y r = false.
Proof.
  intros H Hne. destruct (collab_between x y r) eqn:E; [|reflexivity].
  apply collab_between_true in H. apply collab_between_true in E.
  destruct H as (<- & <- & _). destruct E as (<- & <- & _). congruence.
Qed.

Lemma collab_step_rels now n g a b c :
  rels (snd (collab_step now (n, g) (a, b, c))) =
  match filter (collab_between a b) (rels g) with
  | [] => rels g ++ [collab_on_create now a b c]
  | _ :: _ => map (collab_update now a b c) (rels g)
  end.
Proof.
  unfold collab_step. destruct (filter (collab_between a b) (rels g)); reflexivity.
Qed.

Lemma collab_step_nodes now acc row :
  entities (snd (collab_step now acc row)) = entities (snd acc)
  /\ meetings (snd (collab_step now acc row)) = meetings (snd acc)
  /\ mentions (snd (collab_step now acc row)) = mentions (snd acc).
Proof.
  destruct acc as [n g], row as [[a b] c]. unfold collab_step.
  destruct (filter (collab_between a b) (rels g)); simpl; auto.
Qed.

(** The relationships from [a] to [b] after the step for the row of [a] and [b] *)
Lemma collab_step_filter_same now n g a b c :
  filter (collab_between a b) (rels (snd (collab_step now (n, g) (a, b, c)))) =
  match filter (collab_between a b) (rels g) with
  | [] => [collab_on_create now a b c]
  | l => map (collab_on_match now c) l
  end.
Proof.
  rewrite collab_step_rels.
  destruct (filter (collab_between a b) (rels g)) as [|r0 l] eqn:F.
  - rewrite filter_app, F. cbn [filter app].
    replace (collab_between a b (collab_on_create now a b c)) with true; [reflexivity|].
    symmetry. apply collab_between_true. repeat split; reflexivity.
  - rewrite (filter_map_commute (collab_between a b) (collab_update now a b c))
      by (intros x; apply collab_between_update).
    rewrite F. apply map_ext_in. intros r Hr.
    rewrite <- F in Hr. apply filter_In in Hr. destruct Hr as [_ Hr].
    unfold collab_update. rewrite Hr. reflexivity.
Qed.

(** ... and after the step for another row *)
Lemma collab_step_filter_other now n g a b x y c :
  (x, y) <> (a, b) ->
  filter (collab_between a b) (rels (snd (collab_step now (n, g) (x, y, c))))
  = filter (collab_between a b) (rels g).
Proof.
  intros Hne. rewrite collab_step_rels.
  destruct (filter (collab_between x y) (rels g)) as [|r0 l] eqn:F.
  - rewrite filter_app. cbn [filter].
    replace (collab_between a b (collab_on_create now x y c)) with false.
    + apply app_nil_r.
    + symmetry. apply (collab_between_other x y a b).
      * apply collab_between_true. repeat split; reflexivity.
      * intros E. apply Hne. symmetry. exact E.
  - rewrite (filter_map_commute (collab_between a b) (collab_update now x y c))
      by (intros r; apply collab_between_update).
    apply map_id_on. intros r Hr. apply filter_In in Hr. destruct Hr as [_ Hr].
    unfold collab_update. rewrite (collab_between_other a b x y r Hr Hne). reflexivity.
Qed.

Lemma string_ltb_asym (a b : string) : String.ltb a b = true -> String.ltb b a = false.
Proof.
  unfold String.ltb. rewrite (String.compare_antisym b a).
  destruct (String.compare a b); simpl; congruence.
Qed.

Lemma collab_step_settles now n g a b c :
  collab_inv a b (rels g) ->
  settled c (filter (collab_between a b) (rels (snd (collab_step now (n, g) (a, b, c))))).
Proof.
  intros [Hlen Hsrc]. rewrite collab_step_filter_same.
  destruct (filter (collab_between a b) (rels g)) as [|r0 [|r1 l]].
  - exists (collab_on_create now a b c). repeat split; reflexivity.
  - exists (collab_on_match now c r0). split; [reflexivity|]. split.
    + apply strength_on_match.
    + rewrite source_on_match. apply Hsrc. left. reflexivity.
  - simpl in Hlen. lia.
Qed.

Lemma collab_step_keeps_settled now n g a b x y c c' :
  ((x, y) = (a, b) -> c' = c) ->
  settled c (filter (collab_between a b) (rels g)) ->
  settled c (filter (collab_between a b) (rels (snd (collab_step now (n, g) (x, y, c'))))).
Proof.
  intros Hc [r (Hr & Hs & Hi)].
  destruct (string_dec x a) as [->|Hx]; [destruct (string_dec y b) as [->|Hy]|].
  - rewrite (Hc eq_refl). rewrite collab_step_filter_same, Hr.
    exists (collab_on_match now c r). split; [reflexivity|]. split.
    + apply strength_on_match.
    + rewrite source_on_match. exact Hi.
  - rewrite collab_step_filter_other by congruence. exists r. auto.
  - rewrite collab_step_filter_other by congruence. exists r. auto.
Qed.

Lemma fold_keeps_settled now cf a b rows :
  rows_consistent cf rows ->
  forall acc,
    settled (cf a b) (filter (collab_between a b) (rels (snd acc))) ->
    settled (cf a b)
      (filter (collab_between a b) (rels (snd (fold_left (collab_step now) rows acc)))).
Proof.
  induction rows as [|[[x y] c'] rows IH]; intros Hc acc Hs; simpl; [exact Hs|].
  apply IH.
  - intros x' y' c0 Hin. apply Hc. right. exact Hin.
  - destruct acc as [n g]. apply collab_step_keeps_settled; [|exact Hs].
    intros E. inversion E; subst. apply Hc. left. reflexivity.
Qed.

Lemma fold_settles now cf a b rows :
  rows_consistent cf rows ->
  In (a, b, cf a b) rows ->
  forall acc,
    collab_inv a b (rels (snd acc)) ->
    settled (cf a b)
      (filter (collab_between a b) (rels (snd (fold_left (collab_step now) rows acc)))).
Proof.
  induction rows as [|[[x y] c'] rows IH]; intros Hc Hin acc Hinv; [contradiction|].
  assert (Hc' : rows_consistent cf rows).
  { intros x' y' c0 H0. apply Hc. right. exact H0. }
  destruct acc as [n g]. cbn [fold_left].
  destruct (string_dec x a) as [->|Hx]; [destruct (string_dec y b) as [->|Hy]|].
  - rewrite (Hc a b c' (or_introl eq_refl)).
    apply (fold_keeps_settled now cf a b rows Hc').
    apply collab_step_settles. exact Hinv.
  - destruct Hin as [E|Hin]; [inversion E; congruence|].
    apply IH; auto. unfold collab_inv.
    rewrite collab_step_filter_other by congruence. exact Hinv.
  - destruct Hin as [E|Hin]; [inversion E; congruence|].
    apply IH; auto. unfold collab_inv.
    rewrite collab_step_filter_other by congruence. exact Hinv.
Qed.

Lemma fold_filter_untouched now a b rows :
  (forall x y c, In (x, y, c) rows -> (x, y) <> (a, b)) ->
  forall acc,
    filter (collab_between a b) (rels (snd (fold_left (collab_step now) rows acc)))
    = filter (collab_between a b) (rels (snd acc)).
Proof.
  induction rows as [|[[x y] c'] rows IH]; intros Hne acc; [reflexivity|].
  cbn [fold_left]. rewrite IH.
  - destruct acc as [n g]. apply collab_step_filter_other. apply (Hne x y c'). left. reflexivity.
  - intros x' y' c0 H0. apply (Hne x' y' c0). right. exact H0.
Qed.

Lemma fold_collab_nodes now rows :
  forall acc,
    entities (snd (fold_left (collab_step now) rows acc)) = entities (snd acc)
    /\ meetings (snd (fold_left (collab_step now) rows acc)) = meetings (snd acc)
    /\ mentions (snd (fold_left (collab_step now) rows acc)) = mentions (snd acc).
Proof.
  induction rows as [|row rows IH]; intros acc; [auto|].
  cbn [fold_left]. destruct (IH (collab_step now acc row)) as (-> & -> & ->).
  apply collab_step_nodes.
Qed.

(** The rows of the query *)
Lemma in_collab_rows uid min_co g a b c :
  In (a, b, c) (collab_rows uid min_co g) <->
  exists p1 p2,
    In p1 (entities g) /\ In p2 (entities g)
    /\ is_person p1 = true /\ n_user_id p1 = uid
    /\ is_person p2 = true /\ n_user_id p2 = n_user_id p1
    /\ String.ltb (n_id p1) (n_id p2) = true
    /\ a = n_id p1 /\ b = n_id p2
    /\ c = shared_count g a b /\ 0 < c /\ min_co <= c.
Proof.
  unfold collab_rows. rewrite in_flat_map. split.
  - intros [p1 [H1 H]]. apply filter_In in H1. destruct H1 as [H1 Hp1].
    apply andb_true_iff in Hp1. destruct Hp1 as [Hp1 Hu1]. apply String.eqb_eq in Hu1.
    apply in_flat_map in H. destruct H as [p2 [H2 H]].
    apply filter_In in H2. destruct H2 as [H2 Hp2].
    destruct (String.ltb (n_id p1) (n_id p2) && String.eqb (n_user_id p1) (n_user_id p2))
      eqn:E; [|contradiction].
    apply andb_true_iff in E. destruct E as [Hlt Hu]. apply String.eqb_eq in Hu.
    destruct ((0 <? shared_count g (n_id p1) (n_id p2))
              && (min_co <=? shared_count g (n_id p1) (n_id p2))) eqn:E2; [|contradiction].
    apply andb_true_iff in E2. destruct E2 as [Hpos Hmin].
    destruct H as [H|[]]. inversion H; subst.
    exists p1, p2. repeat split; auto; lia.
  - intros (p1 & p2 & H1 & H2 & Hp1 & Hu1 & Hp2 & Hu & Hlt & -> & -> & -> & Hpos & Hmin).
    exists p1. split.
    + apply filter_In. split; [exact H1|]. rewrite Hp1, Hu1. simpl. apply String.eqb_refl.
    + apply in_flat_map. exists p2. split.
      * apply filter_In. split; assumption.
      * rewrite Hlt, Hu, String.eqb_refl. simpl.
        replace (0 <? shared_count g (n_id p1) (n_id p2)) with true by (symmetry; lia).
        replace (min_co <=? shared_count g (n_id p1) (n_id p2)) with true by (symmetry; lia).
        left. reflexivity.
Qed.

Lemma collab_rows_consistent uid min_co g :
  rows_consistent (shared_count g) (collab_rows uid min_co g).
Proof.
  intros x y c H. apply in_collab_rows in H.
  destruct H as (p1 & p2 & _ & _ & _ & _ & _ & _ & _ & _ & _ & Hc & _). exact Hc.
Qed.

Lemma collab_rows_ext uid min_co g g' :
  entities g' = entities g -> mentions g' = mentions g ->
  collab_rows uid min_co g' = collab_rows uid min_co g.
Proof.
  intros He Hm. unfold collab_rows, shared_count, shared_meetings, mentioned_meetings.
  rewrite He, Hm. reflexivity.
Qed.

Lemma infer_collaborations_graph now uid min_co db :
  graph (snd (infer_collaborations now uid min_co db))
  = snd (fold_left (collab_step now) (collab_rows uid min_co (graph db)) (0, graph db)).
Proof.
  unfold infer_collaborations, bind. rewrite run_single_query_eq. cbn [exec].
  unfold exec_infer_collaborations.
  destruct (fold_left _ _ _) as [n g']. reflexivity.
Qed.

Lemma collab_step_establishes now n g a b c :
  satisfied (rels (snd (collab_step now (n, g) (a, b, c)))) (a, b, c).
Proof.
  unfold satisfied. cbn [fst snd]. rewrite collab_step_filter_same.
  destruct (filter (collab_between a b) (rels g)) as [|r0 l].
  - split; [discriminate|]. intros r [<-|[]]. reflexivity.
  - split; [discriminate|]. intros r Hr. apply in_map_iff in Hr.
    destruct Hr as [r' [<- _]]. apply strength_on_match.
Qed.

Lemma collab_step_preserves_satisfied now n g a b c x y c' :
  ((x, y) = (a, b) -> c' = c) ->
  satisfied (rels g) (a, b, c) ->
  satisfied (rels (snd (collab_step now (n, g) (x, y, c')))) (a, b, c).
Proof.
  intros Hc Hs.
  destruct (string_dec x a) as [->|Hx]; [destruct (string_dec y b) as [->|Hy]|].
  - rewrite (Hc eq_refl). apply collab_step_establishes.
  - unfold satisfied in *. cbn [fst snd] in *.
    rewrite collab_step_filter_other by congruence. exact Hs.
  - unfold satisfied in *. cbn [fst snd] in *.
    rewrite collab_step_filter_other by congruence. exact Hs.
Qed.

Lemma fold_satisfies now cf rows :
  rows_consistent cf rows ->
  forall a b acc,
    satisfied (rels (snd acc)) (a, b, cf a b) \/ In (a, b, cf a b) rows ->
    satisfied (rels (snd (fold_left (collab_step now) rows acc))) (a, b, cf a b).
Proof.
  induction rows as [|[[x y] c'] rows IH]; intros Hc a b acc H.
  - destruct H as [H|[]]. exact H.
  - assert (Hc' : rows_consistent cf rows).
    { intros x' y' c0 H0. apply Hc. right. exact H0. }
    cbn [fold_left]. apply IH; [exact Hc'|]. destruct acc as [n g].
    destruct H as [H|[E|H]].
    + left. apply collab_step_preserves_satisfied; [|exact H].
      intros E. inversion E; subst. apply Hc. left. reflexivity.
    + left. inversion E; subst. apply collab_step_establishes.
    + right. exact H.
Qed.

Lemma collab_step_view now n g a b c :
  satisfied (rels g) (a, b, c) ->
  map rel_view (rels (snd (collab_step now (n, g) (a, b, c)))) = map rel_view (rels g).
Proof.
  intros [Hne Hs]. cbn [fst snd] in *. rewrite collab_step_rels.
  destruct (filter (collab_between a b) (rels g)) as [|r0 l] eqn:F; [congruence|].
  rewrite map_map. apply map_ext_in. intros r Hr.
  unfold collab_update. destruct (collab_between a b r) eqn:E; [|reflexivity].
  unfold rel_view. rewrite strength_on_match, source_on_match.
  rewrite (Hs r); [reflexivity|]. rewrite <- F. apply filter_In. split; assumption.
Qed.

Lemma fold_view now cf rows :
  rows_consistent cf rows ->
  forall acc,
    (forall x y c, In (x, y, c) rows -> satisfied (rels (snd acc)) (x, y, c)) ->
    map rel_view (rels (snd (fold_left (collab_step now) rows acc)))
    = map rel_view (rels (snd acc)).
Proof.
  induction rows as [|[[x y] c'] rows IH]; intros Hc acc Hs; [reflexivity|].
  assert (Hc' : rows_consistent cf rows).
  { intros x' y' c0 H0. apply Hc. right. exact H0. }
  cbn [fold_left]. destruct acc as [n g]. rewrite IH; [|exact Hc'|].
  - apply collab_step_view. apply Hs. left. reflexivity.
  - intros a b c Hin. apply collab_step_preserves_satisfied.
    + intros E. inversion E; subst.
      rewrite (Hc a b c' (or_introl eq_refl)). symmetry. apply Hc. right. exact Hin.
    + apply Hs. right. exact Hin.
Qed.

(** A second run right after a run changes no end point, type, strength or
    source. *)
Lemma infer_collaborations_idempotent now1 now2 uid min_co db :
  map rel_view
    (rels (graph (snd (infer_collaborations now2 uid min_co
                         (snd (infer_collaborations now1 uid min_co db))))))
  = map rel_view (rels (graph (snd (infer_collaborations now1 uid min_co db)))).
Proof.
  rewrite (infer_collaborations_graph now2). rewrite (infer_collaborations_graph now1).
  set (rows := collab_rows uid min_co (graph db)).
  set (g1 := snd (fold_left (collab_step now1) rows (0, graph db))).
  destruct (fold_collab_nodes now1 rows (0, graph db)) as (He & _ & Hm).
  fold g1 in He, Hm. cbn [snd] in He, Hm.
  rewrite (collab_rows_ext uid min_co (graph db) g1 He Hm). fold rows.
  pose proof (collab_rows_consistent uid min_co (graph db)) as Hc. fold rows in Hc.
  apply (fold_view now2 (shared_count (graph db)) rows Hc (0, g1)).
  intros x y c Hin. cbn [snd]. rewrite (Hc x y c Hin).
  apply (fold_satisfies now1 (shared_count (graph db)) rows Hc x y (0, graph db)).
  right. rewrite <- (Hc x y c Hin). exact Hin.
Qed.

Lemma filter_orb_l {A} (P Q : A -> bool) (l : list A) :
  filter Q l = [] -> filter (fun x => P x || Q x) l = filter P l.
Proof.
  intros H. apply filter_ext_in. intros x Hx.
  rewrite (proj1 (filter_nil_iff Q l) H x Hx). apply orb_false_r.
Qed.

Lemma string_ltb_irrefl (a : string) : String.ltb a a = false.
Proof.
  destruct (String.ltb a a) eqn:E; [|reflexivity].
  rewrite (string_ltb_asym a a E) in E. discriminate.
Qed.

(** C8, as the code has it.  Take two Person entities of the owner, [p1] the
    one with the smaller id, that share at least one meeting and at least
    the threshold, and a store in which the only [COLLABORATES_WITH]
    relationship between the two, if any, is an inferred one from [p1] to
    [p2].  After a run there is exactly one [COLLABORATES_WITH] relationship
    between them, from [p1] to [p2], with strength the current count of
    distinct shared meetings and source inferred; entities, meetings and
    mentions are untouched.  A second run on any store leaves the end points,
    types, strengths and sources of all relationships as the first run left
    them. *)
Theorem infer_collaborations_refresh
  (now1 now2 : datetime) (uid : string) (min_co : Z) (db : Neo4j) (p1 p2 : EntityNode) :
  In p1 (entities (graph db)) -> In p2 (entities (graph db)) ->
  is_person p1 = true -> is_person p2 = true ->
  n_user_id p1 = uid -> n_user_id p2 = uid ->
  String.ltb (n_id p1) (n_id p2) = true ->
  0 < shared_count (graph db) (n_id p1) (n_id p2) ->
  min_co <= shared_count (graph db) (n_id p1) (n_id p2) ->
  (List.length (filter (collab_either (n_id p1) (n_id p2)) (rels (graph db))) <= 1)%nat ->
  (forall r, In r (filter (collab_either (n_id p1) (n_id p2)) (rels (graph db))) ->
             rel_from r = n_id p1 /\ source_of r = Some (VStr "inferred")) ->
  let out1 := infer_collaborations now1 uid min_co db in
  let out2 := infer_collaborations now2 uid min_co (snd out1) in
  (exists r,
      filter (collab_either (n_id p1) (n_id p2)) (rels (graph (snd out1))) = [r]
      /\ rel_from r = n_id p1 /\ rel_to r = n_id p2
      /\ strength_of r = Some (VInt (shared_count (graph db) (n_id p1) (n_id p2)))
      /\ source_of r = Some (VStr "inferred"))
  /\ entities (graph (snd out1)) = entities (graph db)
  /\ meetings (graph (snd out1)) = meetings (graph db)
  /\ mentions (graph (snd out1)) = mentions (graph db)
  /\ map rel_view (rels (graph (snd out2))) = map rel_view (rels (graph (snd out1))).
Proof.
  intros H1 H2 Hp1 Hp2 Hu1 Hu2 Hlt Hpos Hmin Hlen Hsrc out1 out2.
  set (a := n_id p1) in *. set (b := n_id p2) in *.
  assert (Hab : a <> b).
  { intros E. rewrite E, string_ltb_irrefl in Hlt. discriminate. }
  assert (Hrev : filter (collab_between b a) (rels (graph db)) = []).
  { apply filter_nil_iff. intros r Hr.
    destruct (collab_between b a r) eqn:E; [|reflexivity]. exfalso.
    destruct (Hsrc r) as [Hf _].
    - apply filter_In. split; [exact Hr|]. unfold collab_either. rewrite E. apply orb_true_r.
    - apply collab_between_true in E. destruct E as (E & _). congruence. }
  assert (Heq : filter (collab_either a b) (rels (graph db))
                = filter (collab_between a b) (rels (graph db))).
  { apply filter_orb_l. exact Hrev. }
  rewrite Heq in Hlen, Hsrc.
  set (rows := collab_rows uid min_co (graph db)).
  pose proof (collab_rows_consistent uid min_co (graph db)) as Hc. fold rows in Hc.
  assert (Hrow : In (a, b, shared_count (graph db) a b) rows).
  { apply in_collab_rows. exists p1, p2. repeat split; auto. congruence. }
  pose proof (fold_settles now1 (shared_count (graph db)) a b rows Hc Hrow (0, graph db))
    as Hset.
  cbn [snd] in Hset.
  assert (Hinv : collab_inv a b (rels (graph db))).
  { split; [exact Hlen|]. intros r Hr. apply (Hsrc r Hr). }
  specialize (Hset Hinv).
  assert (Hrev' : filter (collab_between b a)
                    (rels (snd (fold_left (collab_step now1) rows (0, graph db)))) = []).
  { rewrite fold_filter_untouched; [exact Hrev|].
    intros x y c Hin E. inversion E; subst x y.
    apply in_collab_rows in Hin.
    destruct Hin as (q1 & q2 & _ & _ & _ & _ & _ & _ & Hq & Ea & Eb & _).
    rewrite <- Ea, <- Eb in Hq. rewrite (string_ltb_asym a b Hlt) in Hq. discriminate. }
  split.
  { subst out1. rewrite infer_collaborations_graph. fold rows.
    change (collab_either a b)
      with (fun x => collab_between a b x || collab_between b a x).
    rewrite (filter_orb_l (collab_between a b) (collab_between b a) _ Hrev').
    destruct Hset as [r (Hr & Hs & Hi)]. exists r.
    assert (Hin : In r (filter (collab_between a b)
                          (rels (snd (fold_left (collab_step now1) rows (0, graph db))))))
      by (rewrite Hr; left; reflexivity).
    apply filter_In in Hin. destruct Hin as [_ Hb].
    apply collab_between_true in Hb. destruct Hb as (Hf & Ht & _).
    repeat split; assumption. }
  subst out1 out2.
  split; [|split; [|split]].
  - rewrite infer_collaborations_graph. apply (fold_collab_nodes now1 rows (0, graph db)).
  - rewrite infer_collaborations_graph. apply (fold_collab_nodes now1 rows (0, graph db)).
  - rewrite infer_collaborations_graph. apply (fold_collab_nodes now1 rows (0, graph db)).
  - apply infer_collaborations_idempotent.
Qed.

Lemma infer_collaborations_refresh_witness :
  let db := Sample.db_of Sample.g_people true in
  let out1 := infer_collaborations 80 "u1" 3 db in
  let out2 := infer_collaborations 81 "u1" 3 (snd out1) in
  (exists r,
      filter (collab_either "p1" "p2") (rels (graph (snd out1))) = [r]
      /\ rel_from r = "p1" /\ rel_to r = "p2"
      /\ strength_of r = Some (VInt 3)
      /\ source_of r = Some (VStr "inferred"))
  /\ entities (graph (snd out1)) = entities (graph db)
  /\ meetings (graph (snd out1)) = meetings (graph db)
  /\ mentions (graph (snd out1)) = mentions (graph db)
  /\ map rel_view (rels (graph (snd out2))) = map rel_view (rels (graph (snd out1))).
Proof.
  apply (infer_collaborations_refresh 80 81 "u1" 3 (Sample.db_of Sample.g_people true)
           (Sample.node "Person" "p1" "dana" [] 4 100)
           (Sample.node "Person" "p2" "noa" [] 3 100)).
  - simpl. right. left. reflexivity.
  - simpl. right. right. left. reflexivity.
  - reflexivity.
  - reflexivity.
  - reflexivity.
  - reflexivity.
  - reflexivity.
  - vm_compute. reflexivity.
  - vm_compute. discriminate.
  - simpl. lia.
  - simpl. intros r [].
Defined.

(** A collaboration that the user stated through [create_relationship], from
    the larger id to the smaller, is not matched by the [MERGE] of the run:
    afterwards the pair has two [COLLABORATES_WITH] relationships. *)
Lemma infer_collaborations_beside_stated_edge :
  let db0 := Sample.db_of Sample.g_people true in
  let db1 := snd (create_relationship 70 Sample.collaborates_user db0) in
  let db2 := snd (infer_collaborations 80 "u1" 3 db1) in
  shared_count (graph db1) "p1" "p2" = 3
  /\ List.length (filter (collab_either "p1" "p2") (rels (graph db2))) = 2%nat
  /\ map (fun r => (rel_from r, rel_to r, strength_of r, source_of r))
       (filter (collab_either "p1" "p2") (rels (graph db2)))
     = [("p2", "p1", None, Some (VStr "user"));
        ("p1", "p2", Some (VInt 3), Some (VStr "inferred"))].
Proof. vm_compute. repeat split; reflexivity. Qed.

(** Stated from the smaller id to the larger, the relationship is matched:
    it gets the strength, and keeps the source it had. *)
Example infer_collaborations_over_stated_edge :
  let stated := mkEntityRelationship "p1" "p2" COLLABORATES_WITH f_1_0 "user" [] in
  let db1 := snd (create_relationship 70 stated (Sample.db_of Sample.g_people true)) in
  let db2 := snd (infer_collaborations 80 "u1" 3 db1) in
  map (fun r => (rel_from r, rel_to r, strength_of r, source_of r))
    (filter (collab_either "p1" "p2") (rels (graph db2)))
  = [("p1", "p2", Some (VInt 3), Some (VStr "user"))].
Proof. vm_compute. reflexivity. Qed.

(** The strength follows the count down while the count stays at or above
    the threshold; below the threshold the relationship keeps the strength
    of the last run that reached it. *)
Example infer_collaborations_strength_falls :
  let db1 := snd (infer_collaborations 80 "u1" 2 (Sample.db_of Sample.g_people true)) in
  let db1' := mkNeo4j (set_mentions (graph db1) (mentions Sample.g_people_less))
                (apoc db1) (journal db1) in
  map strength_of (rels (graph db1)) = [Some (VInt 3)]
  /\ map strength_of (rels (graph (snd (infer_collaborations 90 "u1" 2 db1'))))
     = [Some (VInt 2)]
  /\ map strength_of (rels (graph (snd (infer_collaborations 90 "u1" 3 db1'))))
     = [Some (VInt 3)].
Proof. vm_compute. repeat split; reflexivity. Qed.

(** ** The invariants hold along every operation *)

Lemma NoDup_map_filter {A B} (f : A -> B) (P : A -> bool) (l : list A) :
  NoDup (map f l) -> NoDup (map f (filter P l)).
Proof.
  induction l as [|a l IH]; simpl; intros H; [constructor|].
  inversion H as [|? ? Hn Hd]; subst.
  destruct (P a); simpl; [constructor|]; auto.
  intros Hin. apply Hn. apply in_map_iff in Hin. destruct Hin as [x [E Hx]].
  apply filter_In in Hx. rewrite <- E. apply in_map. apply Hx.
Qed.

Lemma filter_filter_length {A} (P Q : A -> bool) (l : list A) :
  (List.length (filter P (filter Q l)) <= List.length (filter P l))%nat.
Proof.
  induction l as [|a l IH]; simpl; [lia|].
  destruct (Q a), (P a) eqn:E; simpl; try rewrite E; simpl; lia.
Qed.

(** The [entity_id] constraint is what keeps ids unique when
    [upsert_entity] creates. *)
Lemma upsert_entity_keeps_ids_unique str_lower uuid4 now entity db :
  ids_unique (graph db) ->
  ids_unique (graph (snd (upsert_entity str_lower uuid4 now entity db))).
Proof.
  intros [He Hm].
  destruct (ent_type entity) as [t|t] eqn:Et.
  { rewrite (upsert_entity_text str_lower uuid4 now entity db t Et). split; assumption. }
  rewrite (upsert_entity_eq str_lower uuid4 now entity db t Et).
  destruct (exec_upsert_entity_outcome now (capitalize (EntityType_value t))
              (upsert_params str_lower uuid4 entity) (graph db))
    as [_ _ | _ Hfresh | _]; cbn [snd graph].
  - split; assumption.
  - split; [|exact Hm]. cbn [entities set_entities].
    rewrite map_app. cbn [map]. apply NoDup_app.
    + exact He.
    + constructor; [intros []|constructor].
    + intros i Hi [<-|[]]. apply in_map_iff in Hi. destruct Hi as [n [E Hn]].
      assert (X : existsb (has_id (ent_id (upsert_params str_lower uuid4 entity)))
                    (entities (graph db)) = true).
      { apply existsb_exists. exists n. split; [exact Hn|]. apply String.eqb_eq. exact E. }
      congruence.
  - split; [|exact Hm]. cbn [entities set_entities]. rewrite map_map.
    erewrite map_ext; [exact He|].
    intros n. unfold on_match_all. destruct (with_key _ n); reflexivity.
Qed.

Lemma add_mention_keeps_ids_unique now p db :
  ids_unique (graph db) -> ids_unique (graph (snd (add_mention now p db))).
Proof.
  intros H. rewrite add_mention_eq. cbn [snd graph]. unfold exec_add_mention.
  generalize (list_prod (filter (has_id (em_entity_id p)) (entities (graph db)))
                (filter (meeting_has_id (em_meeting_id p)) (meetings (graph db)))).
  intros rows.
  assert (G : forall acc, ids_unique (snd acc) ->
                          ids_unique (snd (fold_left (add_mention_step now p) rows acc))).
  { induction rows as [|row rows IH]; intros acc Ha; [exact Ha|].
    cbn [fold_left]. apply IH. apply add_mention_step_ids_unique. exact Ha. }
  apply (G ([], graph db)). exact H.
Qed.

(** [create_relationship] and [infer_collaborations] write relationships
    between entities only. *)
Lemma create_relationship_nodes now rel db :
  entities (graph (snd (create_relationship now rel db))) = entities (graph db)
  /\ meetings (graph (snd (create_relationship now rel db))) = meetings (graph db)
  /\ mentions (graph (snd (create_relationship now rel db))) = mentions (graph db).
Proof.
  unfold create_relationship, try_except, bind.
  rewrite run_single_query_eq. cbn [exec]. unfold exec_create_relationship_apoc.
  destruct (apoc db).
  - cbn. auto.
  - rewrite run_single_query_eq. cbn. auto.
Qed.

Lemma infer_collaborations_nodes now uid min_co db :
  entities (graph (snd (infer_collaborations now uid min_co db))) = entities (graph db)
  /\ meetings (graph (snd (infer_collaborations now uid min_co db))) = meetings (graph db)
  /\ mentions (graph (snd (infer_collaborations now uid min_co db))) = mentions (graph db).
Proof.
  rewrite infer_collaborations_graph.
  apply (fold_collab_nodes now (collab_rows uid min_co (graph db)) (0, graph db)).
Qed.

Lemma find_has_id_unique (es : list EntityNode) (e : EntityNode) :
  NoDup (map n_id es) -> In e es -> find (has_id (n_id e)) es = Some e.
Proof.
  intros Hnd Hin. pose proof (filter_has_id_unique es e Hnd Hin) as F.
  induction es as [|a es IH]; [contradiction|].
  cbn [find filter] in *. destruct (has_id (n_id e) a) eqn:E.
  - inversion F. reflexivity.
  - apply IH.
    + inversion Hnd; assumption.
    + destruct Hin as [->|Hin]; [|exact Hin].
      unfold has_id in E. rewrite String.eqb_refl in E. discriminate.
    + exact F.
Qed.

Lemma filter_has_id_owner_unique (es : list EntityNode) (e : EntityNode) :
  NoDup (map n_id es) -> In e es ->
  filter (has_id_owner (n_id e) (n_user_id e)) es = [e].
Proof.
  intros Hnd Hin.
  transitivity (filter (has_id (n_id e)) es); [|apply filter_has_id_unique; assumption].
  apply filter_ext_in. intros x Hx. unfold has_id_owner, has_id.
  destruct (String.eqb (n_id x) (n_id e)) eqn:E; [|reflexivity].
  assert (Hxe : x = e).
  { assert (Hf : In x (filter (has_id (n_id e)) es)) by (apply filter_In; split; assumption).
    rewrite (filter_has_id_unique es e Hnd Hin) in Hf. destruct Hf as [<-|[]]. reflexivity. }
  subst x. rewrite String.eqb_refl. reflexivity.
Qed.

Lemma filter_idem {A} (P : A -> bool) (l : list A) : filter P (filter P l) = filter P l.
Proof.
  induction l as [|a l IH]; [reflexivity|]. cbn [filter].
  destruct (P a) eqn:E; [cbn [filter]; rewrite E, IH; reflexivity|exact IH].
Qed.

(** * Further properties *)

(** ** upsert_entity, when it creates *)

(** X3.  A call of [upsert_entity] that reaches the store (its entity holds
    the type as a member [t]), when no entity has the key of the call and the
    id it brings (or the drawn uuid, for an empty id) is free: it returns a
    new node appended to the store, which carries that id, the capitalized
    type as label, the lower-cased normalized value, the delta as
    [mention_count] and the given time stamps and aliases; nothing else in
    the graph changes. *)
Theorem upsert_entity_creates
  (str_lower : string -> string) (uuid4 : string) (now : datetime) (entity : Entity)
  (db : Neo4j) (t : EntityType) :
  ent_type entity = type_member t ->
  key_count (capitalize (EntityType_value t), ent_user_id entity,
             str_lower (ent_normalized_value entity)) (graph db) = 0%nat ->
  ~ In (if String.eqb (ent_id entity) "" then uuid4 else ent_id entity)
       (map n_id (entities (graph db))) ->
  exists n,
    fst (upsert_entity str_lower uuid4 now entity db) = Returned (Some n)
    /\ graph (snd (upsert_entity str_lower uuid4 now entity db))
       = set_entities (graph db) (entities (graph db) ++ [n])
    /\ n_id n = (if String.eqb (ent_id entity) "" then uuid4 else ent_id entity)
    /\ n_label n = capitalize (EntityType_value t)
    /\ n_user_id n = ent_user_id entity
    /\ n_normalized_value n = str_lower (ent_normalized_value entity)
    /\ n_display_value n = ent_display_value entity
    /\ n_aliases n = ent_aliases entity
    /\ n_mention_count n = ent_mention_count entity
    /\ n_first_seen n = ent_first_seen entity
    /\ n_last_seen n = ent_last_seen entity
    /\ n_created_at n = now
    /\ n_updated_at n = None.
Proof.
  intros Et H0 Hfresh.
  set (label := capitalize (EntityType_value t)) in *.
  set (p := upsert_params str_lower uuid4 entity).
  exists (upsert_on_create now label p).
  rewrite (upsert_entity_eq str_lower uuid4 now entity db t Et). fold label p.
  destruct (exec_upsert_entity_outcome now label p (graph db))
    as [_ Hclash | _ _ | Hsome].
  - exfalso. apply Hfresh. apply existsb_exists in Hclash.
    destruct Hclash as [n [Hn Hid]]. apply String.eqb_eq in Hid.
    change (ent_id p) with (if String.eqb (ent_id entity) "" then uuid4 else ent_id entity)
      in Hid.
    rewrite <- Hid. apply in_map. exact Hn.
  - cbn [fst snd graph hd_error]. repeat split; reflexivity.
  - exfalso. apply Hsome. apply length_zero_iff_nil. exact H0.
Qed.

Lemma filter_filter_implies {A} (P Q : A -> bool) (l : list A) :
  (forall x, P x = true -> Q x = true) -> filter P (filter Q l) = filter P l.
Proof.
  intros H. induction l as [|a l IH]; [reflexivity|]. cbn [filter].
  destruct (Q a) eqn:EQ.
  - cbn [filter]. rewrite IH. reflexivity.
  - destruct (P a) eqn:EP; [|exact IH]. rewrite (H a EP) in EQ. discriminate.
Qed.

Lemma filter_filter_andb {A} (P Q : A -> bool) (l : list A) :
  filter P (filter Q l) = filter (fun x => Q x && P x) l.
Proof.
  induction l as [|a l IH]; [reflexivity|]. cbn [filter].
  destruct (Q a); cbn [filter andb]; [destruct (P a)|]; rewrite IH; reflexivity.
Qed.

Lemma mention_between_other a b x y r :
  mention_between a b r = true -> (x, y) <> (a, b) -> mention_between x y r = false.
Proof.
  intros H Hne. destruct (mention_between x y r) eqn:E; [|reflexivity].
  apply mention_between_true in H. apply mention_between_true in E.
  destruct H as [<- <-]. destruct E as [<- <-]. congruence.
Qed.

(** Invariants of a store given by its lists. *)
Lemma mention_unique_of_NoDup (g : Graph) :
  NoDup (map (fun r => (r_entity r, r_meeting r)) (mentions g)) -> mention_unique g.
Proof.
  intros H a b. induction (mentions g) as [|r l IH]; [cbn; lia|].
  cbn [map] in H. inversion H as [|? ? Hn Hd]; subst. cbn [filter].
  destruct (mention_between a b r) eqn:E; [|apply IH; exact Hd].
  apply mention_between_true in E. destruct E as [<- <-].
  replace (filter (mention_between (r_entity r) (r_meeting r)) l) with (@nil MentionEdge);
    [cbn; lia|].
  symmetry. apply filter_nil_iff. intros x Hx.
  destruct (mention_between (r_entity r) (r_meeting r) x) eqn:Ex; [|reflexivity].
  apply mention_between_true in Ex. destruct Ex as [E1 E2]. exfalso. apply Hn.
  rewrite <- E1, <- E2. apply (in_map (fun r => (r_entity r, r_meeting r))). exact Hx.
Qed.

Lemma key_unique_of_NoDup (g : Graph) :
  NoDup (map node_key (entities g)) -> key_unique g.
Proof.
  intros H k. unfold key_count. induction (entities g) as [|n l IH]; [cbn; lia|].
  cbn [map] in H. inversion H as [|? ? Hn Hd]; subst. cbn [filter].
  destruct (with_key k n) eqn:E; [|apply IH; exact Hd].
  apply with_key_true in E. subst k.
  replace (filter (with_key (node_key n)) l) with (@nil EntityNode); [cbn; lia|].
  symmetry. apply filter_nil_iff. intros x Hx.
  destruct (with_key (node_key n) x) eqn:Ex; [|reflexivity].
  apply with_key_true in Ex. exfalso. apply Hn. rewrite <- Ex. apply in_map. exact Hx.
Qed.

Ltac distinct_list :=
  vm_compute; repeat (apply NoDup_cons; [vm_compute; intuition congruence|]); apply NoDup_nil.

Lemma g_shared_ids_unique : ids_unique Sample.g_shared.
Proof. split; distinct_list. Qed.

Lemma g_shared_mention_unique : mention_unique Sample.g_shared.
Proof. apply mention_unique_of_NoDup. distinct_list. Qed.

Lemma g_shared_key_unique : key_unique Sample.g_shared.
Proof. apply key_unique_of_NoDup. distinct_list. Qed.

Lemma upsert_entity_creates_witness :
  exists n,
    fst (upsert_entity lower_ascii "uuid-9" 300 (Sample.entity "" "Noa" PERSON ["N."] 2 290)
           (Sample.db_of Sample.g_dana false)) = Returned (Some n)
    /\ graph (snd (upsert_entity lower_ascii "uuid-9" 300
                     (Sample.entity "" "Noa" PERSON ["N."] 2 290)
                     (Sample.db_of Sample.g_dana false)))
       = set_entities Sample.g_dana (entities Sample.g_dana ++ [n])
    /\ n_id n = "uuid-9"
    /\ n_label n = "Person"
    /\ n_user_id n = "u1"
    /\ n_normalized_value n = "noa"
    /\ n_display_value n = "Noa"
    /\ n_aliases n = ["N."]
    /\ n_mention_count n = 2
    /\ n_first_seen n = 290
    /\ n_last_seen n = 290
    /\ n_created_at n = 300
    /\ n_updated_at n = None.
Proof.
  apply (upsert_entity_creates lower_ascii "uuid-9" 300
           (Sample.entity "" "Noa" PERSON ["N."] 2 290) (Sample.db_of Sample.g_dana false)
           PERSON).
  - reflexivity.
  - reflexivity.
  - cbn. intros [H|[]]. discriminate H.
Defined.

Lemma upsert_entity_keeps_ids_unique_witness :
  ids_unique (graph (snd (upsert_entity lower_ascii "uuid-9" 300
                            (Sample.entity "" "Noa" PERSON ["N."] 2 290)
                            (Sample.db_of Sample.g_shared false)))).
Proof.
  apply (upsert_entity_keeps_ids_unique lower_ascii "uuid-9" 300
           (Sample.entity "" "Noa" PERSON ["N."] 2 290) (Sample.db_of Sample.g_shared false)).
  exact g_shared_ids_unique.
Defined.

(** ** delete_entity *)

Lemma delete_entity_eq (entity_id user_id : string) (g : Graph) :
  delete_entity entity_id user_id g
  = (negb (Nat.eqb (List.length (filter (has_id_owner entity_id user_id) (entities g))) 0),
     fold_left (fun g' e => detach_delete (n_id e) g')
       (filter (has_id_owner entity_id user_id) (entities g)) g).
Proof.
  unfold delete_entity, exec_delete_entity. cbn [hd_error]. f_equal.
  destruct (filter (has_id_owner entity_id user_id) (entities g)); reflexivity.
Qed.

(** X7.  [delete_entity] on an entity of the given owner returns [True] and
    leaves the graph without the node and without every relationship that
    touched it: looking the entity up finds nothing, no mention starts at it
    and no relationship starts or ends at it; the meetings, the other
    entities and the relationships among them are as before. *)
Theorem delete_entity_removes (g : Graph) (e : EntityNode) :
  ids_unique g -> In e (entities g) ->
  fst (delete_entity (n_id e) (n_user_id e) g) = true
  /\ snd (delete_entity (n_id e) (n_user_id e) g) = detach_delete (n_id e) g
  /\ get_entity_node (n_id e) (n_user_id e) (snd (delete_entity (n_id e) (n_user_id e) g))
     = None
  /\ filter (mention_from (n_id e))
       (mentions (snd (delete_entity (n_id e) (n_user_id e) g))) = []
  /\ (forall r, In r (rels (snd (delete_entity (n_id e) (n_user_id e) g))) ->
                rel_from r <> n_id e /\ rel_to r <> n_id e)
  /\ meetings (snd (delete_entity (n_id e) (n_user_id e) g)) = meetings g
  /\ (forall x, In x (entities g) -> n_id x <> n_id e ->
                In x (entities (snd (delete_entity (n_id e) (n_user_id e) g))))
  /\ (forall r, In r (mentions g) -> r_entity r <> n_id e ->
                In r (mentions (snd (delete_entity (n_id e) (n_user_id e) g))))
  /\ (forall r, In r (rels g) -> rel_from r <> n_id e -> rel_to r <> n_id e ->
                In r (rels (snd (delete_entity (n_id e) (n_user_id e) g)))).
Proof.
  intros [Hids _] Hin. rewrite delete_entity_eq.
  rewrite (filter_has_id_owner_unique _ e Hids Hin). cbn [fst snd fold_left List.length].
  split; [reflexivity|]. split; [reflexivity|].
  unfold detach_delete, get_entity_node. cbn [entities meetings mentions rels].
  split.
  { replace (filter (has_id_owner (n_id e) (n_user_id e))
               (filter (fun n => negb (has_id (n_id e) n)) (entities g)))
      with (@nil EntityNode); [reflexivity|].
    symmetry. apply filter_nil_iff. intros x Hx. apply filter_In in Hx.
    destruct Hx as [_ Hx]. apply negb_true_iff in Hx. unfold has_id in Hx.
    unfold has_id_owner. rewrite Hx. reflexivity. }
  split.
  { apply filter_nil_iff. intros x Hx. apply filter_In in Hx. destruct Hx as [_ Hx].
    apply negb_true_iff in Hx. exact Hx. }
  split.
  { intros r Hr. apply filter_In in Hr. destruct Hr as [_ Hr].
    apply negb_true_iff, orb_false_iff in Hr. destruct Hr as [H1 H2].
    apply String.eqb_neq in H1. apply String.eqb_neq in H2. auto. }
  split; [reflexivity|].
  split; [|split].
  - intros x Hx Hne. apply filter_In. split; [exact Hx|]. apply negb_true_iff.
    apply String.eqb_neq. exact Hne.
  - intros r Hr Hne. apply filter_In. split; [exact Hr|]. apply negb_true_iff.
    apply String.eqb_neq. exact Hne.
  - intros r Hr H1 H2. apply filter_In. split; [exact Hr|]. apply negb_true_iff.
    apply orb_false_iff. split; apply String.eqb_neq; assumption.
Qed.

(** X8.  When no entity has the given id under the given owner, in
    particular when the entity belongs to somebody else, [delete_entity]
    returns [False] and the graph is unchanged. *)
Theorem delete_entity_not_owned (entity_id user_id : string) (g : Graph) :
  (forall e, In e (entities g) -> n_id e = entity_id -> n_user_id e <> user_id) ->
  delete_entity entity_id user_id g = (false, g).
Proof.
  intros H. rewrite delete_entity_eq.
  replace (filter (has_id_owner entity_id user_id) (entities g)) with (@nil EntityNode);
    [reflexivity|].
  symmetry. apply filter_nil_iff. intros x Hx. unfold has_id_owner.
  destruct (String.eqb (n_id x) entity_id) eqn:E; [|reflexivity].
  apply String.eqb_eq in E. cbn. apply String.eqb_neq. apply (H x Hx E).
Qed.

Lemma fold_detach_keeps (P : Graph -> Prop) (es : list EntityNode) :
  (forall i g, P g -> P (detach_delete i g)) ->
  forall g, P g -> P (fold_left (fun g' e => detach_delete (n_id e) g') es g).
Proof.
  intros Hd. induction es as [|e es IH]; intros g Hg; [exact Hg|].
  cbn [fold_left]. apply IH. apply Hd. exact Hg.
Qed.

(** X9.  [delete_entity] keeps the invariants of the store, whatever it is
    asked to delete. *)
Theorem delete_entity_keeps_invariants (entity_id user_id : string) (g : Graph) :
  ids_unique g -> key_unique g -> mention_unique g ->
  ids_unique (snd (delete_entity entity_id user_id g))
  /\ key_unique (snd (delete_entity entity_id user_id g))
  /\ mention_unique (snd (delete_entity entity_id user_id g)).
Proof.
  intros H1 H2 H3. rewrite delete_entity_eq. cbn [snd]. split; [|split].
  - apply fold_detach_keeps; [|exact H1]. intros i g0 [He Hm]. split; [|exact Hm].
    cbn [detach_delete entities]. apply NoDup_map_filter. exact He.
  - apply fold_detach_keeps; [|exact H2]. intros i g0 Hk k. unfold key_count.
    cbn [detach_delete entities].
    eapply Nat.le_trans; [apply filter_filter_length|apply Hk].
  - apply fold_detach_keeps; [|exact H3]. intros i g0 Hu a b.
    cbn [detach_delete mentions].
    eapply Nat.le_trans; [apply filter_filter_length|apply Hu].
Qed.

(** ** update_entity *)

Lemma set_entities_same (g : Graph) : set_entities g (entities g) = g.
Proof. destruct g. reflexivity. Qed.

(** X10.  [update_entity] returns [None] exactly when the dictionary holds
    none of the five keys it accepts (whatever else it holds, and whether
    the entity exists or not) or no entity has the id under the owner; and
    whenever it returns [None] the graph is unchanged. *)
Theorem update_entity_none
  (now : datetime) (entity_id user_id : string) (updates : EntityUpdates) (g : Graph) :
  (fst (update_entity now entity_id user_id updates g) = None
   <-> set_clauses updates = []
       \/ filter (has_id_owner entity_id user_id) (entities g) = [])
  /\ (fst (update_entity now entity_id user_id updates g) = None ->
      snd (update_entity now entity_id user_id updates g) = g).
Proof.
  unfold update_entity.
  destruct (set_clauses updates) as [|c cs] eqn:Ec.
  - cbn [fst snd]. split; [|reflexivity]. split; auto.
  - cbn [fst snd].
    set (hit := has_id_owner entity_id user_id).
    set (f := fun e => if hit e then apply_updates now updates e else e).
    assert (Hf : filter hit (map f (entities g)) = map f (filter hit (entities g))).
    { apply filter_map_commute. intros x. unfold f. destruct (hit x) eqn:E; [|exact E].
      exact E. }
    rewrite Hf. split.
    + split.
      * intros H. right. destruct (filter hit (entities g)); [reflexivity|discriminate].
      * intros [H|H]; [discriminate|]. rewrite H. reflexivity.
    + intros H. destruct (filter hit (entities g)) as [|x l] eqn:F; [|discriminate].
      rewrite map_id_on; [apply set_entities_same|].
      intros x Hx. unfold f.
      rewrite (proj1 (filter_nil_iff hit (entities g)) F x Hx). reflexivity.
Qed.

(** X11.  With at least one accepted key, [update_entity] on an entity of the
    owner returns it with exactly the given fields replaced and [updated_at]
    set: id, owner, label, normalized value, [mention_count], [first_seen],
    [last_seen], [is_user_created] and [created_at] are never written.  The
    other entities and all relationships are untouched, and ids stay unique
    and keys stay unique. *)
Theorem update_entity_updates
  (now : datetime) (updates : EntityUpdates) (g : Graph) (e : EntityNode) :
  ids_unique g -> In e (entities g) -> set_clauses updates <> [] ->
  let out := update_entity now (n_id e) (n_user_id e) updates g in
  (exists e',
      fst out = Some e'
      /\ In e' (entities (snd out))
      /\ n_id e' = n_id e /\ n_user_id e' = n_user_id e /\ n_label e' = n_label e
      /\ n_normalized_value e' = n_normalized_value e
      /\ n_mention_count e' = n_mention_count e
      /\ n_first_seen e' = n_first_seen e /\ n_last_seen e' = n_last_seen e
      /\ n_is_user_created e' = n_is_user_created e
      /\ n_created_at e' = n_created_at e
      /\ n_display_value e' = or_keep (upd_display_value updates) (n_display_value e)
      /\ n_description e' = or_keep (upd_description updates) (n_description e)
      /\ n_aliases e' = or_keep (upd_aliases updates) (n_aliases e)
      /\ n_confidence e' = or_keep (upd_confidence updates) (n_confidence e)
      /\ n_sentiment_avg e' = or_keep (upd_sentiment_avg updates) (n_sentiment_avg e)
      /\ n_updated_at e' = Some now)
  /\ (forall x, In x (entities g) -> n_id x <> n_id e -> In x (entities (snd out)))
  /\ meetings (snd out) = meetings g
  /\ mentions (snd out) = mentions g
  /\ rels (snd out) = rels g
  /\ ids_unique (snd out)
  /\ (key_unique g -> key_unique (snd out)).
Proof.
  intros [Hids Hm] Hin Hc out. unfold out, update_entity.
  destruct (set_clauses updates) as [|c cs]; [congruence|]. cbn [fst snd].
  set (hit := has_id_owner (n_id e) (n_user_id e)).
  set (f := fun x => if hit x then apply_updates now updates x else x).
  assert (Hf : forall P : EntityNode -> bool,
             (forall x, P (apply_updates now updates x) = P x) ->
             filter P (map f (entities g)) = map f (filter P (entities g))).
  { intros P HP. apply filter_map_commute. intros x. unfold f.
    destruct (hit x); [apply HP|reflexivity]. }
  assert (He : hit e = true).
  { unfold hit, has_id_owner. rewrite !String.eqb_refl. reflexivity. }
  split.
  { exists (apply_updates now updates e). split.
    - rewrite (Hf hit) by reflexivity. unfold hit.
      rewrite (filter_has_id_owner_unique _ e Hids Hin). cbn [map hd_error].
      unfold f. fold hit. rewrite He. reflexivity.
    - split.
      + cbn [entities set_entities]. apply in_map_iff. exists e. split; [|exact Hin].
        unfold f. rewrite He. reflexivity.
      + repeat split; reflexivity. }
  split.
  { intros x Hx Hne. cbn [entities set_entities]. apply in_map_iff. exists x.
    split; [|exact Hx]. unfold f, hit, has_id_owner.
    replace (String.eqb (n_id x) (n_id e)) with false; [reflexivity|].
    symmetry. apply String.eqb_neq. exact Hne. }
  split; [reflexivity|]. split; [reflexivity|]. split; [reflexivity|].
  split.
  { split; [|exact Hm]. cbn [entities set_entities]. rewrite map_map.
    erewrite map_ext; [exact Hids|]. intros x. unfold f. destruct (hit x); reflexivity. }
  intros Hk k. unfold key_count. cbn [entities set_entities].
  rewrite (Hf (with_key k)) by reflexivity. rewrite length_map. apply Hk.
Qed.

Lemma delete_entity_removes_witness :
  let e := Sample.node "Organization" "m1" "acme inc" [] 3 120 in
  fst (delete_entity "m1" "u1" Sample.g_shared) = true
  /\ snd (delete_entity "m1" "u1" Sample.g_shared) = detach_delete "m1" Sample.g_shared
  /\ get_entity_node "m1" "u1" (snd (delete_entity "m1" "u1" Sample.g_shared)) = None
  /\ filter (mention_from "m1") (mentions (snd (delete_entity "m1" "u1" Sample.g_shared))) = []
  /\ (forall r, In r (rels (snd (delete_entity "m1" "u1" Sample.g_shared))) ->
                rel_from r <> "m1" /\ rel_to r <> "m1")
  /\ meetings (snd (delete_entity "m1" "u1" Sample.g_shared)) = meetings Sample.g_shared
  /\ (forall x, In x (entities Sample.g_shared) -> n_id x <> "m1" ->
                In x (entities (snd (delete_entity "m1" "u1" Sample.g_shared))))
  /\ (forall r, In r (mentions Sample.g_shared) -> r_entity r <> "m1" ->
                In r (mentions (snd (delete_entity "m1" "u1" Sample.g_shared))))
  /\ (forall r, In r (rels Sample.g_shared) -> rel_from r <> "m1" -> rel_to r <> "m1" ->
                In r (rels (snd (delete_entity "m1" "u1" Sample.g_shared)))).
Proof.
  apply (delete_entity_removes Sample.g_shared
           (Sample.node "Organization" "m1" "acme inc" [] 3 120)).
  - exact g_shared_ids_unique.
  - cbn. right. left. reflexivity.
Defined.

(** The node goes with its two mentions and the relationship that left it. *)
Example delete_entity_m1 :
  map n_id (entities (snd (delete_entity "m1" "u1" Sample.g_shared))) = ["k1"; "x1"]
  /\ map (fun r => (r_entity r, r_meeting r))
       (mentions (snd (delete_entity "m1" "u1" Sample.g_shared)))
     = [("k1", "mt1"); ("x1", "mt1")]
  /\ map (fun r => (rel_from r, rel_to r)) (rels (snd (delete_entity "m1" "u1" Sample.g_shared)))
     = [("x1", "k1")].
Proof. vm_compute. repeat split; reflexivity. Qed.

(** "x1" belongs to "u2". *)
Lemma delete_entity_not_owned_witness :
  delete_entity "x1" "u1" Sample.g_shared = (false, Sample.g_shared).
Proof.
  apply (delete_entity_not_owned "x1" "u1" Sample.g_shared).
  cbn. intros e [<-|[<-|[<-|[]]]] H; cbn in *; discriminate.
Defined.

Lemma delete_entity_keeps_invariants_witness :
  ids_unique (snd (delete_entity "m1" "u1" Sample.g_shared))
  /\ key_unique (snd (delete_entity "m1" "u1" Sample.g_shared))
  /\ mention_unique (snd (delete_entity "m1" "u1" Sample.g_shared)).
Proof.
  apply (delete_entity_keeps_invariants "m1" "u1" Sample.g_shared).
  - exact g_shared_ids_unique.
  - exact g_shared_key_unique.
  - exact g_shared_mention_unique.
Defined.

Lemma update_entity_updates_witness :
  let e := Sample.node "Organization" "m1" "acme inc" [] 3 120 in
  let out := update_entity 400 "m1" "u1" Sample.updates_display Sample.g_shared in
  (exists e',
      fst out = Some e'
      /\ In e' (entities (snd out))
      /\ n_id e' = "m1" /\ n_user_id e' = "u1" /\ n_label e' = "Organization"
      /\ n_normalized_value e' = "acme inc"
      /\ n_mention_count e' = 3
      /\ n_first_seen e' = 120 /\ n_last_seen e' = 120
      /\ n_is_user_created e' = false
      /\ n_created_at e' = 120
      /\ n_display_value e' = "ACME Inc."
      /\ n_description e' = None
      /\ n_aliases e' = ["acme"; "acme incorporated"]
      /\ n_confidence e' = f_0_8
      /\ n_sentiment_avg e' = None
      /\ n_updated_at e' = Some 400)
  /\ (forall x, In x (entities Sample.g_shared) -> n_id x <> "m1" -> In x (entities (snd out)))
  /\ meetings (snd out) = meetings Sample.g_shared
  /\ mentions (snd out) = mentions Sample.g_shared
  /\ rels (snd out) = rels Sample.g_shared
  /\ ids_unique (snd out)
  /\ (key_unique Sample.g_shared -> key_unique (snd out)).
Proof.
  apply (update_entity_updates 400 Sample.updates_display Sample.g_shared
           (Sample.node "Organization" "m1" "acme inc" [] 3 120)).
  - exact g_shared_ids_unique.
  - cbn. right. left. reflexivity.
  - cbn. discriminate.
Defined.

(** A dictionary that names only fields the method does not accept: the
    entity exists, and the answer is still [None]. *)
Example update_entity_ignored_keys :
  update_entity 400 "m1" "u1" Sample.updates_ignored Sample.g_shared = (None, Sample.g_shared).
Proof. reflexivity. Qed.

(** ** ORDER BY, SKIP and LIMIT *)

Lemma insert_desc_perm {A} (key : A -> Z) (x : A) (l : list A) :
  Permutation (insert_desc key x l) (x :: l).
Proof.
  induction l as [|y r IH]; cbn [insert_desc]; [apply Permutation_refl|].
  destruct (key y <=? key x); [apply Permutation_refl|].
  eapply Permutation_trans; [apply perm_skip; exact IH|apply perm_swap].
Qed.

Lemma order_by_desc_perm {A} (key : A -> Z) (l : list A) :
  Permutation (order_by_desc key l) l.
Proof.
  induction l as [|x l IH]; [apply Permutation_refl|].
  cbn [order_by_desc fold_right].
  eapply Permutation_trans; [apply insert_desc_perm|apply perm_skip; exact IH].
Qed.

Lemma insert_desc_descending {A} (key : A -> Z) (x : A) (l : list A) :
  descending key l -> descending key (insert_desc key x l).
Proof.
  unfold descending. induction l as [|y r IH]; intros Hs; cbn [insert_desc].
  - constructor; constructor.
  - inversion Hs as [|? ? Hr Hy]; subst.
    destruct (key y <=? key x) eqn:E.
    + constructor; [exact Hs|]. constructor; [lia|].
      rewrite Forall_forall in *. intros z Hz. specialize (Hy z Hz). lia.
    + constructor; [apply IH; exact Hr|].
      rewrite Forall_forall in *. intros z Hz.
      apply (Permutation_in _ (insert_desc_perm key x r)) in Hz.
      destruct Hz as [<-|Hz]; [lia|apply Hy; exact Hz].
Qed.

Lemma order_by_desc_descending {A} (key : A -> Z) (l : list A) :
  descending key (order_by_desc key l).
Proof.
  induction l as [|x l IH]; [constructor|].
  cbn [order_by_desc fold_right]. apply insert_desc_descending. exact IH.
Qed.

Lemma in_firstn {A} (n : nat) (l : list A) (x : A) : In x (firstn n l) -> In x l.
Proof.
  revert l. induction n as [|n IH]; intros l H; [contradiction|].
  destruct l as [|y l]; [contradiction|]. cbn [firstn] in H.
  destruct H as [->|H]; [left; reflexivity|right; apply IH; exact H].
Qed.

Lemma in_skipn {A} (n : nat) (l : list A) (x : A) : In x (skipn n l) -> In x l.
Proof.
  revert l. induction n as [|n IH]; intros l H; [exact H|].
  destruct l as [|y l]; [contradiction|]. right. apply IH. exact H.
Qed.

Lemma firstn_add {A} (a b : nat) (l : list A) :
  firstn (a + b) l = firstn a l ++ firstn b (skipn a l).
Proof.
  revert l. induction a as [|a IH]; intros l; [reflexivity|].
  destruct l as [|x l]; [cbn; destruct b; reflexivity|].
  cbn [Nat.add firstn skipn app]. f_equal. apply IH.
Qed.

Lemma descending_skipn {A} (key : A -> Z) (n : nat) (l : list A) :
  descending key l -> descending key (skipn n l).
Proof.
  unfold descending. revert l. induction n as [|n IH]; intros l Hs; [exact Hs|].
  destruct l as [|x l]; [constructor|]. cbn [skipn]. apply IH.
  inversion Hs; assumption.
Qed.

Lemma descending_firstn {A} (key : A -> Z) (n : nat) (l : list A) :
  descending key l -> descending key (firstn n l).
Proof.
  unfold descending. revert l. induction n as [|n IH]; intros l Hs; [constructor|].
  destruct l as [|x l]; [constructor|]. cbn [firstn].
  inversion Hs as [|? ? Hr Hx]; subst. constructor; [apply IH; exact Hr|].
  rewrite Forall_forall in *. intros z Hz. apply Hx. apply (in_firstn _ _ _ Hz).
Qed.

Lemma descending_filter {A} (key : A -> Z) (P : A -> bool) (l : list A) :
  descending key l -> descending key (filter P l).
Proof.
  unfold descending. induction l as [|x l IH]; intros Hs; [constructor|].
  inversion Hs as [|? ? Hr Hx]; subst. cbn [filter].
  destruct (P x); [|apply IH; exact Hr].
  constructor; [apply IH; exact Hr|].
  rewrite Forall_forall in *. intros z Hz. apply Hx. apply filter_In in Hz. apply Hz.
Qed.

Lemma skip_limit_some {A} (offset limit : Z) (l : list A) :
  0 <= offset -> 0 <= limit ->
  skip_limit offset limit l = Some (firstn (Z.to_nat limit) (skipn (Z.to_nat offset) l)).
Proof.
  intros Ho Hl. unfold skip_limit.
  replace (offset <? 0) with false by (symmetry; lia).
  replace (limit <? 0) with false by (symmetry; lia). reflexivity.
Qed.

Lemma skip_limit_in {A} (offset limit : Z) (l rows : list A) :
  skip_limit offset limit l = Some rows ->
  (forall x, In x rows -> In x l)
  /\ Z.of_nat (List.length rows) <= limit
  /\ 0 <= offset /\ 0 <= limit
  /\ rows = firstn (Z.to_nat limit) (skipn (Z.to_nat offset) l).
Proof.
  unfold skip_limit. destruct (offset <? 0) eqn:Eo; [discriminate|].
  destruct (limit <? 0) eqn:El; [discriminate|]. cbn [orb].
  intros H. inversion H; subst. split; [|split; [|repeat split; try lia]].
  - intros x Hx. apply in_firstn in Hx. apply (in_skipn _ _ _ Hx).
  - pose proof (firstn_le_length (Z.to_nat limit) (skipn (Z.to_nat offset) l)). lia.
Qed.

(** ** list_entities_by_type *)

(** X12.  For a non-negative offset and limit, [list_entities_by_type] returns
    at most [limit] rows, in descending order of [mention_count]; every row
    is an entity of the store with the given owner and the label of the
    given type, paired with the number of distinct meetings that mention it.
    With offset 0 and a limit that covers them, every such entity is listed
    exactly once.  A negative offset or limit is rejected. *)
Theorem list_entities_by_type_rows
  (user_id : string) (entity_type : EntityType) (limit offset : Z) (g : Graph) :
  0 <= offset -> 0 <= limit ->
  let matching :=
    filter (fun e => String.eqb (n_label e) (capitalize (EntityType_value entity_type))
                     && String.eqb (n_user_id e) user_id) (entities g) in
  exists rows,
    list_entities_by_type user_id entity_type limit offset g = Some rows
    /\ Z.of_nat (List.length rows) <= limit
    /\ descending (fun r => n_mention_count (fst r)) rows
    /\ (forall e c, In (e, c) rows ->
          In e (entities g)
          /\ n_label e = capitalize (EntityType_value entity_type)
          /\ n_user_id e = user_id
          /\ c = Z.of_nat (List.length (nodup string_dec (mentioned_meetings g (n_id e)))))
    /\ (offset = 0 -> Z.of_nat (List.length matching) <= limit ->
        Permutation (map fst rows) matching)
    /\ (forall l o, l < 0 \/ o < 0 ->
                    list_entities_by_type user_id entity_type l o g = None).
Proof.
  intros Ho Hl matching.
  unfold list_entities_by_type. fold matching.
  set (sorted := order_by_desc (fun r : EntityNode * Z => n_mention_count (fst r))
                   (map (with_meeting_count g) matching)).
  rewrite (skip_limit_some offset limit sorted Ho Hl).
  exists (firstn (Z.to_nat limit) (skipn (Z.to_nat offset) sorted)).
  split; [reflexivity|]. split.
  { pose proof (firstn_le_length (Z.to_nat limit) (skipn (Z.to_nat offset) sorted)). lia. }
  split.
  { apply descending_firstn, descending_skipn. apply order_by_desc_descending. }
  split.
  { intros e c Hin. apply in_firstn, in_skipn in Hin.
    apply (Permutation_in _ (order_by_desc_perm _ _)) in Hin.
    apply in_map_iff in Hin. destruct Hin as [x [E Hx]].
    unfold with_meeting_count in E. inversion E; subst.
    apply filter_In in Hx. destruct Hx as [Hx Hk].
    apply andb_true_iff in Hk. destruct Hk as [H1 H2].
    apply String.eqb_eq in H1. apply String.eqb_eq in H2. repeat split; auto. }
  split.
  { intros -> Hcover. cbn [Z.to_nat skipn]. unfold sorted.
    rewrite firstn_all2.
    - eapply Permutation_trans; [apply Permutation_map; apply order_by_desc_perm|].
      rewrite map_map. cbn [with_meeting_count fst]. rewrite map_id. apply Permutation_refl.
    - rewrite (Permutation_length (order_by_desc_perm _ _)), length_map. lia. }
  intros l o Hneg. unfold skip_limit.
  replace ((o <? 0) || (l <? 0)) with true; [reflexivity|].
  symmetry. apply orb_true_iff. destruct Hneg; [right|left]; lia.
Qed.

(** X13.  Pages fit together: the page of [l1] rows at [offset] followed by
    the page of [l2] rows at [offset + l1] is the page of [l1 + l2] rows at
    [offset].  Cypher leaves the order of entities with equal
    [mention_count] open, so this is stated for stores in which the listed
    entities have distinct counts. *)
Theorem list_entities_by_type_pages
  (user_id : string) (entity_type : EntityType) (offset l1 l2 : Z) (g : Graph) :
  0 <= offset -> 0 <= l1 -> 0 <= l2 ->
  NoDup (map n_mention_count
           (filter (fun e => String.eqb (n_label e) (capitalize (EntityType_value entity_type))
                             && String.eqb (n_user_id e) user_id) (entities g))) ->
  exists p1 p2,
    list_entities_by_type user_id entity_type l1 offset g = Some p1
    /\ list_entities_by_type user_id entity_type l2 (offset + l1) g = Some p2
    /\ list_entities_by_type user_id entity_type (l1 + l2) offset g = Some (p1 ++ p2).
Proof.
  intros Ho H1 H2 _. unfold list_entities_by_type.
  set (sorted := order_by_desc _ _).
  rewrite !skip_limit_some by lia.
  eexists. eexists. split; [reflexivity|]. split; [reflexivity|]. f_equal.
  rewrite !Z2Nat.inj_add by lia.
  rewrite firstn_add. f_equal.
  rewrite (Nat.add_comm (Z.to_nat offset)), <- skipn_skipn. reflexivity.
Qed.

(** ** list_all_entities *)

Lemma group_get_append {V} (k k' : string) (v : V) (grouped : list (string * list V)) :
  group_get k' (group_append k v grouped)
  = if String.eqb k k' then group_get k grouped ++ [v] else group_get k' grouped.
Proof.
  induction grouped as [|[k0 vs] r IH]; cbn [group_append group_get].
  - destruct (String.eqb k k'); reflexivity.
  - destruct (String.eqb k0 k) eqn:E0; cbn [group_get].
    + apply String.eqb_eq in E0. subst k0.
      destruct (String.eqb k k'); reflexivity.
    + rewrite IH. destruct (String.eqb k0 k') eqn:E1; [|reflexivity].
      apply String.eqb_eq in E1. subst k0. rewrite String.eqb_sym, E0. reflexivity.
Qed.

Lemma group_append_keys {V} (k : string) (v : V) (grouped : list (string * list V)) :
  NoDup (map fst grouped) ->
  NoDup (map fst (group_append k v grouped))
  /\ (forall x, In x (map fst (group_append k v grouped)) <-> x = k \/ In x (map fst grouped)).
Proof.
  induction grouped as [|[k0 vs] r IH]; intros Hnd; cbn [group_append map fst].
  - split; [constructor; [intros []|constructor]|]. intros x. cbn. intuition.
  - inversion Hnd as [|? ? Hn Hd]; subst.
    destruct (String.eqb k0 k) eqn:E0; cbn [map fst].
    + split; [exact Hnd|]. apply String.eqb_eq in E0. subst k0. intros x. cbn. intuition.
    + destruct (IH Hd) as [IH1 IH2]. split.
      * constructor; [|exact IH1]. intros Hin. apply IH2 in Hin.
        destruct Hin as [->|Hin]; [rewrite String.eqb_refl in E0; discriminate|auto].
      * intros x. cbn. rewrite IH2. intuition.
Qed.

Lemma group_append_nonempty {V} (k : string) (v : V) (grouped : list (string * list V)) :
  (forall k' vs, In (k', vs) grouped -> vs <> []) ->
  forall k' vs, In (k', vs) (group_append k v grouped) -> vs <> [].
Proof.
  induction grouped as [|[k0 vs0] r IH]; intros Hne k' vs; cbn [group_append].
  - intros [E|[]]. inversion E. discriminate.
  - destruct (String.eqb k0 k).
    + intros [E|Hin].
      * inversion E. intros Happ. apply app_eq_nil in Happ. destruct Happ; discriminate.
      * apply (Hne k' vs). right. exact Hin.
    + intros [E|Hin].
      * apply (Hne k' vs). left. exact E.
      * apply (IH (fun a b H => Hne a b (or_intror H)) k' vs Hin).
Qed.

Lemma group_get_in {V} (k : string) (vs : list V) (grouped : list (string * list V)) :
  NoDup (map fst grouped) -> In (k, vs) grouped -> group_get k grouped = vs.
Proof.
  induction grouped as [|[k0 vs0] r IH]; intros Hnd Hin; [contradiction|].
  inversion Hnd as [|? ? Hn Hd]; subst. cbn [group_get].
  destruct Hin as [E|Hin].
  - inversion E; subst. rewrite String.eqb_refl. reflexivity.
  - destruct (String.eqb k0 k) eqn:E0; [|apply IH; assumption].
    apply String.eqb_eq in E0. subst k0. exfalso. apply Hn.
    apply (in_map fst) in Hin. exact Hin.
Qed.

Lemma in_group_get {V} (k : string) (grouped : list (string * list V)) :
  In k (map fst grouped) -> In (k, group_get k grouped) grouped.
Proof.
  induction grouped as [|[k0 vs0] r IH]; intros Hin; [contradiction|].
  cbn [group_get]. destruct (String.eqb k0 k) eqn:E0.
  - apply String.eqb_eq in E0. subst k0. left. reflexivity.
  - right. apply IH. destruct Hin as [E|Hin]; [|exact Hin].
    cbn in E. subst k0. rewrite String.eqb_refl in E0. discriminate.
Qed.

Section Grouping.

Variable str_lower : string -> string.

Lemma group_rows_spec (rows : list (EntityNode * Z)) :
  forall acc : list (string * list (EntityNode * Z)),
    NoDup (map fst acc) ->
    (forall k vs, In (k, vs) acc -> vs <> []) ->
    let grouped :=
      fold_left (fun grouped r => group_append (type_key str_lower (fst r)) r grouped)
        rows acc in
    NoDup (map fst grouped)
    /\ (forall k vs, In (k, vs) grouped -> vs <> [])
    /\ (forall k, group_get k grouped
                   = group_get k acc
                     ++ filter (fun r => String.eqb (type_key str_lower (fst r)) k) rows)
    /\ (forall k, In k (map fst grouped)
                   <-> In k (map fst acc) \/ In k (map (fun r => type_key str_lower (fst r)) rows)).
Proof.
  induction rows as [|r rows IH]; intros acc Hnd Hne; cbn [fold_left].
  - split; [exact Hnd|]. split; [exact Hne|]. split.
    + intros k. rewrite app_nil_r. reflexivity.
    + intros k. cbn. intuition.
  - destruct (group_append_keys (type_key str_lower (fst r)) r acc Hnd) as [Hnd' Hkeys].
    pose proof (group_append_nonempty (type_key str_lower (fst r)) r acc Hne) as Hne'.
    destruct (IH _ Hnd' Hne') as (H1 & H2 & H3 & H4).
    split; [exact H1|]. split; [exact H2|]. split.
    + intros k. rewrite H3, group_get_append. cbn [filter].
      destruct (String.eqb (type_key str_lower (fst r)) k) eqn:Ek.
      * apply String.eqb_eq in Ek. rewrite Ek, <- app_assoc. reflexivity.
      * reflexivity.
    + intros k. rewrite H4, Hkeys. cbn [map In]. intuition (subst; auto).
Qed.

(** X14.  What [list_all_entities] returns is the page of rows cut into
    groups: the keys of the groups are distinct, the group under a key holds
    exactly the rows of the page whose lower-cased type label is that key, in
    the order of the page (so each group is itself in descending order of
    [mention_count]), no group is empty, and every row of the page is in the
    group of its type. *)
Theorem list_all_entities_groups
  (user_id : string) (limit offset : Z) (g : Graph)
  (grouped : list (string * list (EntityNode * Z))) :
  list_all_entities str_lower user_id limit offset g = Some grouped ->
  exists page,
    skip_limit offset limit
      (order_by_desc (fun r => n_mention_count (fst r))
         (map (with_meeting_count g)
            (filter (fun e => String.eqb (n_user_id e) user_id) (entities g)))) = Some page
    /\ Z.of_nat (List.length page) <= limit
    /\ (forall e c, In (e, c) page -> In e (entities g) /\ n_user_id e = user_id)
    /\ NoDup (map fst grouped)
    /\ (forall k vs, In (k, vs) grouped ->
          vs <> []
          /\ vs = filter (fun r => String.eqb (type_key str_lower (fst r)) k) page
          /\ descending (fun r => n_mention_count (fst r)) vs)
    /\ (forall r, In r page ->
          exists vs, In (type_key str_lower (fst r), vs) grouped /\ In r vs).
Proof.
  unfold list_all_entities. intros H.
  destruct (skip_limit offset limit _) as [page|] eqn:Ep; [|discriminate].
  inversion H as [Hg]. clear H. exists page.
  destruct (skip_limit_in _ _ _ _ Ep) as (Hin & Hlen & Ho & Hl & Hpage).
  destruct (group_rows_spec page [] (NoDup_nil _) (fun k vs (F : In (k, vs) []) => match F with end))
    as (H1 & H2 & H3 & H4).
  fold (group_rows str_lower page) in H1, H2, H3, H4.
  split; [reflexivity|]. split; [exact Hlen|]. split.
  { intros e c Hx. apply Hin in Hx.
    apply (Permutation_in _ (order_by_desc_perm _ _)) in Hx.
    apply in_map_iff in Hx. destruct Hx as [x [E Hx]]. inversion E; subst.
    apply filter_In in Hx. destruct Hx as [Hx Hu]. apply String.eqb_eq in Hu. auto. }
  split; [exact H1|]. split.
  { intros k vs Hk. split; [apply (H2 k vs Hk)|].
    assert (Ev : vs = filter (fun r => String.eqb (type_key str_lower (fst r)) k) page).
    { rewrite <- (group_get_in k vs _ H1 Hk). rewrite H3. reflexivity. }
    split; [exact Ev|]. rewrite Ev. apply descending_filter. rewrite Hpage.
    apply descending_firstn, descending_skipn, order_by_desc_descending. }
  intros r Hr. exists (group_get (type_key str_lower (fst r)) (group_rows str_lower page)).
  split.
  - apply in_group_get. apply H4. right.
    apply (in_map (fun r => type_key str_lower (fst r))). exact Hr.
  - rewrite H3. cbn [group_get app]. apply filter_In. split; [exact Hr|].
    apply String.eqb_refl.
Qed.

End Grouping.

(** ** get_entity *)

Lemma optional_not_nil {A} (l : list A) : optional l <> [].
Proof. destruct l; cbn; discriminate. Qed.

Lemma nodup_not_nil {A} (dec : forall a b : A, {a = b} + {a <> b}) (l : list A) :
  l <> [] -> nodup dec l <> [].
Proof.
  destruct l as [|x l]; [congruence|]. intros _ H.
  assert (Hin : In x (nodup dec (x :: l))) by (apply nodup_In; left; reflexivity).
  rewrite H in Hin. contradiction.
Qed.

(** X15.  [get_entity] returns [None] exactly when no entity has the id under
    the owner.  Otherwise it returns an entity of the store, and neither list
    of the answer is empty: an entity without mentions has the single entry
    of nulls in [mentions], and likewise in [relationships].  Each list holds
    no entry twice; every entry of [mentions] is a mention of the entity with
    its meeting, and every entry of [relationships] is a relationship that
    starts at the entity and is not of type MENTIONED_IN, with the entity at
    its other end. *)
Theorem get_entity_details (entity_id user_id : string) (g : Graph) :
  (get_entity entity_id user_id g = None
   <-> filter (has_id_owner entity_id user_id) (entities g) = [])
  /\ forall d,
       get_entity entity_id user_id g = Some d ->
       In (d_entity d) (entities g)
       /\ n_id (d_entity d) = entity_id /\ n_user_id (d_entity d) = user_id
       /\ d_mentions d <> [] /\ d_relationships d <> []
       /\ NoDup (d_mentions d) /\ NoDup (d_relationships d)
       /\ (filter (mention_from entity_id) (mentions g) = [] -> d_mentions d = [None])
       /\ (filter (fun r => String.eqb (rel_from r) entity_id) (rels g) = [] ->
           d_relationships d = [None])
       /\ (forall m r, In (Some (m, r)) (d_mentions d) ->
             In r (mentions g) /\ r_entity r = entity_id
             /\ In m (meetings g) /\ m_id m = r_meeting r)
       /\ (forall t ty props, In (Some (t, ty, props)) (d_relationships d) ->
             ty <> "MENTIONED_IN"
             /\ In t (entities g)
             /\ exists r, In r (rels g) /\ rel_from r = entity_id /\ rel_to r = n_id t
                          /\ rel_type r = ty /\ rel_props r = props).
Proof.
  unfold get_entity. split.
  { destruct (filter (has_id_owner entity_id user_id) (entities g)); cbn; split;
      congruence. }
  intros d Hd.
  destruct (filter (has_id_owner entity_id user_id) (entities g)) as [|e l] eqn:F;
    [discriminate|].
  cbn [map hd_error] in Hd. inversion Hd as [Ed]. clear Hd. cbn [d_entity d_mentions d_relationships].
  assert (He : In e (entities g) /\ has_id_owner entity_id user_id e = true).
  { apply filter_In. rewrite F. left. reflexivity. }
  destruct He as [He Hhit]. unfold has_id_owner in Hhit.
  apply andb_true_iff in Hhit. destruct Hhit as [Hid Hu].
  apply String.eqb_eq in Hid. apply String.eqb_eq in Hu.
  split; [exact He|]. split; [exact Hid|]. split; [exact Hu|].
  split; [apply nodup_not_nil, optional_not_nil|].
  split; [apply nodup_not_nil, optional_not_nil|].
  split; [apply NoDup_nodup|]. split; [apply NoDup_nodup|].
  split.
  { intros Hnone. unfold mentions_of. rewrite Hid, Hnone. reflexivity. }
  split.
  { intros Hnone. unfold related_of. rewrite Hid.
    replace (filter (fun r => String.eqb (rel_from r) entity_id
                              && negb (String.eqb (rel_type r) "MENTIONED_IN")) (rels g))
      with (@nil RelEdge); [reflexivity|].
    symmetry. apply filter_nil_iff. intros r Hr.
    rewrite (proj1 (filter_nil_iff _ _) Hnone r Hr). reflexivity. }
  split.
  { intros m r Hin. apply nodup_In in Hin.
    assert (Hin' : In (m, r) (mentions_of g e)).
    { unfold optional in Hin. destruct (mentions_of g e) as [|x0 l0] eqn:Em.
      - destruct Hin as [E|[]]; discriminate.
      - apply in_map_iff in Hin. destruct Hin as [x [E Hx]]. inversion E; subst. exact Hx. }
    unfold mentions_of in Hin'. apply in_flat_map in Hin'.
    destruct Hin' as [r0 [Hr0 Hm]]. apply in_map_iff in Hm. destruct Hm as [m0 [E Hm0]].
    inversion E; subst. apply filter_In in Hr0. destruct Hr0 as [Hr0 Hfrom].
    apply filter_In in Hm0. destruct Hm0 as [Hm0 Hmid].
    unfold mention_from in Hfrom. apply String.eqb_eq in Hfrom.
    unfold meeting_has_id in Hmid. apply String.eqb_eq in Hmid. auto. }
  intros t ty props Hin. apply nodup_In in Hin.
  assert (Hin' : In (t, ty, props) (related_of g e)).
  { unfold optional in Hin. destruct (related_of g e) as [|x0 l0] eqn:Em.
    - destruct Hin as [E|[]]; discriminate.
    - apply in_map_iff in Hin. destruct Hin as [x [E Hx]]. inversion E; subst. exact Hx. }
  unfold related_of in Hin'. apply in_flat_map in Hin'.
  destruct Hin' as [r0 [Hr0 Ht]]. apply in_map_iff in Ht. destruct Ht as [t0 [E Ht0]].
  inversion E; subst. apply filter_In in Hr0. destruct Hr0 as [Hr0 Hc].
  apply andb_true_iff in Hc. destruct Hc as [Hfrom Hty].
  apply String.eqb_eq in Hfrom. apply negb_true_iff, String.eqb_neq in Hty.
  apply filter_In in Ht0. destruct Ht0 as [Ht0 Hto]. unfold has_id in Hto.
  apply String.eqb_eq in Hto.
  split; [exact Hty|]. split; [exact Ht0|]. exists r0. repeat split; auto.
Qed.

Lemma list_entities_by_type_rows_witness :
  let matching :=
    filter (fun e => String.eqb (n_label e) "Person" && String.eqb (n_user_id e) "u1")
      (entities Sample.g_people) in
  exists rows,
    list_entities_by_type "u1" PERSON 10 0 Sample.g_people = Some rows
    /\ Z.of_nat (List.length rows) <= 10
    /\ descending (fun r => n_mention_count (fst r)) rows
    /\ (forall e c, In (e, c) rows ->
          In e (entities Sample.g_people)
          /\ n_label e = "Person"
          /\ n_user_id e = "u1"
          /\ c = Z.of_nat (List.length (nodup string_dec
                                          (mentioned_meetings Sample.g_people (n_id e)))))
    /\ (0 = 0 -> Z.of_nat (List.length matching) <= 10 ->
        Permutation (map fst rows) matching)
    /\ (forall l o, l < 0 \/ o < 0 ->
                    list_entities_by_type "u1" PERSON l o Sample.g_people = None).
Proof.
  apply (list_entities_by_type_rows "u1" PERSON 10 0 Sample.g_people); lia.
Defined.

(** The two people of the sample, the one with more mentions first, each
    with the three meetings that mention it. *)
Example list_entities_by_type_people :
  option_map (map (fun r => (n_id (fst r), n_mention_count (fst r), snd r)))
    (list_entities_by_type "u1" PERSON 10 0 Sample.g_people)
  = Some [("p1", 4, 3); ("p2", 3, 3)].
Proof. vm_compute. reflexivity. Qed.

Lemma list_entities_by_type_pages_witness :
  exists p1 p2,
    list_entities_by_type "u1" PERSON 1 0 Sample.g_people = Some p1
    /\ list_entities_by_type "u1" PERSON 1 (0 + 1) Sample.g_people = Some p2
    /\ list_entities_by_type "u1" PERSON (1 + 1) 0 Sample.g_people = Some (p1 ++ p2).
Proof.
  apply (list_entities_by_type_pages "u1" PERSON 0 1 1 Sample.g_people); try lia.
  vm_compute. repeat (apply NoDup_cons; [vm_compute; intuition congruence|]). apply NoDup_nil.
Defined.

Lemma list_all_entities_groups_witness :
  exists grouped,
    list_all_entities lower_ascii "u1" 10 0 Sample.g_people = Some grouped
    /\ exists page,
      skip_limit 0 10
        (order_by_desc (fun r => n_mention_count (fst r))
           (map (with_meeting_count Sample.g_people)
              (filter (fun e => String.eqb (n_user_id e) "u1") (entities Sample.g_people))))
      = Some page
      /\ Z.of_nat (List.length page) <= 10
      /\ (forall e c, In (e, c) page -> In e (entities Sample.g_people) /\ n_user_id e = "u1")
      /\ NoDup (map fst grouped)
      /\ (forall k vs, In (k, vs) grouped ->
            vs <> []
            /\ vs = filter (fun r => String.eqb (type_key lower_ascii (fst r)) k) page
            /\ descending (fun r => n_mention_count (fst r)) vs)
      /\ (forall r, In r page ->
            exists vs, In (type_key lower_ascii (fst r), vs) grouped /\ In r vs).
Proof.
  exists (group_rows lower_ascii
            (order_by_desc (fun r => n_mention_count (fst r))
               (map (with_meeting_count Sample.g_people)
                  (filter (fun e => String.eqb (n_user_id e) "u1")
                     (entities Sample.g_people))))).
  split; [reflexivity|].
  apply (list_all_entities_groups lower_ascii "u1" 10 0 Sample.g_people). reflexivity.
Defined.

(** People first (they have the larger counts), then the organization. *)
Example list_all_entities_people :
  option_map (map (fun kv => (fst kv, map (fun r => n_id (fst r)) (snd kv))))
    (list_all_entities lower_ascii "u1" 10 0 Sample.g_people)
  = Some [("person", ["p1"; "p2"]); ("organization", ["o1"])].
Proof. vm_compute. reflexivity. Qed.

(** The organization of [g_people] has no mention and no relationship: each
    list of the answer holds the one entry of nulls. *)
Example get_entity_without_mentions :
  option_map (fun d => (n_id (d_entity d), d_mentions d, d_relationships d))
    (get_entity "o1" "u1" Sample.g_people)
  = Some ("o1", [None], [None]).
Proof. vm_compute. reflexivity. Qed.

(* ------------------------------------------------------------------ *)
(** ** delete_relationship *)

Lemma rel_between_true (a b ty : string) (r : RelEdge) :
  rel_between a b ty r = true <-> rel_from r = a /\ rel_to r = b /\ rel_type r = ty.
Proof.
  unfold rel_between. rewrite !andb_true_iff, !String.eqb_eq. tauto.
Qed.

Lemma set_rels_same (g : Graph) : set_rels g (rels g) = g.
Proof. destruct g; reflexivity. Qed.

Lemma filter_all_true {A} (P : A -> bool) (l : list A) :
  (forall x, In x l -> P x = true) -> filter P l = l.
Proof.
  induction l as [|a l IH]; intros H; [reflexivity|]. cbn [filter].
  rewrite (H a (or_introl eq_refl)). f_equal. apply IH. intros x Hx. apply H. right. exact Hx.
Qed.

(** Deleting the rows of the query one after the other: the first takes
    every relationship of the triple with it. *)
Lemma fold_delete_rels (f t ty : string) (rows : list RelEdge) (g : Graph) :
  (forall r, In r rows -> rel_between f t ty r = true) ->
  fold_left (fun g' r =>
               set_rels g' (filter (fun x => negb (rel_between (rel_from r) (rel_to r)
                                                     (rel_type r) x)) (rels g')))
    rows g
  = match rows with
    | [] => g
    | _ :: _ => set_rels g (filter (fun x => negb (rel_between f t ty x)) (rels g))
    end.
Proof.
  revert g. induction rows as [|r rows IH]; intros g H; [reflexivity|].
  cbn [fold_left]. rewrite IH by (intros x Hx; apply H; right; exact Hx).
  destruct (proj1 (rel_between_true f t ty r) (H r (or_introl eq_refl))) as (-> & -> & ->).
  destruct rows as [|r' rows]; [reflexivity|].
  unfold set_rels; cbn [entities meetings mentions rels]. f_equal.
  apply filter_all_true. intros x Hx. apply filter_In in Hx. apply Hx.
Qed.

Lemma delete_relationship_rows (f t ty u : string) (g : Graph) (r : RelEdge) :
  In r (flat_map (fun ft => filter (rel_between (n_id (fst ft)) (n_id (snd ft)) ty) (rels g))
          (list_prod (filter (has_id_owner f u) (entities g))
             (filter (has_id t) (entities g))))
  <-> (exists e, In e (entities g) /\ n_id e = f /\ n_user_id e = u)
      /\ (exists e, In e (entities g) /\ n_id e = t)
      /\ In r (rels g) /\ rel_between f t ty r = true.
Proof.
  rewrite in_flat_map. split.
  - intros [[a b] [Hp Hr]]. apply in_prod_iff in Hp. destruct Hp as [Ha Hb].
    apply filter_In in Ha. destruct Ha as [Ha Ea]. apply filter_In in Hb. destruct Hb as [Hb Eb].
    unfold has_id_owner in Ea. apply andb_true_iff in Ea. destruct Ea as [Ea Eu].
    apply String.eqb_eq in Ea. apply String.eqb_eq in Eu. apply String.eqb_eq in Eb.
    apply filter_In in Hr. cbn [fst snd] in Hr. rewrite Ea, Eb in Hr. destruct Hr as [Hr Hb'].
    split; [exists a; auto|]. split; [exists b; auto|]. auto.
  - intros ([a (Ha & Ea & Eu)] & [b (Hb & Eb)] & Hr & Hb').
    exists (a, b). split.
    + apply in_prod_iff. split; apply filter_In; split; auto.
      * unfold has_id_owner. rewrite Ea, Eu, !String.eqb_refl. reflexivity.
      * unfold has_id. rewrite Eb. apply String.eqb_refl.
    + apply filter_In. cbn [fst snd]. rewrite Ea, Eb. auto.
Qed.

(** The effect of [delete_relationship] when both end points are found. *)
Lemma delete_relationship_effect
  (g : Graph) (from to : EntityNode) (relationship_type : string) :
  In from (entities g) -> In to (entities g) ->
  let out := delete_relationship (n_id from) (n_id to) relationship_type (n_user_id from) g in
  fst out = existsb (rel_between (n_id from) (n_id to) relationship_type) (rels g)
  /\ rels (snd out)
     = filter (fun r => negb (rel_between (n_id from) (n_id to) relationship_type r)) (rels g)
  /\ entities (snd out) = entities g
  /\ meetings (snd out) = meetings g
  /\ mentions (snd out) = mentions g.
Proof.
  intros Hf Ht. unfold delete_relationship, exec_delete_relationship.
  set (rows := flat_map _ _).
  assert (Hrows : forall r, In r rows <->
                            In r (rels g)
                            /\ rel_between (n_id from) (n_id to) relationship_type r = true).
  { intros r. unfold rows. rewrite delete_relationship_rows. split; [tauto|].
    intros [H1 H2]. split; [exists from; auto|]. split; [exists to; auto|]. auto. }
  cbn [hd_error fst snd].
  rewrite (fold_delete_rels (n_id from) (n_id to) relationship_type rows g)
    by (intros r Hr; apply Hrows; exact Hr).
  split.
  - destruct (existsb _ (rels g)) eqn:Ex.
    + apply existsb_exists in Ex. destruct Ex as [r Hr]. apply Hrows in Hr.
      destruct rows; [contradiction|]. cbn [List.length]. apply Z.ltb_lt. lia.
    + destruct rows as [|r rows']; [reflexivity|]. exfalso.
      assert (X : existsb (rel_between (n_id from) (n_id to) relationship_type) (rels g)
                  = true).
      { apply existsb_exists. exists r. apply Hrows. left. reflexivity. }
      congruence.
  - destruct rows as [|r rows'] eqn:Er.
    + repeat split. symmetry. apply filter_all_true. intros x Hx.
      destruct (rel_between _ _ _ x) eqn:Eb; [|reflexivity].
      exfalso. apply (proj2 (Hrows x)). split; assumption.
    + repeat split.
Qed.

(** X16.  [delete_relationship], when the start node with this owner and the
    end node exist: every relationship of the given type from the one to the
    other goes, parallel ones included; all other relationships stay, in their
    order; nodes and mentions are untouched; and the answer tells whether
    there was one to delete.  The owner of the end node is not looked at. *)
Theorem delete_relationship_removes
  (g : Graph) (from to : EntityNode) (relationship_type : string) :
  In from (entities g) -> In to (entities g) ->
  let out := delete_relationship (n_id from) (n_id to) relationship_type (n_user_id from) g in
  fst out = existsb (rel_between (n_id from) (n_id to) relationship_type) (rels g)
  /\ rels (snd out)
     = filter (fun r => negb (rel_between (n_id from) (n_id to) relationship_type r)) (rels g)
  /\ entities (snd out) = entities g
  /\ meetings (snd out) = meetings g
  /\ mentions (snd out) = mentions g.
Proof.
  intros Hf Ht. exact (delete_relationship_effect g from to relationship_type Hf Ht).
Qed.

(** X17.  [delete_relationship] on a start node that does not exist or belongs
    to somebody else, or on an end node that does not exist, deletes nothing
    and answers [False]. *)
Theorem delete_relationship_not_found
  (from_entity_id to_entity_id relationship_type user_id : string) (g : Graph) :
  (forall e, In e (entities g) -> n_id e = from_entity_id -> n_user_id e <> user_id)
  \/ (forall e, In e (entities g) -> n_id e <> to_entity_id) ->
  delete_relationship from_entity_id to_entity_id relationship_type user_id g = (false, g).
Proof.
  intros H. unfold delete_relationship, exec_delete_relationship.
  set (rows := flat_map _ _).
  assert (E : rows = []).
  { destruct rows as [|r rows'] eqn:Er; [reflexivity|]. exfalso.
    assert (Hin : In r rows) by (rewrite Er; left; reflexivity).
    unfold rows in Hin. apply delete_relationship_rows in Hin.
    destruct Hin as ([a (Ha & Ea & Eu)] & [b (Hb & Eb)] & _).
    destruct H as [H|H]; [exact (H a Ha Ea Eu)|exact (H b Hb Eb)]. }
  rewrite E. reflexivity.
Qed.

(** X18.  Round trip: a relationship made by [create_relationship] between two
    entities that had none of this type is taken back by
    [delete_relationship], which answers [True] and leaves the graph as it
    was before the creation, with or without APOC. *)
Theorem create_then_delete_relationship
  (now : datetime) (rel : EntityRelationship) (db : Neo4j) (from to : EntityNode) :
  In from (entities (graph db)) -> n_id from = er_from_entity_id rel ->
  In to (entities (graph db)) -> n_id to = er_to_entity_id rel ->
  (forall r, In r (rels (graph db)) ->
             rel_between (n_id from) (n_id to)
               (RelationshipType_value (er_relationship_type rel)) r = false) ->
  fst (create_relationship now rel db) = Returned true
  /\ delete_relationship (er_from_entity_id rel) (er_to_entity_id rel)
       (RelationshipType_value (er_relationship_type rel)) (n_user_id from)
       (graph (snd (create_relationship now rel db)))
     = (true, graph db).
Proof.
  intros Hf Ef Ht Et Hnone.
  set (ty := RelationshipType_value (er_relationship_type rel)) in *.
  set (pairs := list_prod (filter (has_id (er_from_entity_id rel)) (entities (graph db)))
                  (filter (has_id (er_to_entity_id rel)) (entities (graph db)))).
  assert (Hpair : In (from, to) pairs).
  { apply in_prod_iff. split; apply filter_In; split; auto; unfold has_id.
    - rewrite Ef. apply String.eqb_refl.
    - rewrite Et. apply String.eqb_refl. }
  assert (Hids : forall ft, In ft pairs ->
                            n_id (fst ft) = n_id from /\ n_id (snd ft) = n_id to).
  { intros [a b] Hab. apply in_prod_iff in Hab. destruct Hab as [Ha Hb].
    apply filter_In in Ha. apply filter_In in Hb. destruct Ha as [_ Ha], Hb as [_ Hb].
    apply String.eqb_eq in Ha. apply String.eqb_eq in Hb. cbn [fst snd]. split; congruence. }
  assert (G : forall props,
             let created := map (fun ft => mkRelEdge (n_id (fst ft)) (n_id (snd ft)) ty props)
                              pairs in
             hd_error (map RRel created) <> None
             /\ delete_relationship (er_from_entity_id rel) (er_to_entity_id rel) ty
                  (n_user_id from) (set_rels (graph db) (rels (graph db) ++ created))
                = (true, graph db)).
  { intros props created. split.
    { unfold created. destruct pairs; [contradiction|]. discriminate. }
    assert (Hc : forall r, In r created -> rel_between (n_id from) (n_id to) ty r = true).
    { intros r Hr. unfold created in Hr. apply in_map_iff in Hr. destruct Hr as [ft [<- Hft]].
      destruct (Hids ft Hft) as [E1 E2]. apply rel_between_true. cbn. auto. }
    pose proof (delete_relationship_effect
                  (set_rels (graph db) (rels (graph db) ++ created)) from to ty Hf Ht) as D.
    cbn zeta in D. rewrite Ef, Et in D. destruct D as (D1 & D2 & D3 & D4 & D5).
    destruct (delete_relationship _ _ _ _ _) as [b g'] eqn:Ed. cbn [fst snd] in *.
    f_equal.
    - rewrite D1. apply existsb_exists. cbn [rels set_rels].
      exists (mkRelEdge (n_id from) (n_id to) ty props). split.
      + apply in_or_app. right. unfold created.
        apply in_map_iff. exists (from, to). split; [reflexivity|exact Hpair].
      + rewrite <- Ef, <- Et. apply rel_between_true. cbn. auto.
    - destruct g' as [es ms mn rs]. destruct (graph db) as [es0 ms0 mn0 rs0] eqn:Eg.
      cbn [entities meetings mentions rels set_rels] in *. subst es ms mn. f_equal.
      rewrite D2, filter_app. rewrite <- Ef, <- Et.
      rewrite (filter_all_true _ rs0)
        by (intros x Hx; rewrite (Hnone x Hx); reflexivity).
      rewrite (proj2 (filter_nil_iff _ created)); [apply app_nil_r|].
      intros x Hx. rewrite (Hc x Hx). reflexivity. }
  unfold create_relationship, try_except, bind.
  rewrite run_single_query_eq. cbn [exec]. unfold exec_create_relationship_apoc.
  fold ty. destruct (apoc db) eqn:Ea.
  - fold pairs. cbn [fst snd graph]. destruct (G (dict_update
                       [("confidence", VFloat (er_confidence rel));
                        ("source", VStr (er_source rel));
                        ("created_at", VStr "datetime()")]
                       (er_properties rel))) as [G1 G2].
    split; [|exact G2].
    unfold ret. cbn [fst]. destruct (hd_error _); [reflexivity|contradiction].
  - rewrite run_single_query_eq. cbn [exec graph apoc].
    unfold exec_create_relationship_fallback. fold pairs. cbn [fst snd graph].
    destruct (G [("confidence", VFloat (er_confidence rel));
                 ("source", VStr (er_source rel));
                 ("created_at", VDateTime now)]) as [G1 G2].
    split; [|exact G2].
    unfold ret. cbn [fst]. destruct (hd_error _); [reflexivity|contradiction].
Qed.

(* ------------------------------------------------------------------ *)
(** ** get_entity_relationships *)

Lemma map_flat_map {A B C} (h : B -> C) (f : A -> list B) (l : list A) :
  map h (flat_map f l) = flat_map (fun x => map h (f x)) l.
Proof.
  induction l as [|a l IH]; [reflexivity|]. cbn [flat_map]. rewrite map_app, IH. reflexivity.
Qed.

Lemma flat_map_ext_in {A B} (f h : A -> list B) (l : list A) :
  (forall x, In x l -> f x = h x) -> flat_map f l = flat_map h l.
Proof.
  induction l as [|a l IH]; intros H; [reflexivity|]. cbn [flat_map].
  rewrite (H a (or_introl eq_refl)), IH; [reflexivity|].
  intros x Hx. apply H. right. exact Hx.
Qed.

Lemma flat_map_app_perm {A B} (f h : A -> list B) (l : list A) :
  Permutation (flat_map (fun x => f x ++ h x) l) (flat_map f l ++ flat_map h l).
Proof.
  induction l as [|a l IH]; [apply Permutation_refl|]. cbn [flat_map].
  rewrite <- !app_assoc. apply Permutation_app_head.
  eapply Permutation_trans; [apply Permutation_app_head; exact IH|].
  rewrite !app_assoc. apply Permutation_app_tail. apply Permutation_app_comm.
Qed.

Lemma flat_map_filter_andb {A B} (P Q : A -> bool) (f : A -> list B) (l : list A) :
  flat_map f (filter (fun x => P x && Q x) l)
  = flat_map (fun x => if P x then f x else []) (filter Q l).
Proof.
  induction l as [|a l IH]; [reflexivity|]. cbn [filter].
  destruct (P a) eqn:Ep, (Q a) eqn:Eq; cbn [andb flat_map]; rewrite ?Ep, IH; reflexivity.
Qed.

Lemma get_entity_relationships_eq (entity_id user_id direction : string) (g : Graph) :
  get_entity_relationships entity_id user_id direction g
  = flat_map (fun e =>
                map (related_entity direction)
                  ((if String.eqb direction "outgoing" then outgoing_rows g
                    else if String.eqb direction "incoming" then incoming_rows g
                    else both_rows g) e))
      (filter (has_id_owner entity_id user_id) (entities g)).
Proof.
  unfold get_entity_relationships. rewrite <- map_flat_map. apply map_ext.
  intros [[t r] d]. reflexivity.
Qed.



Lemma both_rows_direction (g : Graph) (e : EntityNode) (t : Node) (r : RelEdge)
  (d : option string) :
  In (t, r, d) (both_rows g e) -> d = Some "outgoing" \/ d = Some "incoming".
Proof.
  unfold both_rows. intros H. apply in_flat_map in H. destruct H as [r' [_ H]].
  destruct (String.eqb (rel_from r') (n_id e)).
  - apply in_map_iff in H. destruct H as [? [E _]]. inversion E. auto.
  - destruct (String.eqb (rel_to r') (n_id e)); [|contradiction].
    apply in_map_iff in H. destruct H as [? [E _]]. inversion E. auto.
Qed.

(** X20.  The direction ["both"] of [get_entity_relationships], for an entity
    without a relationship to itself: the answer holds the entries of
    ["outgoing"] and those of ["incoming"], each with its own direction, and
    nothing else.  Any other text given as direction is answered as
    ["both"], without this condition. *)
Theorem get_entity_relationships_both (entity_id user_id : string) (g : Graph) :
  (forall r, In r (rels g) -> rel_from r = entity_id -> rel_to r <> entity_id) ->
  Permutation (get_entity_relationships entity_id user_id "both" g)
    (get_entity_relationships entity_id user_id "outgoing" g
     ++ get_entity_relationships entity_id user_id "incoming" g)
  /\ forall direction,
       direction <> "outgoing" -> direction <> "incoming" ->
       get_entity_relationships entity_id user_id direction g
       = get_entity_relationships entity_id user_id "both" g.
Proof.
  intros Hloop. split.
  - rewrite !get_entity_relationships_eq. cbn [String.eqb Ascii.eqb Bool.eqb].
    eapply Permutation_trans; [|apply flat_map_app_perm].
    assert (E : forall e, In e (filter (has_id_owner entity_id user_id) (entities g)) ->
                  Permutation (map (related_entity "both") (both_rows g e))
                    (map (related_entity "outgoing") (outgoing_rows g e)
                     ++ map (related_entity "incoming") (incoming_rows g e))).
    { intros e He. apply filter_In in He. destruct He as [_ He].
      unfold has_id_owner in He. apply andb_true_iff in He. destruct He as [Ei _].
      apply String.eqb_eq in Ei.
      unfold both_rows, outgoing_rows, incoming_rows.
      rewrite !flat_map_filter_andb, !map_flat_map.
      eapply Permutation_trans; [|apply flat_map_app_perm].
      erewrite flat_map_ext_in; [apply Permutation_refl|].
      intros r Hr. apply filter_In in Hr. destruct Hr as [Hr _].
      destruct (String.eqb (rel_from r) (n_id e)) eqn:Ef.
      - apply String.eqb_eq in Ef. rewrite Ei in Ef.
        assert (Et : String.eqb (rel_to r) (n_id e) = false).
        { apply String.eqb_neq. rewrite Ei. exact (Hloop r Hr Ef). }
        rewrite Et. cbn [map]. rewrite app_nil_r, !map_map. reflexivity.
      - destruct (String.eqb (rel_to r) (n_id e)); [|reflexivity].
        cbn [map app]. rewrite !map_map. reflexivity. }
    revert E. generalize (filter (has_id_owner entity_id user_id) (entities g)).
    intros es E. induction es as [|e es IH]; [apply Permutation_refl|].
    cbn [flat_map]. apply Permutation_app.
    + apply E. left. reflexivity.
    + apply IH. intros e' He'. apply E. right. exact He'.
  - intros direction Ho Hi. rewrite !get_entity_relationships_eq.
    apply String.eqb_neq in Ho. apply String.eqb_neq in Hi. rewrite Ho, Hi.
    cbn [String.eqb Ascii.eqb Bool.eqb].
    apply flat_map_ext. intros e. apply map_ext_in. intros [[t r] d] Hrow.
    destruct (both_rows_direction g e t r d Hrow) as [-> | ->]; reflexivity.
Qed.

(* ------------------------------------------------------------------ *)
(** ** get_co_occurrences *)

Lemma in_shared_meetings (g : Graph) (a b mid : string) :
  In mid (shared_meetings g a b)
  <-> In mid (mentioned_meetings g a) /\ In mid (mentioned_meetings g b).
Proof.
  unfold shared_meetings. rewrite nodup_In, filter_In. split.
  - intros [Ha Hb]. split; [exact Ha|]. apply existsb_exists in Hb.
    destruct Hb as [x [Hx E]]. apply String.eqb_eq in E. subst x. exact Hx.
  - intros [Ha Hb]. split; [exact Ha|]. apply existsb_exists. exists mid.
    split; [exact Hb|apply String.eqb_refl].
Qed.

Lemma shared_count_sym (g : Graph) (a b : string) :
  shared_count g a b = shared_count g b a.
Proof.
  unfold shared_count. f_equal. apply Permutation_length. apply NoDup_Permutation.
  - apply NoDup_nodup.
  - apply NoDup_nodup.
  - intros x. rewrite !in_shared_meetings. tauto.
Qed.

Lemma string_ltb_total (a b : string) :
  a <> b -> String.ltb a b = true \/ String.ltb b a = true.
Proof.
  intros Hne. unfold String.ltb. rewrite (String.compare_antisym b a).
  destruct (String.compare a b) eqn:E; cbn; auto.
  apply String.compare_eq_iff in E. contradiction.
Qed.

Lemma in_co_rows (user_id : string) (min_meetings : Z) (g : Graph) (c : CoOccurrence) :
  In c (co_rows user_id min_meetings g) <->
  In (co_entity1 c) (entities g) /\ In (co_entity2 c) (entities g)
  /\ n_user_id (co_entity1 c) = user_id
  /\ n_user_id (co_entity2 c) = user_id
  /\ String.ltb (n_id (co_entity1 c)) (n_id (co_entity2 c)) = true
  /\ co_shared_meetings c = shared_count g (n_id (co_entity1 c)) (n_id (co_entity2 c))
  /\ 1 <= co_shared_meetings c /\ min_meetings <= co_shared_meetings c
  /\ co_meeting_titles c = shared_titles g (n_id (co_entity1 c)) (n_id (co_entity2 c)).
Proof.
  unfold co_rows. rewrite in_flat_map. split.
  - intros [e1 [H1 H]]. apply filter_In in H1. destruct H1 as [H1 Eu].
    apply String.eqb_eq in Eu. apply in_flat_map in H. destruct H as [e2 [H2 H]].
    destruct (String.ltb (n_id e1) (n_id e2)) eqn:El; [|contradiction].
    destruct (String.eqb (n_user_id e1) (n_user_id e2)) eqn:Es; [|contradiction].
    apply String.eqb_eq in Es. cbn [andb] in H.
    destruct (0 <? shared_count g (n_id e1) (n_id e2)) eqn:E0; [|contradiction].
    destruct (min_meetings <=? shared_count g (n_id e1) (n_id e2)) eqn:Em; [|contradiction].
    cbn [andb] in H. destruct H as [<-|[]]. cbn.
    apply Z.ltb_lt in E0. apply Z.leb_le in Em.
    repeat split; auto; try congruence; lia.
  - intros (H1 & H2 & Eu1 & Eu2 & El & Ec & E1 & Em & Et).
    exists (co_entity1 c). split.
    + apply filter_In. split; [exact H1|]. apply String.eqb_eq. exact Eu1.
    + apply in_flat_map. exists (co_entity2 c). split; [exact H2|].
      rewrite El, Eu1, Eu2, String.eqb_refl. cbn [andb]. rewrite <- Ec.
      replace (0 <? co_shared_meetings c) with true by (symmetry; apply Z.ltb_lt; lia).
      replace (min_meetings <=? co_shared_meetings c) with true
        by (symmetry; apply Z.leb_le; lia).
      cbn [andb]. left. destruct c; cbn in *. congruence.
Qed.

Lemma firstn_all_le {A} (n : nat) (l : list A) : (List.length l <= n)%nat -> firstn n l = l.
Proof.
  revert l. induction n as [|n IH]; intros l H.
  - destruct l; [reflexivity|cbn in H; lia].
  - destruct l as [|x l]; [reflexivity|]. cbn [firstn]. f_equal. apply IH. cbn in H. lia.
Qed.

(** X21.  What [get_co_occurrences] answers for a limit that is not negative:
    at most [limit] rows, the largest numbers of shared meetings first; each
    row is a pair of entities of the user, the one with the smaller id first,
    with the number of distinct meetings that mention both, which is at
    least 1 and at least [min_meetings], and the distinct titles of these
    meetings.  A limit that covers all pairs leaves none out; a negative
    limit makes the query fail. *)
Theorem get_co_occurrences_rows (user_id : string) (min_meetings limit : Z) (g : Graph) :
  0 <= limit ->
  exists rows,
    get_co_occurrences user_id min_meetings limit g = Some rows
    /\ Z.of_nat (List.length rows) <= limit
    /\ descending co_shared_meetings rows
    /\ (forall c, In c rows ->
          In (co_entity1 c) (entities g) /\ In (co_entity2 c) (entities g)
          /\ n_user_id (co_entity1 c) = user_id
          /\ n_user_id (co_entity2 c) = user_id
          /\ String.ltb (n_id (co_entity1 c)) (n_id (co_entity2 c)) = true
          /\ co_shared_meetings c
             = shared_count g (n_id (co_entity1 c)) (n_id (co_entity2 c))
          /\ 1 <= co_shared_meetings c /\ min_meetings <= co_shared_meetings c
          /\ co_meeting_titles c
             = shared_titles g (n_id (co_entity1 c)) (n_id (co_entity2 c)))
    /\ (Z.of_nat (List.length (co_rows user_id min_meetings g)) <= limit ->
        Permutation rows (co_rows user_id min_meetings g))
    /\ (forall l, l < 0 -> get_co_occurrences user_id min_meetings l g = None).
Proof.
  intros Hl. unfold get_co_occurrences.
  rewrite (skip_limit_some 0 limit _ (Z.le_refl 0) Hl). cbn [Z.to_nat skipn].
  eexists. split; [reflexivity|].
  split; [pose proof (firstn_le_length (Z.to_nat limit)
                        (order_by_desc co_shared_meetings (co_rows user_id min_meetings g)));
          lia|].
  split; [apply descending_firstn; apply order_by_desc_descending|].
  split; [|split].
  - intros c Hc. apply in_firstn in Hc.
    apply (Permutation_in _ (order_by_desc_perm _ _)) in Hc.
    apply in_co_rows in Hc. exact Hc.
  - intros Hcov. rewrite firstn_all_le; [apply order_by_desc_perm|].
    rewrite (Permutation_length (order_by_desc_perm _ _)). lia.
  - intros l Hneg. unfold skip_limit.
    replace (l <? 0) with true by (symmetry; apply Z.ltb_lt; exact Hneg). reflexivity.
Qed.

(** X22.  The number of shared meetings of two entities does not depend on
    which of the two is named first, and [get_co_occurrences] reports a pair
    once: of two entities of the user with different ids that share enough
    meetings, the answer (with a limit that covers all pairs) holds the row
    that has the smaller id first, and not the row with the two
    exchanged. *)
Theorem get_co_occurrences_pair_once
  (user_id : string) (min_meetings limit : Z) (g : Graph)
  (rows : list CoOccurrence) (a b : EntityNode) :
  get_co_occurrences user_id min_meetings limit g = Some rows ->
  Z.of_nat (List.length (co_rows user_id min_meetings g)) <= limit ->
  In a (entities g) -> In b (entities g) ->
  n_user_id a = user_id -> n_user_id b = user_id ->
  n_id a <> n_id b ->
  1 <= shared_count g (n_id a) (n_id b) ->
  min_meetings <= shared_count g (n_id a) (n_id b) ->
  let row x y :=
    mkCoOccurrence x y (shared_count g (n_id x) (n_id y)) (shared_titles g (n_id x) (n_id y)) in
  shared_count g (n_id b) (n_id a) = shared_count g (n_id a) (n_id b)
  /\ ((In (row a b) rows /\ ~ In (row b a) rows)
      \/ (In (row b a) rows /\ ~ In (row a b) rows)).
Proof.
  intros Hget Hcov Ha Hb Ua Ub Hne H1 Hmin row.
  split; [apply shared_count_sym|].
  assert (Hrows : forall c, In c rows <-> In c (co_rows user_id min_meetings g)).
  { unfold get_co_occurrences in Hget.
    destruct (skip_limit_in _ _ _ _ Hget) as (_ & _ & _ & Hl & ->).
    cbn [Z.to_nat skipn]. rewrite firstn_all_le
      by (rewrite (Permutation_length (order_by_desc_perm _ _)); lia).
    intros c. split; apply Permutation_in;
      [apply order_by_desc_perm|apply Permutation_sym; apply order_by_desc_perm]. }
  destruct (string_ltb_total (n_id a) (n_id b) Hne) as [Hlt|Hlt].
  - left. split.
    + apply Hrows. apply in_co_rows. cbn. repeat split; auto.
    + intros Hin. apply Hrows in Hin. apply in_co_rows in Hin. cbn in Hin.
      destruct Hin as (_ & _ & _ & _ & Hlt' & _).
      rewrite (string_ltb_asym _ _ Hlt) in Hlt'. discriminate.
  - right. split.
    + apply Hrows. apply in_co_rows. cbn.
      rewrite (shared_count_sym g (n_id b) (n_id a)). repeat split; auto.
    + intros Hin. apply Hrows in Hin. apply in_co_rows in Hin. cbn in Hin.
      destruct Hin as (_ & _ & _ & _ & Hlt' & _).
      rewrite (string_ltb_asym _ _ Hlt) in Hlt'. discriminate.
Qed.

(** X23.  [infer_collaborations] and [get_co_occurrences] agree: after
    [infer_collaborations] has run with a threshold, every pair of people
    that [get_co_occurrences] reports for the same threshold has a
    [COLLABORATES_WITH] relationship from the first to the second, and each
    such relationship carries the reported number of shared meetings as its
    strength. *)
Theorem infer_collaborations_covers_co_occurrences
  (now : datetime) (user_id : string) (threshold limit : Z) (db : Neo4j)
  (rows : list CoOccurrence) (c : CoOccurrence) :
  let g' := graph (snd (infer_collaborations now user_id threshold db)) in
  get_co_occurrences user_id threshold limit g' = Some rows ->
  In c rows ->
  is_person (co_entity1 c) = true -> is_person (co_entity2 c) = true ->
  (exists r, In r (rels g')
             /\ rel_between (n_id (co_entity1 c)) (n_id (co_entity2 c))
                  "COLLABORATES_WITH" r = true)
  /\ (forall r, In r (rels g') ->
                rel_between (n_id (co_entity1 c)) (n_id (co_entity2 c))
                  "COLLABORATES_WITH" r = true ->
                strength_of r = Some (VInt (co_shared_meetings c))).
Proof.
  intros g' Hget Hc P1 P2.
  destruct (infer_collaborations_nodes now user_id threshold db) as (He & _ & Hm).
  fold g' in He, Hm.
  unfold get_co_occurrences in Hget.
  destruct (skip_limit_in _ _ _ _ Hget) as (Hin & _).
  apply Hin in Hc. apply (Permutation_in _ (order_by_desc_perm _ _)) in Hc.
  apply in_co_rows in Hc.
  destruct Hc as (H1 & H2 & U1 & U2 & Hlt & Ec & Hpos & Hmin & _).
  assert (Es : shared_count g' (n_id (co_entity1 c)) (n_id (co_entity2 c))
               = shared_count (graph db) (n_id (co_entity1 c)) (n_id (co_entity2 c))).
  { unfold shared_count, shared_meetings, mentioned_meetings. rewrite Hm. reflexivity. }
  rewrite He in H1, H2. rewrite Es in Ec.
  set (rws := collab_rows user_id threshold (graph db)).
  assert (Hrow : In (n_id (co_entity1 c), n_id (co_entity2 c),
                     shared_count (graph db) (n_id (co_entity1 c)) (n_id (co_entity2 c)))
                   rws).
  { apply in_collab_rows. exists (co_entity1 c), (co_entity2 c).
    repeat split; auto; try congruence; lia. }
  pose proof (fold_satisfies now (shared_count (graph db)) rws
                (collab_rows_consistent user_id threshold (graph db))
                (n_id (co_entity1 c)) (n_id (co_entity2 c)) (0, graph db)
                (or_intror Hrow)) as [Hne Hstr].
  cbn [fst snd] in Hne, Hstr.
  unfold g'. rewrite infer_collaborations_graph. fold rws. rewrite Ec. split.
  - destruct (filter _ _) as [|r l] eqn:Ef; [contradiction|].
    assert (Hr : In r (r :: l)) by (left; reflexivity).
    rewrite <- Ef in Hr. apply filter_In in Hr. exists r. exact Hr.
  - intros r Hr Hb. apply Hstr. apply filter_In. split; assumption.
Qed.

(* ------------------------------------------------------------------ *)
(** ** The theorems above on the sample graphs *)


Lemma delete_relationship_removes_witness :
  let from := Sample.node "Person" "p1" "dana" [] 4 100 in
  let to := Sample.node "Organization" "o1" "acme" [] 2 100 in
  let out := delete_relationship "p1" "o1" "WORKS_AT" "u1" Sample.g_linked in
  fst out = existsb (rel_between "p1" "o1" "WORKS_AT") (rels Sample.g_linked)
  /\ rels (snd out)
     = filter (fun r => negb (rel_between "p1" "o1" "WORKS_AT" r)) (rels Sample.g_linked)
  /\ entities (snd out) = entities Sample.g_linked
  /\ meetings (snd out) = meetings Sample.g_linked
  /\ mentions (snd out) = mentions Sample.g_linked.
Proof.
  intros from to.
  apply (delete_relationship_removes Sample.g_linked from to "WORKS_AT");
    cbn; tauto.
Defined.

(** Both parallel [WORKS_AT] relationships go with one call. *)
Example delete_relationship_parallel :
  let out := delete_relationship "p1" "o1" "WORKS_AT" "u1" Sample.g_linked in
  fst out = true
  /\ map (fun r => (rel_from r, rel_to r, rel_type r)) (rels (snd out))
     = [("p2", "p1", "COLLABORATES_WITH"); ("p1", "p2", "REPORTS_TO")].
Proof. vm_compute. split; reflexivity. Qed.

Lemma delete_relationship_not_found_witness :
  delete_relationship "p1" "o1" "WORKS_AT" "u2" Sample.g_linked = (false, Sample.g_linked).
Proof.
  apply (delete_relationship_not_found "p1" "o1" "WORKS_AT" "u2" Sample.g_linked).
  left. intros e He Ei. cbn in He.
  destruct He as [<-|[<-|[<-|[]]]]; cbn in *; congruence.
Defined.

Lemma create_then_delete_relationship_witness :
  fst (create_relationship 7 Sample.works_at (Sample.db_of Sample.g_people false))
  = Returned true
  /\ delete_relationship "p1" "o1" "WORKS_AT" "u1"
       (graph (snd (create_relationship 7 Sample.works_at
                      (Sample.db_of Sample.g_people false))))
     = (true, Sample.g_people).
Proof.
  apply (create_then_delete_relationship 7 Sample.works_at
           (Sample.db_of Sample.g_people false)
           (Sample.node "Person" "p1" "dana" [] 4 100)
           (Sample.node "Organization" "o1" "acme" [] 2 100)).
  - cbn; tauto.
  - reflexivity.
  - cbn; tauto.
  - reflexivity.
  - intros r [].
Defined.

(** With a relationship of the type already there, the round trip takes the
    older one away too. *)
Example create_then_delete_takes_older :
  List.length (rels Sample.g_linked) = 4%nat
  /\ List.length
       (rels (snd (delete_relationship "p1" "o1" "WORKS_AT" "u1"
                     (graph (snd (create_relationship 7 Sample.works_at
                                    (Sample.db_of Sample.g_linked true)))))))
     = 2%nat.
Proof. vm_compute. split; reflexivity. Qed.

(** The action item is listed with the entities. *)
Example get_entity_relationships_p1 :
  map (fun x => (match re_entity x with NEntity t => ("Entity", n_id t)
                                       | NOther i => ("", i) end,
                 re_relationship_type x, re_direction x))
    (get_entity_relationships "p1" "u1" "both" Sample.g_assigned)
  = [(("Entity", "o1"), "WORKS_AT", "outgoing");
     (("Entity", "p2"), "COLLABORATES_WITH", "incoming");
     (("Entity", "p2"), "REPORTS_TO", "outgoing");
     (("Entity", "o1"), "WORKS_AT", "outgoing");
     (("", "a1"), "ASSIGNED_TO", "outgoing")].
Proof. vm_compute. reflexivity. Qed.

Lemma get_entity_relationships_both_witness :
  Permutation (get_entity_relationships "p1" "u1" "both" Sample.g_assigned)
    (get_entity_relationships "p1" "u1" "outgoing" Sample.g_assigned
     ++ get_entity_relationships "p1" "u1" "incoming" Sample.g_assigned)
  /\ forall direction,
       direction <> "outgoing" -> direction <> "incoming" ->
       get_entity_relationships "p1" "u1" direction Sample.g_assigned
       = get_entity_relationships "p1" "u1" "both" Sample.g_assigned.
Proof.
  apply (get_entity_relationships_both "p1" "u1" Sample.g_assigned).
  intros r Hr. cbn in Hr.
  destruct Hr as [<-|[<-|[<-|[<-|[<-|[]]]]]]; cbn; congruence.
Defined.

(** A relationship from an entity to itself is listed once under ["both"],
    as outgoing, and once under each of the other two directions. *)
Example get_entity_relationships_self_loop :
  let g := set_rels Sample.g_people [mkRelEdge "p1" "p1" "MENTORS" []] in
  map re_direction (get_entity_relationships "p1" "u1" "both" g) = ["outgoing"]
  /\ map re_direction (get_entity_relationships "p1" "u1" "outgoing" g) = ["outgoing"]
  /\ map re_direction (get_entity_relationships "p1" "u1" "incoming" g) = ["incoming"].
Proof. vm_compute. repeat split; reflexivity. Qed.

Lemma get_co_occurrences_rows_witness :
  exists rows,
    get_co_occurrences "u1" 1 10 Sample.g_shared = Some rows
    /\ Z.of_nat (List.length rows) <= 10
    /\ descending co_shared_meetings rows
    /\ (forall c, In c rows ->
          In (co_entity1 c) (entities Sample.g_shared)
          /\ In (co_entity2 c) (entities Sample.g_shared)
          /\ n_user_id (co_entity1 c) = "u1"
          /\ n_user_id (co_entity2 c) = "u1"
          /\ String.ltb (n_id (co_entity1 c)) (n_id (co_entity2 c)) = true
          /\ co_shared_meetings c
             = shared_count Sample.g_shared (n_id (co_entity1 c)) (n_id (co_entity2 c))
          /\ 1 <= co_shared_meetings c /\ 1 <= co_shared_meetings c
          /\ co_meeting_titles c
             = shared_titles Sample.g_shared (n_id (co_entity1 c)) (n_id (co_entity2 c)))
    /\ (Z.of_nat (List.length (co_rows "u1" 1 Sample.g_shared)) <= 10 ->
        Permutation rows (co_rows "u1" 1 Sample.g_shared))
    /\ (forall l, l < 0 -> get_co_occurrences "u1" 1 l Sample.g_shared = None).
Proof.
  apply (get_co_occurrences_rows "u1" 1 10 Sample.g_shared). lia.
Defined.

(** The entity of the other owner shares the first meeting too, and is not
    paired. *)
Example get_co_occurrences_shared :
  option_map (map (fun c => (n_id (co_entity1 c), n_id (co_entity2 c),
                             co_shared_meetings c, co_meeting_titles c)))
    (get_co_occurrences "u1" 1 10 Sample.g_shared)
  = Some [("k1", "m1", 1, ["Weekly sync"])].
Proof. vm_compute. reflexivity. Qed.

Lemma get_co_occurrences_pair_once_witness :
  let a := Sample.node "Person" "p2" "noa" [] 3 100 in
  let b := Sample.node "Person" "p1" "dana" [] 4 100 in
  let g := Sample.g_people in
  let rows := [mkCoOccurrence b a 3 ["Weekly sync"]] in
  let row x y :=
    mkCoOccurrence x y (shared_count g (n_id x) (n_id y)) (shared_titles g (n_id x) (n_id y)) in
  shared_count g (n_id b) (n_id a) = shared_count g (n_id a) (n_id b)
  /\ ((In (row a b) rows /\ ~ In (row b a) rows)
      \/ (In (row b a) rows /\ ~ In (row a b) rows)).
Proof.
  intros a b g rows.
  apply (get_co_occurrences_pair_once "u1" 2 10 g rows a b).
  - reflexivity.
  - vm_compute. discriminate.
  - cbn; tauto.
  - cbn; tauto.
  - reflexivity.
  - reflexivity.
  - cbn. discriminate.
  - vm_compute. discriminate.
  - vm_compute. discriminate.
Defined.

Lemma infer_collaborations_covers_co_occurrences_witness :
  let g' := graph (snd (infer_collaborations 9 "u1" 3 (Sample.db_of Sample.g_linked true))) in
  (exists r, In r (rels g') /\ rel_between "p1" "p2" "COLLABORATES_WITH" r = true)
  /\ (forall r, In r (rels g') ->
                rel_between "p1" "p2" "COLLABORATES_WITH" r = true ->
                strength_of r = Some (VInt 3)).
Proof.
  apply (infer_collaborations_covers_co_occurrences 9 "u1" 3 10
           (Sample.db_of Sample.g_linked true)
           [mkCoOccurrence (Sample.node "Person" "p1" "dana" [] 4 100)
              (Sample.node "Person" "p2" "noa" [] 3 100) 3 ["Weekly sync"]]
           (mkCoOccurrence (Sample.node "Person" "p1" "dana" [] 4 100)
              (Sample.node "Person" "p2" "noa" [] 3 100) 3 ["Weekly sync"])).
  - reflexivity.
  - left. reflexivity.
  - reflexivity.
  - reflexivity.
Defined.

(* ------------------------------------------------------------------ *)
(** ** migrate_entity_mentions *)

Lemma migrate_entity_mentions_fold (records : list MentionRecord) (dry_run : bool) :
  forall (count : Z) (g : Graph),
    fold_left (fun (acc : Z * Graph) (m : MentionRecord) =>
                 let (count, g') := acc in
                 if dry_run then (count + 1, g')
                 else (count + 1, run_migrate_mention g' m))
      records (count, g)
    = (count + Z.of_nat (List.length records),
       if dry_run then g else fold_left run_migrate_mention records g).
Proof.
  induction records as [|m records IH]; intros count g.
  - cbn. rewrite Z.add_0_r. destruct dry_run; reflexivity.
  - cbn [fold_left List.length]. destruct dry_run.
    + rewrite IH. f_equal. lia.
    + rewrite IH. f_equal. lia.
Qed.

Lemma migrate_entity_mentions_eq (records : list MentionRecord) (dry_run : bool) (g : Graph) :
  migrate_entity_mentions records dry_run g
  = (Z.of_nat (List.length records),
     if dry_run then g else fold_left run_migrate_mention records g).
Proof.
  unfold migrate_entity_mentions. rewrite migrate_entity_mentions_fold. reflexivity.
Qed.

Lemma migrate_mention_step_mentions (m : MentionRecord) (g : Graph)
  (row : EntityNode * MeetingNode) :
  mentions (migrate_mention_step m g row)
  = match filter (mention_between (n_id (fst row)) (m_id (snd row))) (mentions g) with
    | [] => mentions g ++ [migrated_mention m (n_id (fst row)) (m_id (snd row))]
    | _ :: _ => map (fun r => if mention_between (n_id (fst row)) (m_id (snd row)) r
                              then counted_more 1 r else r) (mentions g)
    end.
Proof.
  unfold migrate_mention_step. destruct (filter _ (mentions g)); reflexivity.
Qed.

Lemma migrate_mention_step_nodes (m : MentionRecord) (g : Graph)
  (row : EntityNode * MeetingNode) :
  entities (migrate_mention_step m g row) = entities g
  /\ meetings (migrate_mention_step m g row) = meetings g
  /\ rels (migrate_mention_step m g row) = rels g.
Proof.
  unfold migrate_mention_step. destruct (filter _ (mentions g)); cbn; auto.
Qed.

Lemma run_migrate_mention_nodes (g : Graph) (m : MentionRecord) :
  entities (run_migrate_mention g m) = entities g
  /\ meetings (run_migrate_mention g m) = meetings g
  /\ rels (run_migrate_mention g m) = rels g.
Proof.
  unfold run_migrate_mention. generalize (list_prod (filter (has_id (mr_entity_id m)) (entities g))
               (filter (meeting_has_id (mr_session_id m)) (meetings g))).
  intros rows. revert g. induction rows as [|row rows IH]; intros g; [auto|].
  cbn [fold_left]. destruct (IH (migrate_mention_step m g row)) as (H1 & H2 & H3).
  destruct (migrate_mention_step_nodes m g row) as (E1 & E2 & E3).
  rewrite H1, H2, H3. auto.
Qed.

Lemma fold_run_migrate_nodes (records : list MentionRecord) (g : Graph) :
  entities (fold_left run_migrate_mention records g) = entities g
  /\ meetings (fold_left run_migrate_mention records g) = meetings g
  /\ rels (fold_left run_migrate_mention records g) = rels g.
Proof.
  revert g. induction records as [|m records IH]; intros g; [auto|].
  cbn [fold_left]. destruct (IH (run_migrate_mention g m)) as (H1 & H2 & H3).
  destruct (run_migrate_mention_nodes g m) as (E1 & E2 & E3).
  rewrite H1, H2, H3. auto.
Qed.

(** X24.  A dry run of [migrate_entity_mentions] reports every record of the
    table and leaves the graph as it is.  A real run touches [MENTIONED_IN]
    relationships only, and it writes nothing when no record has both its
    entity and its meeting in the graph.  (What a real run reports is left
    out: the source counts the records whose statement the store ran without
    raising.) *)
Theorem migrate_entity_mentions_dry_run (records : list MentionRecord) (g : Graph) :
  migrate_entity_mentions records true g = (Z.of_nat (List.length records), g)
  /\ entities (snd (migrate_entity_mentions records false g)) = entities g
  /\ meetings (snd (migrate_entity_mentions records false g)) = meetings g
  /\ rels (snd (migrate_entity_mentions records false g)) = rels g
  /\ ((forall m, In m records ->
         (forall e, In e (entities g) -> n_id e <> mr_entity_id m)
         \/ (forall mt, In mt (meetings g) -> m_id mt <> mr_session_id m)) ->
      snd (migrate_entity_mentions records false g) = g).
Proof.
  rewrite !migrate_entity_mentions_eq. cbn [fst snd].
  split; [reflexivity|].
  destruct (fold_run_migrate_nodes records g) as (H1 & H2 & H3).
  split; [exact H1|]. split; [exact H2|]. split; [exact H3|].
  clear H1 H2 H3. induction records as [|m records IH]; intros Hmiss; [reflexivity|].
  cbn [fold_left].
  assert (E : run_migrate_mention g m = g).
  { unfold run_migrate_mention.
    destruct (Hmiss m (or_introl eq_refl)) as [H|H].
    - rewrite (proj2 (filter_nil_iff _ (entities g))); [reflexivity|].
      intros e He. apply String.eqb_neq. exact (H e He).
    - rewrite (proj2 (filter_nil_iff _ (meetings g))); [|
        intros mt Hmt; apply String.eqb_neq; exact (H mt Hmt)].
      rewrite list_prod_nil_r. reflexivity. }
  rewrite E. apply IH. intros m' Hm'. apply Hmiss. right. exact Hm'.
Qed.

Lemma migrate_mention_step_keeps_unique (m : MentionRecord) (g : Graph)
  (row : EntityNode * MeetingNode) :
  mention_unique g -> mention_unique (migrate_mention_step m g row).
Proof.
  intros Hu a b. rewrite migrate_mention_step_mentions.
  set (eid := n_id (fst row)). set (mid := m_id (snd row)).
  destruct (filter (mention_between eid mid) (mentions g)) as [|r0 l] eqn:F.
  - rewrite filter_app, length_app. cbn [filter].
    destruct (mention_between a b (migrated_mention m eid mid)) eqn:E.
    + apply mention_between_true in E. cbn in E. destruct E as [<- <-].
      rewrite F. cbn. lia.
    + cbn. specialize (Hu a b). lia.
  - rewrite filter_map_commute.
    + rewrite length_map. apply Hu.
    + intros x. destruct (mention_between eid mid x); reflexivity.
Qed.

(** X25.  A real run of [migrate_entity_mentions] keeps the graph with at most
    one [MENTIONED_IN] relationship per entity and meeting, however often a
    pair occurs in the table. *)
Theorem migrate_entity_mentions_keeps_mention_unique
  (records : list MentionRecord) (g : Graph) :
  mention_unique g ->
  mention_unique (snd (migrate_entity_mentions records false g)).
Proof.
  rewrite migrate_entity_mentions_eq. cbn [snd].
  revert g. induction records as [|m records IH]; intros g Hu; [exact Hu|].
  cbn [fold_left]. apply IH. unfold run_migrate_mention.
  generalize (list_prod (filter (has_id (mr_entity_id m)) (entities g))
                (filter (meeting_has_id (mr_session_id m)) (meetings g))).
  intros rows. revert g Hu. induction rows as [|row rows IHr]; intros g Hu; [exact Hu|].
  cbn [fold_left]. apply IHr. apply migrate_mention_step_keeps_unique. exact Hu.
Qed.

Lemma counted_more_between (a b : string) (n : Z) (r : MentionEdge) :
  mention_between a b (counted_more n r) = mention_between a b r.
Proof. reflexivity. Qed.

Lemma counted_more_add (n k : Z) (r : MentionEdge) :
  counted_more k (counted_more n r) = counted_more (n + k) r.
Proof.
  unfold counted_more, set_mention_count. cbn. f_equal.
  destruct (r_mention_count r); cbn; [f_equal; lia|reflexivity].
Qed.

(** One record whose entity and meeting are in a graph with unique ids runs
    the [MERGE] clause once. *)
Lemma run_migrate_mention_one_row (g : Graph) (m : MentionRecord)
  (e : EntityNode) (mt : MeetingNode) :
  ids_unique g -> In e (entities g) -> In mt (meetings g) ->
  mr_entity_id m = n_id e -> mr_session_id m = m_id mt ->
  run_migrate_mention g m = migrate_mention_step m g (e, mt).
Proof.
  intros [He Hm] Hine Hinm Ee Em. unfold run_migrate_mention. rewrite Ee, Em.
  rewrite (filter_has_id_unique _ _ He Hine), (filter_meeting_unique _ _ Hm Hinm).
  reflexivity.
Qed.

(** A record for another pair leaves the relationships of this pair alone. *)
Lemma run_migrate_mention_other (g : Graph) (m : MentionRecord) (a b : string) :
  String.eqb (mr_entity_id m) a && String.eqb (mr_session_id m) b = false ->
  filter (mention_between a b) (mentions (run_migrate_mention g m))
  = filter (mention_between a b) (mentions g).
Proof.
  intros Hne. unfold run_migrate_mention.
  assert (Hrows : forall row,
             In row (list_prod (filter (has_id (mr_entity_id m)) (entities g))
                       (filter (meeting_has_id (mr_session_id m)) (meetings g))) ->
             (a, b) <> (n_id (fst row), m_id (snd row))).
  { intros [e mt] H. apply in_prod_iff in H. destruct H as [H1 H2].
    apply filter_In in H1. apply filter_In in H2. destruct H1 as [_ H1], H2 as [_ H2].
    apply String.eqb_eq in H1. apply String.eqb_eq in H2. cbn [fst snd].
    intros E. inversion E; subst a b. rewrite H1, H2, !String.eqb_refl in Hne.
    discriminate. }
  revert Hrows. generalize (list_prod (filter (has_id (mr_entity_id m)) (entities g))
               (filter (meeting_has_id (mr_session_id m)) (meetings g))).
  intros rows. revert g. induction rows as [|row rows IH]; intros g Hrows; [reflexivity|].
  cbn [fold_left]. rewrite IH by (intros r Hr; apply Hrows; right; exact Hr).
  rewrite migrate_mention_step_mentions.
  pose proof (Hrows row (or_introl eq_refl)) as Hrow.
  destruct (filter (mention_between (n_id (fst row)) (m_id (snd row))) (mentions g)).
  - rewrite filter_app. cbn [filter].
    replace (mention_between a b (migrated_mention m (n_id (fst row)) (m_id (snd row))))
      with false; [apply app_nil_r|].
    symmetry. apply (mention_between_other (n_id (fst row)) (m_id (snd row)) a b).
    + apply mention_between_true. cbn. auto.
    + exact Hrow.
  - rewrite filter_map_commute.
    + apply map_id_on. intros x Hx. apply filter_In in Hx. destruct Hx as [_ Hx].
      destruct (mention_between (n_id (fst row)) (m_id (snd row)) x) eqn:E; [|reflexivity].
      rewrite (mention_between_other _ _ a b x E Hrow) in Hx. discriminate.
    + intros x. destruct (mention_between (n_id (fst row)) (m_id (snd row)) x); reflexivity.
Qed.

Lemma fold_run_migrate_counts (e : EntityNode) (mt : MeetingNode)
  (records : list MentionRecord) :
  forall g,
    ids_unique g -> In e (entities g) -> In mt (meetings g) ->
    let hit := mention_between (n_id e) (m_id mt) in
    let mine := records_for (n_id e) (m_id mt) records in
    let after := filter hit (mentions (fold_left run_migrate_mention records g)) in
    (mine = [] -> after = filter hit (mentions g))
    /\ (filter hit (mentions g) <> [] ->
        after = map (counted_more (Z.of_nat (List.length mine))) (filter hit (mentions g)))
    /\ (filter hit (mentions g) = [] ->
        forall m0 rest, mine = m0 :: rest ->
          after = [counted_more (Z.of_nat (List.length rest))
                     (migrated_mention m0 (n_id e) (m_id mt))]).
Proof.
  induction records as [|m records IH]; intros g Hids He Hmt hit mine after.
  - subst after mine. cbn. split; [reflexivity|]. split; [|discriminate].
    intros Hne. symmetry. apply map_id_on. intros x Hx.
    destruct x as [x1 x2 x3 x4 x5 x6 [c|] x8 x9 x10];
      unfold counted_more, set_mention_count, cy_add;
      cbn [r_entity r_meeting r_context r_timestamp_start r_timestamp_end r_speaker
           r_mention_count r_sentiment r_created_at r_updated_at];
      [rewrite Z.add_0_r|]; reflexivity.
  - subst after mine. cbn [fold_left]. unfold records_for. cbn [filter].
    fold (records_for (n_id e) (m_id mt) records).
    destruct (run_migrate_mention_nodes g m) as (E1 & E2 & _).
    assert (Hids' : ids_unique (run_migrate_mention g m)).
    { destruct Hids as [Ha Hb]. split; [rewrite E1|rewrite E2]; assumption. }
    assert (He' : In e (entities (run_migrate_mention g m))) by (rewrite E1; exact He).
    assert (Hmt' : In mt (meetings (run_migrate_mention g m))) by (rewrite E2; exact Hmt).
    destruct (IH (run_migrate_mention g m) Hids' He' Hmt') as (I1 & I2 & I3).
    fold hit in I1, I2, I3.
    destruct (String.eqb (mr_entity_id m) (n_id e) && String.eqb (mr_session_id m) (m_id mt))
      eqn:Em.
    + apply andb_true_iff in Em. destruct Em as [Ee Es].
      apply String.eqb_eq in Ee. apply String.eqb_eq in Es.
      assert (Hstep : filter hit (mentions (run_migrate_mention g m))
                      = match filter hit (mentions g) with
                        | [] => [migrated_mention m (n_id e) (m_id mt)]
                        | l => map (counted_more 1) l
                        end).
      { rewrite (run_migrate_mention_one_row g m e mt Hids He Hmt Ee Es).
        rewrite migrate_mention_step_mentions. cbn [fst snd]. fold hit.
        destruct (filter hit (mentions g)) as [|r0 l] eqn:F.
        - rewrite filter_app, F. cbn [filter app]. unfold hit at 1.
          replace (mention_between (n_id e) (m_id mt) (migrated_mention m (n_id e) (m_id mt)))
            with true; [reflexivity|].
          symmetry. apply mention_between_true. cbn. auto.
        - rewrite filter_map_commute.
          + rewrite F. apply map_ext_in. intros x Hx.
            rewrite <- F in Hx. apply filter_In in Hx. destruct Hx as [_ ->]. reflexivity.
          + intros x. destruct (hit x) eqn:Ex; [|exact Ex]. unfold hit.
            rewrite counted_more_between. exact Ex. }
      split; [discriminate|]. split.
      * intros Hne. destruct (filter hit (mentions g)) as [|r0 l] eqn:F; [contradiction|].
        rewrite I2 by (rewrite Hstep; discriminate). rewrite Hstep, map_map.
        apply map_ext. intros x. rewrite counted_more_add. f_equal.
        cbn [List.length]. lia.
      * intros Hnil m0 rest Hm. inversion Hm; subst m0 rest. rewrite Hnil in Hstep.
        rewrite I2 by (rewrite Hstep; discriminate). rewrite Hstep. reflexivity.
    + pose proof (run_migrate_mention_other g m (n_id e) (m_id mt) Em) as Ho.
      fold hit in Ho. rewrite Ho in I1, I2, I3.
      split; [exact I1|]. split; [exact I2|exact I3].
Qed.

(** X26.  What a real run of [migrate_entity_mentions] does to the
    relationship between an entity and a meeting, both in a graph with unique
    ids.  Let [n] be the number of records of the table for this pair.  A
    relationship that was there before has its [mention_count] raised by [n],
    and nothing else changed; if there was none and [n] is at least 1, there
    is one afterwards, with the context and the creation time of the first of
    these records and with [mention_count] [n]; if [n] is 0 nothing
    changes.  Running the migration again therefore counts every record
    again. *)
Theorem migrate_entity_mentions_counts
  (records : list MentionRecord) (g : Graph) (e : EntityNode) (mt : MeetingNode) :
  ids_unique g -> In e (entities g) -> In mt (meetings g) ->
  let hit := mention_between (n_id e) (m_id mt) in
  let mine := records_for (n_id e) (m_id mt) records in
  let n := Z.of_nat (List.length mine) in
  let after := filter hit (mentions (snd (migrate_entity_mentions records false g))) in
  (mine = [] -> after = filter hit (mentions g))
  /\ (filter hit (mentions g) <> [] ->
      after = map (fun r => set_mention_count r (cy_add (r_mention_count r) (Some n))
                              (r_updated_at r))
                (filter hit (mentions g)))
  /\ (filter hit (mentions g) = [] ->
      forall m0, hd_error mine = Some m0 ->
        after = [mkMentionEdge (n_id e) (m_id mt) (mr_context m0) None None None (Some n) None
                   (Some (mr_created_at m0)) None]).
Proof.
  intros Hids He Hmt hit mine n after.
  unfold after. rewrite migrate_entity_mentions_eq. cbn [snd].
  destruct (fold_run_migrate_counts e mt records g Hids He Hmt) as (H1 & H2 & H3).
  fold hit mine in H1, H2, H3.
  split; [exact H1|]. split; [exact H2|].
  intros Hnil m0 Hm0. destruct mine as [|m1 rest] eqn:Emine; [discriminate|].
  inversion Hm0; subst m1. rewrite (H3 Hnil m0 rest eq_refl).
  assert (En : n = 1 + Z.of_nat (List.length rest)).
  { subst n. cbn [List.length]. lia. }
  rewrite En. reflexivity.
Qed.


(** The dry run reports the five records; the real run counts two of them
    on the relationship that was there and makes one relationship of two
    others, and has nothing to write for the entity that the graph does not
    have. *)
Example migrate_entity_mentions_sample :
  migrate_entity_mentions Sample.mention_records true Sample.g_shared
  = (5, Sample.g_shared)
  /\ map (fun r => (r_entity r, r_meeting r, r_context r, r_mention_count r))
       (mentions (snd (migrate_entity_mentions Sample.mention_records false Sample.g_shared)))
     = [("k1", "mt1", Some "said in passing", Some 4);
        ("m1", "mt1", Some "said in passing", Some 1);
        ("m1", "mt2", Some "said in passing", Some 4);
        ("x1", "mt1", Some "said in passing", Some 6);
        ("k1", "mt2", Some "second", Some 2)].
Proof. vm_compute. split; reflexivity. Qed.

(** A second run of the migration counts the same records again. *)
Example migrate_entity_mentions_twice :
  let once := snd (migrate_entity_mentions Sample.mention_records false Sample.g_shared) in
  let twice := snd (migrate_entity_mentions Sample.mention_records false once) in
  map r_mention_count (filter (mention_between "k1" "mt2") (mentions once)) = [Some 2]
  /\ map r_mention_count (filter (mention_between "k1" "mt2") (mentions twice)) = [Some 4].
Proof. vm_compute. split; reflexivity. Qed.

Lemma migrate_entity_mentions_keeps_mention_unique_witness :
  mention_unique (snd (migrate_entity_mentions Sample.mention_records false Sample.g_shared)).
Proof.
  apply (migrate_entity_mentions_keeps_mention_unique Sample.mention_records Sample.g_shared).
  apply mention_unique_of_NoDup. distinct_list.
Defined.

Lemma migrate_entity_mentions_counts_witness :
  let e := Sample.node "Organization" "k1" "acme" ["acme corp"] 5 100 in
  let mt := Sample.meeting "mt2" in
  let g := Sample.g_shared in
  let hit := mention_between (n_id e) (m_id mt) in
  let mine := records_for (n_id e) (m_id mt) Sample.mention_records in
  let n := Z.of_nat (List.length mine) in
  let after :=
    filter hit (mentions (snd (migrate_entity_mentions Sample.mention_records false g))) in
  (mine = [] -> after = filter hit (mentions g))
  /\ (filter hit (mentions g) <> [] ->
      after = map (fun r => set_mention_count r (cy_add (r_mention_count r) (Some n))
                              (r_updated_at r))
                (filter hit (mentions g)))
  /\ (filter hit (mentions g) = [] ->
      forall m0, hd_error mine = Some m0 ->
        after = [mkMentionEdge (n_id e) (m_id mt) (mr_context m0) None None None (Some n) None
                   (Some (mr_created_at m0)) None]).
Proof.
  intros e mt g.
  apply (migrate_entity_mentions_counts Sample.mention_records g e mt).
  - split; distinct_list.
  - cbn; tauto.
  - cbn; tauto.
Defined.

(* ------------------------------------------------------------------ *)
(** ** extract_entities at the default threshold, and the endpoint *)

Lemma grounded_confidence (str_lower : string -> string)
  (x : Extractor.Extraction) (e : Extractor.GroundedEntity) :
  Extractor.grounded str_lower x = Some e ->
  (Extractor.confidence e = f_0_8 \/ Extractor.confidence e = f_0_85
   \/ Extractor.confidence e = f_1_0)
  /\ Extractor.source_text e = Extractor.value e.
Proof.
  unfold Extractor.grounded. intros H.
  destruct (match Extractor.attr_get "normalized_value" _ with Some v => v | None => _ end)
    as [s|l]; [|discriminate].
  destruct (Extractor.char_interval x) as [ci|];
    (destruct (Extractor.alignment_status x) as [status|];
     [destruct (String.eqb status "EXACT");
      [|destruct (String.eqb status "APPROXIMATE")]|]);
    inversion H; subst e; cbn; auto.
Qed.

Lemma in_candidates (str_lower : string -> string)
  (extractions : list Extractor.Extraction) (e : Extractor.GroundedEntity) :
  In e (Extractor.candidates str_lower extractions)
  <-> exists x, In x extractions /\ Extractor.grounded str_lower x = Some e.
Proof.
  unfold Extractor.candidates. rewrite in_flat_map. split.
  - intros [x [Hx H]]. exists x. split; [exact Hx|].
    destruct (Extractor.grounded str_lower x); [|contradiction].
    destruct H as [->|[]]. reflexivity.
  - intros [x [Hx H]]. exists x. split; [exact Hx|]. rewrite H. left. reflexivity.
Qed.

Lemma candidates_length (str_lower : string -> string)
  (extractions : list Extractor.Extraction) :
  (List.length (Extractor.candidates str_lower extractions) <= List.length extractions)%nat.
Proof.
  induction extractions as [|x l IH]; [apply Nat.le_refl|].
  unfold Extractor.candidates in *. cbn [flat_map List.length]. rewrite length_app.
  destruct (Extractor.grounded str_lower x); cbn [List.length]; lia.
Qed.

(** X27.  The confidence that [extract_entities] gives to an entity is 0.8,
    0.85 or 1.0, so with [MIN_CONFIDENCE] unset the filter at 0.7 drops
    nothing: the function returns every entity that its loop has built, in
    the order of the extractions, at most one per extraction, each with its
    value as source text. *)
Theorem extract_entities_default_keeps_all
  (str_lower : string -> string) (py_float : string -> option float)
  (api_key : option string) (extractions : list Extractor.Extraction) :
  String.eqb (Extractor.str_or api_key "") "" = false ->
  Extractor.extract_entities str_lower py_float api_key (Some extractions) None
  = Returned (Extractor.candidates str_lower extractions)
  /\ (List.length (Extractor.candidates str_lower extractions)
      <= List.length extractions)%nat
  /\ forall e, In e (Extractor.candidates str_lower extractions) ->
       (Extractor.confidence e = f_0_8 \/ Extractor.confidence e = f_0_85
        \/ Extractor.confidence e = f_1_0)
       /\ Extractor.source_text e = Extractor.value e.
Proof.
  intros Hkey.
  assert (Hc : forall e, In e (Extractor.candidates str_lower extractions) ->
                 (Extractor.confidence e = f_0_8 \/ Extractor.confidence e = f_0_85
                  \/ Extractor.confidence e = f_1_0)
                 /\ Extractor.source_text e = Extractor.value e).
  { intros e He. apply in_candidates in He. destruct He as [x [_ Hx]].
    exact (grounded_confidence str_lower x e Hx). }
  split; [|split; [apply candidates_length|exact Hc]].
  unfold Extractor.extract_entities. rewrite Hkey. cbn [Extractor.min_confidence].
  f_equal. apply filter_all_true. intros e He.
  destruct (Hc e He) as [[-> | [-> | ->]] _]; vm_compute; reflexivity.
Qed.

Section Endpoint.

Variable str_lower : string -> string.
Variable py_float : string -> option float.
Variable str_strip : string -> string.
Variable str_len : string -> Z.

(** X28.  An answer of [POST /extract] with a body: the key check has passed,
    the transcript is neither empty nor blank nor longer than
    [MAX_TRANSCRIPT_LENGTH], the entities are those that [extract_entities]
    returned, each with both offsets, [total_extracted] is their number and
    the language is the one of the request. *)
Theorem extract_response_ok
  (env_key x_api_key env_openai : option string)
  (lx_result : option (list Extractor.Extraction)) (env_min : option string)
  (request : Service.ExtractionRequest)
  (entities : list Extractor.GroundedEntity) (total : Z) (lang : string) :
  Service.extract str_lower py_float str_strip str_len env_key x_api_key env_openai
    lx_result env_min request
  = Service.ExtractionResponse entities total lang ->
  Service.verify_api_key env_key x_api_key = true
  /\ Service.transcript request <> ""
  /\ str_strip (Service.transcript request) <> ""
  /\ str_len (Service.transcript request) <= Service.MAX_TRANSCRIPT_LENGTH
  /\ Extractor.extract_entities str_lower py_float env_openai lx_result env_min
     = Returned entities
  /\ (forall e, In e entities ->
        Extractor.start_offset e <> None /\ Extractor.end_offset e <> None)
  /\ total = Z.of_nat (List.length entities)
  /\ lang = Service.language request.
Proof.
  unfold Service.extract. intros H.
  destruct (Service.verify_api_key env_key x_api_key); [|discriminate]. cbn [negb] in H.
  destruct (String.eqb (Service.transcript request) "") eqn:E1; [discriminate|].
  destruct (String.eqb (str_strip (Service.transcript request)) "") eqn:E2; [discriminate|].
  cbn [orb] in H.
  destruct (Service.MAX_TRANSCRIPT_LENGTH <? str_len (Service.transcript request)) eqn:E3;
    [discriminate|].
  destruct (Extractor.extract_entities _ _ _ _ _) as [es|] eqn:Ee; [|discriminate].
  destruct (forallb Service.response_entity_ok es) eqn:Eo; [|discriminate].
  inversion H; subst entities total lang.
  apply String.eqb_neq in E1. apply String.eqb_neq in E2. apply Z.ltb_ge in E3.
  repeat split; auto.
  - rewrite forallb_forall in Eo. specialize (Eo e H0). unfold Service.response_entity_ok in Eo.
    destruct (Extractor.start_offset e); [discriminate|discriminate].
  - rewrite forallb_forall in Eo. specialize (Eo e H0). unfold Service.response_entity_ok in Eo.
    destruct (Extractor.start_offset e); [|discriminate].
    destruct (Extractor.end_offset e); [discriminate|discriminate].
Qed.

(** X29.  The statuses with which [verify_api_key] and [extract] fail on a
    request whose body fits [ExtractionRequest], and their causes in the
    order in which they are tested: 401 for a key check that fails, 400 for
    an empty or blank transcript, 413 for one that is too long, and 500 when,
    with the model configured and [lx.extract] successful, [MIN_CONFIDENCE]
    is not a number or an entity that passes the filter has no position for
    the response to carry.  The two functions raise no other status.  (A
    body that does not fit the model is not covered: the framework answers
    it with 422 and does not call [extract].) *)
Theorem extract_failure
  (env_key x_api_key env_openai : option string)
  (lx_result : option (list Extractor.Extraction)) (env_min : option string)
  (request : Service.ExtractionRequest) (status : Z) :
  Service.extract str_lower py_float str_strip str_len env_key x_api_key env_openai
    lx_result env_min request
  = Service.HTTPException status ->
  let blank := Service.transcript request = ""
               \/ str_strip (Service.transcript request) = "" in
  (status = 401 /\ Service.verify_api_key env_key x_api_key = false)
  \/ (status = 400 /\ Service.verify_api_key env_key x_api_key = true /\ blank)
  \/ (status = 413 /\ Service.verify_api_key env_key x_api_key = true /\ ~ blank
      /\ Service.MAX_TRANSCRIPT_LENGTH < str_len (Service.transcript request))
  \/ (status = 500 /\ Service.verify_api_key env_key x_api_key = true /\ ~ blank
      /\ str_len (Service.transcript request) <= Service.MAX_TRANSCRIPT_LENGTH
      /\ String.eqb (Extractor.str_or env_openai "") "" = false
      /\ exists extractions,
           lx_result = Some extractions
           /\ (Extractor.min_confidence py_float env_min = None
               \/ exists threshold e,
                    Extractor.min_confidence py_float env_min = Some threshold
                    /\ In e (Extractor.candidates str_lower extractions)
                    /\ float_ge (Extractor.confidence e) threshold = true
                    /\ (Extractor.start_offset e = None \/ Extractor.end_offset e = None))).
Proof.
  intros H. cbv zeta. unfold Service.extract in H.
  destruct (Service.verify_api_key env_key x_api_key); cbn [negb] in H;
    [|inversion H; left; auto].
  right.
  destruct (String.eqb (Service.transcript request) "") eqn:E1.
  { inversion H. left. apply String.eqb_eq in E1. auto. }
  destruct (String.eqb (str_strip (Service.transcript request)) "") eqn:E2.
  { inversion H. left. apply String.eqb_eq in E2. auto. }
  cbn [orb] in H. right.
  apply String.eqb_neq in E1. apply String.eqb_neq in E2.
  assert (Hnb : ~ (Service.transcript request = ""
                   \/ str_strip (Service.transcript request) = "")) by tauto.
  destruct (Service.MAX_TRANSCRIPT_LENGTH <? str_len (Service.transcript request)) eqn:E3.
  { inversion H. left. apply Z.ltb_lt in E3. auto. }
  right. apply Z.ltb_ge in E3.
  unfold Extractor.extract_entities in H.
  destruct (String.eqb (Extractor.str_or env_openai "") "") eqn:Ek; [discriminate|].
  destruct lx_result as [extractions|]; [|discriminate].
  destruct (Extractor.min_confidence py_float env_min) as [threshold|] eqn:Em.
  - destruct (forallb _ _) eqn:Eo; [discriminate|]. inversion H.
    repeat split; auto. exists extractions. split; [reflexivity|]. right.
    assert (Hex : exists e,
               In e (filter (fun e => float_ge (Extractor.confidence e) threshold)
                       (Extractor.candidates str_lower extractions))
               /\ Service.response_entity_ok e = false).
    { revert Eo. generalize (filter (fun e => float_ge (Extractor.confidence e) threshold)
                               (Extractor.candidates str_lower extractions)).
      intros l. induction l as [|a l IH]; [discriminate|]. cbn [forallb].
      destruct (Service.response_entity_ok a) eqn:Ea.
      - cbn [andb]. intros Hl. destruct (IH Hl) as [e [He Hb]].
        exists e. split; [right; exact He|exact Hb].
      - intros _. exists a. split; [left; reflexivity|exact Ea]. }
    destruct Hex as [e [He Hb]]. apply filter_In in He. destruct He as [He Hge].
    exists threshold, e. repeat split; auto.
    unfold Service.response_entity_ok in Hb.
    destruct (Extractor.start_offset e); [|left; reflexivity].
    destruct (Extractor.end_offset e); [discriminate|right; reflexivity].
  - inversion H. repeat split; auto. exists extractions. split; [reflexivity|]. left.
    reflexivity.
Qed.

(** X30.  Without a model the endpoint answers as if nothing had been found:
    for a request that passes the checks, an [OPENAI_API_KEY] that is unset
    or empty, or a failure of [lx.extract], gives the status 200 with no
    entity, also when [MIN_CONFIDENCE] is not a number, since this variable
    is read after the two early returns. *)
Theorem extract_without_model
  (env_key x_api_key env_openai : option string)
  (lx_result : option (list Extractor.Extraction)) (env_min : option string)
  (request : Service.ExtractionRequest) :
  Service.verify_api_key env_key x_api_key = true ->
  Service.transcript request <> "" ->
  str_strip (Service.transcript request) <> "" ->
  str_len (Service.transcript request) <= Service.MAX_TRANSCRIPT_LENGTH ->
  env_openai = None \/ env_openai = Some "" \/ lx_result = None ->
  Service.extract str_lower py_float str_strip str_len env_key x_api_key env_openai
    lx_result env_min request
  = Service.ExtractionResponse [] 0 (Service.language request).
Proof.
  intros Hk H1 H2 H3 Hm. unfold Service.extract. rewrite Hk. cbn [negb].
  apply String.eqb_neq in H1. apply String.eqb_neq in H2. rewrite H1, H2. cbn [orb].
  replace (Service.MAX_TRANSCRIPT_LENGTH <? str_len (Service.transcript request))
    with false by (symmetry; apply Z.ltb_ge; exact H3).
  assert (E : Extractor.extract_entities str_lower py_float env_openai lx_result env_min
              = Returned []).
  { unfold Extractor.extract_entities.
    destruct Hm as [-> | [-> | ->]]; try reflexivity.
    destruct (String.eqb (Extractor.str_or env_openai "") ""); reflexivity. }
  rewrite E. reflexivity.
Qed.

End Endpoint.


Lemma extract_entities_default_keeps_all_witness :
  Extractor.extract_entities lower_ascii Sample.float_0_9 (Some "sk-test")
    (Some Sample.extractions) None
  = Returned (Extractor.candidates lower_ascii Sample.extractions)
  /\ (List.length (Extractor.candidates lower_ascii Sample.extractions)
      <= List.length Sample.extractions)%nat
  /\ forall e, In e (Extractor.candidates lower_ascii Sample.extractions) ->
       (Extractor.confidence e = f_0_8 \/ Extractor.confidence e = f_0_85
        \/ Extractor.confidence e = f_1_0)
       /\ Extractor.source_text e = Extractor.value e.
Proof.
  apply (extract_entities_default_keeps_all lower_ascii Sample.float_0_9 (Some "sk-test")
           Sample.extractions).
  reflexivity.
Defined.

Lemma extract_response_ok_witness :
  let entities := Extractor.candidates lower_ascii Sample.extractions in
  Service.verify_api_key (Some "secret") (Some "secret") = true
  /\ Service.transcript Sample.request_budget <> ""
  /\ Sample.strip_ascii (Service.transcript Sample.request_budget) <> ""
  /\ Sample.len_ascii (Service.transcript Sample.request_budget)
     <= Service.MAX_TRANSCRIPT_LENGTH
  /\ Extractor.extract_entities lower_ascii Sample.float_0_9 (Some "sk-test")
       (Some Sample.extractions) None
     = Returned entities
  /\ (forall e, In e entities ->
        Extractor.start_offset e <> None /\ Extractor.end_offset e <> None)
  /\ 2 = Z.of_nat (List.length entities)
  /\ "en" = Service.language Sample.request_budget.
Proof.
  intros entities.
  apply (extract_response_ok lower_ascii Sample.float_0_9 Sample.strip_ascii Sample.len_ascii
           (Some "secret") (Some "secret") (Some "sk-test") (Some Sample.extractions) None
           Sample.request_budget entities 2 "en").
  reflexivity.
Defined.

Lemma extract_failure_witness :
  let blank := Service.transcript Sample.request_blank = ""
               \/ Sample.strip_ascii (Service.transcript Sample.request_blank) = "" in
  (400 = 401 /\ Service.verify_api_key None (Some "anything") = false)
  \/ (400 = 400 /\ Service.verify_api_key None (Some "anything") = true /\ blank)
  \/ (400 = 413 /\ Service.verify_api_key None (Some "anything") = true /\ ~ blank
      /\ Service.MAX_TRANSCRIPT_LENGTH
         < Sample.len_ascii (Service.transcript Sample.request_blank))
  \/ (400 = 500 /\ Service.verify_api_key None (Some "anything") = true /\ ~ blank
      /\ Sample.len_ascii (Service.transcript Sample.request_blank)
         <= Service.MAX_TRANSCRIPT_LENGTH
      /\ String.eqb (Extractor.str_or (Some "sk-test") "") "" = false
      /\ exists extractions,
           Some Sample.extractions = Some extractions
           /\ (Extractor.min_confidence Sample.float_0_9 None = None
               \/ exists threshold e,
                    Extractor.min_confidence Sample.float_0_9 None = Some threshold
                    /\ In e (Extractor.candidates lower_ascii extractions)
                    /\ float_ge (Extractor.confidence e) threshold = true
                    /\ (Extractor.start_offset e = None \/ Extractor.end_offset e = None))).
Proof.
  apply (extract_failure lower_ascii Sample.float_0_9 Sample.strip_ascii Sample.len_ascii
           None (Some "anything") (Some "sk-test") (Some Sample.extractions) None
           Sample.request_blank 400).
  reflexivity.
Defined.

Lemma extract_without_model_witness :
  Service.extract lower_ascii Sample.float_0_9 Sample.strip_ascii Sample.len_ascii
    (Some "secret") (Some "secret") None (Some Sample.extractions) (Some "high")
    Sample.request_budget
  = Service.ExtractionResponse [] 0 "en".
Proof.
  apply (extract_without_model lower_ascii Sample.float_0_9 Sample.strip_ascii
           Sample.len_ascii (Some "secret") (Some "secret") None (Some Sample.extractions)
           (Some "high") Sample.request_budget).
  - reflexivity.
  - discriminate.
  - vm_compute. discriminate.
  - vm_compute. discriminate.
  - left. reflexivity.
Defined.

(** The same request with the model configured: the unreadable
    [MIN_CONFIDENCE] now gives 500, a wrong key 401, and an entity without a
    start position 500. *)
Example extract_statuses :
  Service.extract lower_ascii Sample.float_0_9 Sample.strip_ascii Sample.len_ascii
    (Some "secret") (Some "secret") (Some "sk-test") (Some Sample.extractions) (Some "high")
    Sample.request_budget
  = Service.HTTPException 500
  /\ Service.extract lower_ascii Sample.float_0_9 Sample.strip_ascii Sample.len_ascii
       (Some "secret") (Some "guess") (Some "sk-test") (Some Sample.extractions) None
       Sample.request_blank
     = Service.HTTPException 401
  /\ Service.extract lower_ascii Sample.float_0_9 Sample.strip_ascii Sample.len_ascii
       (Some "secret") (Some "secret") (Some "sk-test")
       (Some (Sample.extractions ++ [Sample.extraction_unplaced])) None
       Sample.request_budget
     = Service.HTTPException 500.
Proof. vm_compute. repeat split; reflexivity. Qed.
